(** * The database-analysis manager of the chat backend (mcp_sqllite.py)

    A shallow embedding of [MCPSQLiteManager] and of the part of
    [ollama_utils.py] it calls, followed by the properties of the
    specification that are stated about it.

    Modelling conventions.
    - A Python [str] is a Rocq [string] holding its UTF-8 encoding; the
      operations that count or classify characters ([len], slices,
      [strip], [upper]) work on the characters, not on the bytes. White
      space is the set of [str.isspace]; the upper case of the characters
      outside ASCII is a variable of the model.
    - A decoded JSON value is a [json]; numbers are integers, a dict is
      the list of its items in insertion order, Python's [None] is
      [JNull].
    - The manager's fields, the subprocess pipe, the LLM endpoint and
      the persistence store are the components of a [World]; a method
      is a function from a world to an outcome ([Ok] or [Raised]) and
      the next world, so that [try]/[except] is an operation of the
      monad and the world survives an exception.
    - [json.loads], the [repr] of containers, the upper case of the
      characters outside ASCII and the configured name of the database
      file are the four variables of the section the model lives in. *)

From Stdlib Require Import String Ascii List NArith ZArith Bool Arith Lia.
From Stdlib Require Import Numbers.DecimalString Sorted.
Import ListNotations.

Set Warnings "-register-all".

Local Open Scope list_scope.
Local Open Scope string_scope.

(* ===================================================================== *)
(** ** Python strings *)
(* ===================================================================== *)

Module PyStr.

Definition chr (n : nat) : string := String (ascii_of_nat n) EmptyString.

(** The two characters no literal of this file contains. *)
Definition nl : string := chr 10.
Definition dq : string := chr 34.

Definition code (c : ascii) : nat := nat_of_ascii c.

Definition is_upper (c : ascii) : bool := Nat.leb 65 (code c) && Nat.leb (code c) 90.
Definition is_lower (c : ascii) : bool := Nat.leb 97 (code c) && Nat.leb (code c) 122.

Definition upper_char (c : ascii) : ascii :=
  if is_lower c then ascii_of_nat (code c - 32) else c.
Definition lower_char (c : ascii) : ascii :=
  if is_upper c then ascii_of_nat (code c + 32) else c.

(** [str.lower]. The letters A to Z are the only characters it maps to
    other letters of ASCII, but for U+0130 and U+212A, whose lower cases
    are an i followed by a combining dot and a k: no keyword of the manager
    holds a k or ends with an i, so the keyword tests made on the result
    do not depend on them. *)
Fixpoint lower (s : string) : string :=
  match s with
  | EmptyString => EmptyString
  | String c s' => String (lower_char c) (lower s')
  end.

(** *** Characters

    A [str] is a sequence of characters; the string that stands for it
    holds their UTF-8 encoding. A byte below 128 is a character by itself;
    a byte from 128 to 191 continues the character begun before it. *)
Definition is_ascii (c : ascii) : bool := Nat.ltb (code c) 128.

Definition is_continuation (c : ascii) : bool :=
  Nat.leb 128 (code c) && Nat.ltb (code c) 192.

(** The byte [c] and the character [ch] that follows it are one character. *)
Definition continues (c : ascii) (ch : string) : bool :=
  negb (is_ascii c)
  && match ch with
     | String d _ => is_continuation d
     | EmptyString => false
     end.

(** The characters of a string, as [for c in s] yields them. *)
Fixpoint chars (s : string) : list string :=
  match s with
  | EmptyString => []
  | String c s' =>
      match chars s' with
      | ch :: rest =>
          if continues c ch then String c ch :: rest
          else String c EmptyString :: ch :: rest
      | [] => [String c EmptyString]
      end
  end.

(** The string made of some characters. *)
Fixpoint implode (l : list string) : string :=
  match l with
  | [] => EmptyString
  | ch :: rest => ch ++ implode rest
  end.

(** The encoding of a code point. *)
Definition utf8 (n : N) : string :=
  if N.ltb n 128 then String (ascii_of_N n) EmptyString
  else if N.ltb n 2048 then
    String (ascii_of_N (192 + n / 64))
      (String (ascii_of_N (128 + n mod 64)) EmptyString)
  else if N.ltb n 65536 then
    String (ascii_of_N (224 + n / 4096))
      (String (ascii_of_N (128 + (n / 64) mod 64))
         (String (ascii_of_N (128 + n mod 64)) EmptyString))
  else
    String (ascii_of_N (240 + n / 262144))
      (String (ascii_of_N (128 + (n / 4096) mod 64))
         (String (ascii_of_N (128 + (n / 64) mod 64))
            (String (ascii_of_N (128 + n mod 64)) EmptyString))).

(** [len(s)] *)
Definition len (s : string) : nat := List.length (chars s).

(** [str.upper], character by character. The letters a to z are given
    here; [wide] is the upper case of a character outside ASCII, which may
    be several characters. *)
Definition upper_character (wide : string -> string) (ch : string) : string :=
  match ch with
  | String c EmptyString => if is_ascii c then String (upper_char c) EmptyString else wide ch
  | _ => wide ch
  end.

Definition upper (wide : string -> string) (s : string) : string :=
  implode (map (upper_character wide) (chars s)).

(** The code points of the characters [str.isspace] holds true of, which
    are those [str.strip] removes. *)
Definition space_points : list N :=
  [ 9; 10; 11; 12; 13; 28; 29; 30; 31; 32; 133; 160; 5760;
    8192; 8193; 8194; 8195; 8196; 8197; 8198; 8199; 8200; 8201; 8202;
    8232; 8233; 8239; 8287; 12288 ]%N.

Definition is_space (ch : string) : bool :=
  existsb (fun n => String.eqb ch (utf8 n)) space_points.

Fixpoint lstrip_chars (l : list string) : list string :=
  match l with
  | [] => []
  | ch :: rest => if is_space ch then lstrip_chars rest else l
  end.

Definition rstrip_chars (l : list string) : list string :=
  rev (lstrip_chars (rev l)).

(** [str.strip()] *)
Definition strip (s : string) : string :=
  implode (rstrip_chars (lstrip_chars (chars s))).

(** [s.startswith(p)] *)
Fixpoint startswith (p s : string) : bool :=
  match p, s with
  | EmptyString, _ => true
  | String a p', String b s' => Ascii.eqb a b && startswith p' s'
  | String _ _, EmptyString => false
  end.

(** [p in s] for two strings. *)
Fixpoint contains (p s : string) : bool :=
  startswith p s ||
  match s with
  | EmptyString => false
  | String _ s' => contains p s'
  end.

(** [s.replace(old, new)] for a non-empty [old]: the occurrences are taken
    from the left and do not overlap; [skip] counts the characters of the
    occurrence being replaced that are still to be dropped. *)
Fixpoint replace_from (skip : nat) (old new s : string) : string :=
  match s with
  | EmptyString => EmptyString
  | String c s' =>
      match skip with
      | S k => replace_from k old new s'
      | O =>
          if startswith old s
          then new ++ replace_from (String.length old - 1) old new s'
          else String c (replace_from 0 old new s')
      end
  end.

Definition replace (old new s : string) : string := replace_from 0 old new s.

(** [sep.join(parts)] *)
Fixpoint join (sep : string) (parts : list string) : string :=
  match parts with
  | [] => EmptyString
  | [p] => p
  | p :: rest => p ++ sep ++ join sep rest
  end.

(** [s.split(sep)] for a one-character separator. *)
Fixpoint split_char (sep : ascii) (s : string) : list string :=
  match s with
  | EmptyString => [EmptyString]
  | String c s' =>
      if Ascii.eqb c sep then EmptyString :: split_char sep s'
      else match split_char sep s' with
           | [] => [String c EmptyString]
           | w :: ws => String c w :: ws
           end
  end.

(** [s[:n]]: the first [n] characters. *)
Definition take (n : nat) (s : string) : string := implode (firstn n (chars s)).

(** [str(n)] for an integer. *)
Definition str_of_Z (z : Z) : string := NilZero.string_of_int (Z.to_int z).

(** Truth value of a string: it is not empty. *)
Definition nonempty (s : string) : bool :=
  match s with EmptyString => false | String _ _ => true end.

End PyStr.
Import PyStr.

(* ===================================================================== *)
(** ** Values, exceptions and outcomes *)
(* ===================================================================== *)

(** A decoded JSON value. *)
Inductive json : Type :=
| JNull
| JBool (b : bool)
| JNum (n : Z)
| JStr (s : string)
| JArr (elems : list json)
| JObj (items : list (string * json)).

(** The classes of exception the code can meet; all derive from
    [Exception]. [ValueError] stands for the JSON decoding errors as well,
    [EnvError] for what a collaborator raises (operating system, HTTP
    client, sqlite3), but for the [ProcessLookupError] of a process that is
    no more. *)
Inductive ExnClass : Type :=
| TypeError | AttributeError | KeyError | IndexError | ValueError
| HTTPException | ProcessLookupError | EnvError.

Record exn : Type := Exn { exn_class : ExnClass; exn_msg : string }.

Inductive Result (A : Type) : Type :=
| Ok (a : A)
| Raised (e : exn).
Arguments Ok {A} a.
Arguments Raised {A} e.

Definition rbind {A B} (r : Result A) (k : A -> Result B) : Result B :=
  match r with
  | Ok a => k a
  | Raised e => Raised e
  end.

Notation "x <-? r ;; k" := (rbind r (fun x => k))
  (at level 61, r at next level, right associativity).

Module Py.

(** [bool(v)] *)
Definition truthy (v : json) : bool :=
  match v with
  | JNull => false
  | JBool b => b
  | JNum n => negb (Z.eqb n 0)
  | JStr s => nonempty s
  | JArr l => match l with [] => false | _ => true end
  | JObj l => match l with [] => false | _ => true end
  end.

Definition is_none (v : json) : bool := match v with JNull => true | _ => false end.

(** [v == k] for a string [k]. *)
Definition eq_str (k : string) (v : json) : bool :=
  match v with JStr s => String.eqb k s | _ => false end.

(** [d.get(k)] on the items of a dict. *)
Fixpoint lookup (k : string) (items : list (string * json)) : option json :=
  match items with
  | [] => None
  | (k', v) :: rest => if String.eqb k k' then Some v else lookup k rest
  end.

Definition has_key (k : string) (items : list (string * json)) : bool :=
  match lookup k items with Some _ => true | None => false end.

Definition type_name (v : json) : string :=
  match v with
  | JNull => "NoneType" | JBool _ => "bool" | JNum _ => "int"
  | JStr _ => "str" | JArr _ => "list" | JObj _ => "dict"
  end.

Definition type_error (msg : string) : exn := Exn TypeError msg.

(** [k in v] for a string [k]. *)
Definition contains_key (k : string) (v : json) : Result bool :=
  match v with
  | JObj items => Ok (has_key k items)
  | JArr l => Ok (existsb (eq_str k) l)
  | JStr s => Ok (contains k s)
  | _ => Raised (type_error ("argument of type '" ++ type_name v ++ "' is not iterable"))
  end.

(** [v[k]] for a string [k]. *)
Definition getitem (v : json) (k : string) : Result json :=
  match v with
  | JObj items =>
      match lookup k items with
      | Some x => Ok x
      | None => Raised (Exn KeyError ("'" ++ k ++ "'"))
      end
  | JArr _ => Raised (type_error "list indices must be integers or slices, not str")
  | JStr _ => Raised (type_error "string indices must be integers, not 'str'")
  | _ => Raised (type_error ("'" ++ type_name v ++ "' object is not subscriptable"))
  end.

(** [v[0]] *)
Definition first (v : json) : Result json :=
  match v with
  | JArr (x :: _) => Ok x
  | JArr [] => Raised (Exn IndexError "list index out of range")
  | JStr s =>
      match chars s with
      | ch :: _ => Ok (JStr ch)
      | [] => Raised (Exn IndexError "string index out of range")
      end
  | JObj _ => Raised (Exn KeyError "0")
  | _ => Raised (type_error ("'" ++ type_name v ++ "' object is not subscriptable"))
  end.

(** [len(v)] *)
Definition len (v : json) : Result nat :=
  match v with
  | JStr s => Ok (PyStr.len s)
  | JArr l => Ok (List.length l)
  | JObj l => Ok (List.length l)
  | _ => Raised (type_error ("object of type '" ++ type_name v ++ "' has no len()"))
  end.

(** The values [for x in v] yields. *)
Definition iter (v : json) : Result (list json) :=
  match v with
  | JArr l => Ok l
  | JStr s => Ok (map JStr (chars s))
  | JObj l => Ok (map (fun kv => JStr (fst kv)) l)
  | _ => Raised (type_error ("'" ++ type_name v ++ "' object is not iterable"))
  end.

(** [v[:n]] *)
Definition slice_to (n : nat) (v : json) : Result json :=
  match v with
  | JArr l => Ok (JArr (firstn n l))
  | JStr s => Ok (JStr (take n s))
  | JObj _ => Raised (type_error "unhashable type: 'slice'")
  | _ => Raised (type_error ("'" ++ type_name v ++ "' object is not subscriptable"))
  end.

(** [v.values()], [v.items()]: methods of a dict only. *)
Definition items (v : json) : Result (list (string * json)) :=
  match v with
  | JObj l => Ok l
  | _ => Raised (Exn AttributeError ("'" ++ type_name v ++ "' object has no attribute 'items'"))
  end.

Definition values (v : json) : Result (list json) :=
  match v with
  | JObj l => Ok (map snd l)
  | _ => Raised (Exn AttributeError ("'" ++ type_name v ++ "' object has no attribute 'values'"))
  end.

End Py.

(* ===================================================================== *)
(** ** The world: the manager's fields and its collaborators *)
(* ===================================================================== *)

(** The handle of the child process: whether it has a standard-input
    pipe, its return code ([None] while it runs), whether [terminate] was
    requested, and whether the child has exited and been reaped, after
    which the transport holds no process any more. *)
Record Process : Type := mkProcess {
  stdin : bool;
  returncode : option Z;
  terminated : bool;
  reaped : bool }.

(** One exchange on the pipe, as the transport sees it: writing or
    reading raises, the read yields no bytes, the line does not decode as
    JSON, or it decodes to a value. *)
Inductive LineOutcome : Type :=
| WriteRaises (e : exn)
| ReadRaises (e : exn)
| NoBytes
| NotJson
| Line (j : json).

(** One [requests.post] to the LLM endpoint. *)
Inductive LlmOutcome : Type :=
| PostRaises (e : exn)
| Response (status_code : Z) (text : string).

(** A value read from a SQLite column. *)
Inductive sqlval : Type :=
| SqlNull
| SqlInt (n : Z)
| SqlReal (mantissa exponent : Z)
| SqlText (s : string)
| SqlBlob (b : string).

(** The persistence store as [_basic_database_analysis] meets it: whether
    [connect] raises, and what each of its four statements yields. The
    counts are integers, the dates are text or NULL. *)
Record Persistence : Type := mkPersistence {
  db_connect : option exn;
  db_session_count : Result Z;
  db_message_count : Result Z;
  db_recent_activity : Result (list (option string * Z));
  db_active_sessions : Result (list (sqlval * Z * option string)) }.

(** What the manager does to its collaborators, in order. [EvLlm] carries
    the question the prompt is built from. *)
Inductive Event : Type :=
| EvSend (request : json)
| EvLlm (question : string)
| EvDb
| EvTerminate.

Record World : Type := mkWorld {
  server_process : option Process;
  server_running : bool;
  request_id : Z;
  which_npx : Result Z;
  spawn : Result Process;
  pipe : list LineOutcome;
  llm : string -> LlmOutcome;
  store : Persistence;
  trace : list Event }.

Definition set_server_process (p : option Process) (w : World) : World :=
  mkWorld p (server_running w) (request_id w) (which_npx w) (spawn w) (pipe w)
          (llm w) (store w) (trace w).
Definition set_server_running (b : bool) (w : World) : World :=
  mkWorld (server_process w) b (request_id w) (which_npx w) (spawn w) (pipe w)
          (llm w) (store w) (trace w).
Definition set_request_id (n : Z) (w : World) : World :=
  mkWorld (server_process w) (server_running w) n (which_npx w) (spawn w) (pipe w)
          (llm w) (store w) (trace w).
Definition set_pipe (l : list LineOutcome) (w : World) : World :=
  mkWorld (server_process w) (server_running w) (request_id w) (which_npx w) (spawn w) l
          (llm w) (store w) (trace w).
Definition log (e : Event) (w : World) : World :=
  mkWorld (server_process w) (server_running w) (request_id w) (which_npx w) (spawn w)
          (pipe w) (llm w) (store w) (trace w ++ [e])%list.

(** A method: from a world to an outcome and the next world. *)
Definition M (A : Type) : Type := World -> Result A * World.

Definition ret {A} (a : A) : M A := fun w => (Ok a, w).
Definition raise {A} (e : exn) : M A := fun w => (Raised e, w).
Definition bind {A B} (m : M A) (k : A -> M B) : M B :=
  fun w => match m w with
           | (Ok a, w') => k a w'
           | (Raised e, w') => (Raised e, w')
           end.
(** [try: m  except Exception as e: h e] *)
Definition try_except {A} (m : M A) (h : exn -> M A) : M A :=
  fun w => match m w with
           | (Ok a, w') => (Ok a, w')
           | (Raised e, w') => h e w'
           end.
Definition lift {A} (r : Result A) : M A := fun w => (r, w).
Definition get : M World := fun w => (Ok w, w).
Definition modify (f : World -> World) : M unit := fun w => (Ok tt, f w).

Notation "x <- m ;; k" := (bind m (fun x => k))
  (at level 61, m at next level, right associativity).
Notation "m ;; k" := (bind m (fun _ => k))
  (at level 61, right associativity).


(* ===================================================================== *)
(** ** Constants and the pure helpers of the manager *)
(* ===================================================================== *)

Definition str_of_nat (n : nat) : string := str_of_Z (Z.of_nat n).

Definition truthy_str (o : option string) : bool :=
  match o with Some s => nonempty s | None => false end.

(** The keyword lists of [is_database_query] and [_is_metadata_query]. *)
Definition database_keywords : list string :=
  [ "database"; "db"; "sql"; "query"; "table"; "sessions"; "messages";
    "conversation"; "chat history"; "statistics"; "stats"; "count";
    "analyze"; "analysis"; "data"; "search history"; "most active";
    "recent sessions"; "message count"; "user activity"; "trends" ].

Definition metadata_keywords : list string :=
  [ "table"; "tables"; "schema"; "structure"; "columns"; "database structure";
    "what tables"; "how many tables"; "table names"; "table list" ].

(** [any(phrase in s for phrase in phrases)] *)
Definition any_in (phrases : list string) (s : string) : bool :=
  existsb (fun phrase => contains phrase s) phrases.

Definition is_database_query (message : string) : bool :=
  let message_lower := lower message in
  any_in database_keywords message_lower.

Definition _is_metadata_query (question : string) : bool :=
  let question_lower := lower question in
  any_in metadata_keywords question_lower.

Definition answer_header (user_question : string) : string :=
  "📊 **Answer to: " ++ dq ++ user_question ++ dq ++ "**".

Definition no_results_message (user_question : string) : string :=
  "❌ No results found for: " ++ dq ++ user_question ++ dq.

Definition no_analysis_message : string :=
  "No database analysis results available via MCP.".

Definition mcp_marker : string := "✅ *Analysis via MCP SQLite server*".
Definition basic_marker : string := "⚠️ *Using basic mode - MCP server not available*".

(** The code-fence removal of [_generate_sql_from_question]. *)
Definition clean_fences (sql_query : string) : string :=
  if startswith "```sql" sql_query
  then strip (replace "```" "" (replace "```sql" "" sql_query))
  else if startswith "```" sql_query
  then strip (replace "```" "" sql_query)
  else sql_query.

(** [_extract_query_results]: no step of it can raise. *)
Definition _extract_query_results (query_response : json) : json :=
  match query_response with
  | JObj items =>
      match Py.lookup "results" items with
      | Some r => r
      | None => JArr []
      end
  | JArr _ => query_response
  | _ => JArr []
  end.

(** [_extract_query_result]: a missing value is [None]. *)
Definition _extract_query_result (query_response : json) (column_name : string) : json :=
  match query_response with
  | JObj items =>
      match Py.lookup "results" items with
      | Some (JArr results) =>
          match results with
          | JObj row :: _ =>
              match Py.lookup column_name row with Some v => v | None => JNull end
          | _ => JNull
          end
      | _ =>
          match Py.lookup column_name items with Some v => v | None => JNull end
      end
  | _ => JNull
  end.

(** [process.terminate()]: the request is recorded and nothing is
    awaited; on a child that has been reaped the transport raises
    [ProcessLookupError], which carries no message. *)
Definition terminate (p : Process) : Result Process :=
  if reaped p then Raised (Exn ProcessLookupError "")
  else Ok (mkProcess (stdin p) (returncode p) true (reaped p)).

(** [session_id[:8] + "..."] on a column value: a slice of text, and a
    [TypeError] on anything else. *)
Definition short_id_of (session_id : sqlval) : Result string :=
  match session_id with
  | SqlText s => Ok (take 8 s ++ "...")
  | SqlNull => Raised (Py.type_error "'NoneType' object is not subscriptable")
  | SqlInt _ => Raised (Py.type_error "'int' object is not subscriptable")
  | SqlReal _ _ => Raised (Py.type_error "'float' object is not subscriptable")
  | SqlBlob _ => Raised (Py.type_error "can't concat str to bytes")
  end.

Definition str_of_date (d : option string) : string :=
  match d with Some s => s | None => "None" end.

(* ===================================================================== *)
(** ** Sample collaborators, for the worked runs *)
(* ===================================================================== *)

Module Sample.

(** A decoder given by the table of the texts it decodes; no other text
    decodes. *)
Definition decoder (table : list (string * json)) (text : string) : option json :=
  match find (fun entry => String.eqb text (fst entry)) table with
  | Some entry => Some (snd entry)
  | None => None
  end.

(** No run below prints a list or a dict. *)
Definition repr (v : json) : string := "[...]".

Definition db_name : string := "chat_history.db".

Definition process : Process := mkProcess true None false false.

(** A child that has exited and been reaped. *)
Definition dead : Process := mkProcess true (Some 1%Z) false true.

(** The characters outside ASCII whose upper case holds a letter of
    ASCII, each with its upper case, as code points: the sharp s, the
    dotless i, the long s, the ligatures and a few letters that have no
    capital of their own. The upper case of every other character outside
    ASCII holds no character of ASCII. *)
Definition upper_table : list (N * list N) :=
  [ (223, [83; 83]); (305, [73]); (329, [700; 78]); (383, [83]);
    (496, [74; 780]); (7830, [72; 817]); (7831, [84; 776]); (7832, [87; 778]);
    (7833, [89; 778]); (7834, [65; 702]); (64256, [70; 70]); (64257, [70; 73]);
    (64258, [70; 76]); (64259, [70; 70; 73]); (64260, [70; 70; 76]);
    (64261, [83; 84]); (64262, [83; 84]) ]%N.

(** An upper case given by this table; it leaves the other characters as
    they are, which the tests of the safety checks, made with words of
    ASCII, cannot tell from their upper case. *)
Definition to_upper (ch : string) : string :=
  match find (fun entry => String.eqb ch (utf8 (fst entry))) upper_table with
  | Some entry => implode (map utf8 (snd entry))
  | None => ch
  end.

(** The body of a chat reply whose content is [content], and its decoding. *)
Definition chat_body (content : string) : string :=
  "{" ++ dq ++ "message" ++ dq ++ ": {" ++ dq ++ "content" ++ dq ++ ": "
  ++ dq ++ content ++ dq ++ "}}".

Definition chat_json (content : string) : json :=
  JObj [("message", JObj [("content", JStr content)])].

Definition llm_replying (content : string) (question : string) : LlmOutcome :=
  Response 200 (chat_body content).

Definition llm_down (question : string) : LlmOutcome :=
  PostRaises (Exn EnvError "Connection refused").

(** The text block in which the server lists its tables, and its decoding. *)
Definition tables_text : string :=
  "[{" ++ dq ++ "name" ++ dq ++ ": " ++ dq ++ "sessions" ++ dq ++ "}, {"
  ++ dq ++ "name" ++ dq ++ ": " ++ dq ++ "messages" ++ dq ++ "}]".

Definition tables_json : json :=
  JArr [JObj [("name", JStr "sessions")]; JObj [("name", JStr "messages")]].

Definition loads : string -> option json :=
  decoder [ (chat_body "SELECT COUNT(*) FROM sessions",
             chat_json "SELECT COUNT(*) FROM sessions");
            (chat_body "DROP TABLE sessions", chat_json "DROP TABLE sessions");
            (tables_text, tables_json) ].

(** A response of the subprocess: protocol tag, id, result. *)
Definition response (id : Z) (result : json) : json :=
  JObj [("jsonrpc", JStr "2.0"); ("id", JNum id); ("result", result)].

(** A response that carries an error and no result. *)
Definition error_response (id : Z) (message : string) : json :=
  JObj [("jsonrpc", JStr "2.0"); ("id", JNum id);
        ("error", JObj [("code", JNum (-32000)); ("message", JStr message)])].

Definition text_result (text : string) : json :=
  JObj [("content", JArr [JObj [("type", JStr "text"); ("text", JStr text)]])].

Definition store_ok : Persistence :=
  mkPersistence None (Ok 3%Z) (Ok 12%Z)
    (Ok [(Some "2026-01-02", 2%Z)])
    (Ok [(SqlText "0a1b2c3d-4e5f", 7%Z, Some "2026-01-02 10:00:00")]).

Definition store_without_tables : Persistence :=
  mkPersistence None (Raised (Exn EnvError "no such table: sessions"))
    (Ok 0%Z) (Ok []) (Ok []).

(** A manager just created, on a machine without the launcher. *)
Definition created_without_launcher (db : Persistence) : World :=
  mkWorld None false 0 (Ok 1%Z) (Raised (Exn EnvError "No such file or directory: 'npx'"))
          [] llm_down db [].

(** A manager just created, on a machine where the subprocess starts and
    will answer with [lines]. *)
Definition created (lines : list LineOutcome) (answers : string -> LlmOutcome) : World :=
  mkWorld None false 0 (Ok 0%Z) (Ok process) lines answers store_ok [].

(** A manager just created, on a machine where the child exits at once. *)
Definition created_with_dead_child : World :=
  mkWorld None false 0 (Ok 0%Z) (Ok dead) [] llm_down store_ok [].

(** A running manager that has sent [id] requests. *)
Definition running (id : Z) (lines : list LineOutcome) (answers : string -> LlmOutcome)
  : World :=
  mkWorld (Some process) true id (Ok 0%Z) (Ok process) lines answers store_ok [].

(** Twelve rows of one column that is not the only content of the result. *)
Definition twelve_rows : list (list (string * json)) :=
  map (fun n => [("id", JNum n); ("role", JStr "user")])
      [1; 2; 3; 4; 5; 6; 7; 8; 9; 10; 11; 12]%Z.

End Sample.

(* ===================================================================== *)
(** ** The manager *)
(* ===================================================================== *)

Section Manager.

Set Default Proof Using "Type".

(** The upper case [str.upper] gives a character outside ASCII (both in
    UTF-8), [json.loads] on a string ([None]: it raises [JSONDecodeError]),
    the text Python prints for a list or a dict, and the configured name of
    the database file. *)
Variable unicode_upper : string -> string.
Variable json_loads : string -> option json.
Variable py_repr : json -> string.
Variable DATABASE_NAME : string.

(** Drops from a proof the variables of the section its statement does
    not mention. *)
Ltac only_stated :=
  try clear unicode_upper; try clear json_loads; try clear py_repr;
  try clear DATABASE_NAME.

(** The same, in a proof about the upper case. *)
Ltac only_upper :=
  try clear json_loads; try clear py_repr; try clear DATABASE_NAME.

(** [sql_query.upper()] *)
Definition str_upper (s : string) : string := upper unicode_upper s.

(** The safety checks of [_generate_sql_from_question]. *)
Definition is_safe (sql_query : string) : bool :=
  startswith "SELECT" (str_upper sql_query)
  && negb (contains "DROP" (str_upper sql_query))
  && negb (contains "DELETE" (str_upper sql_query))
  && negb (contains "UPDATE" (str_upper sql_query))
  && negb (contains "INSERT" (str_upper sql_query))
  && negb (String.eqb sql_query "INVALID").

Definition safety_filter (sql_query : string) : option string :=
  if is_safe sql_query then Some sql_query else None.

(** [str(v)], which is what an f-string inserts. *)
Definition py_str (v : json) : string :=
  match v with
  | JNull => "None"
  | JBool true => "True"
  | JBool false => "False"
  | JNum n => str_of_Z n
  | JStr s => s
  | _ => py_repr v
  end.

(** *** ollama_utils.parse_ollama_response *)

(** The loop over the lines of a streaming reply, last line first. Only a
    decoding error is caught per line; the loop left without a reply ends
    in an [HTTPException]. *)
Fixpoint scan_lines (lines : list string) : Result json :=
  match lines with
  | [] => Raised (Exn HTTPException "Failed to parse LLM response")
  | line :: rest =>
      if nonempty (strip line) then
        match json_loads line with
        | None => scan_lines rest
        | Some line_data =>
            has_message <-? Py.contains_key "message" line_data ;;
            if has_message then
              message <-? Py.getitem line_data "message" ;;
              has_content <-? Py.contains_key "content" message ;;
              if has_content then Py.getitem message "content"
              else scan_lines rest
            else scan_lines rest
        end
      else scan_lines rest
  end.

Definition parse_ollama_response (text : string) : Result json :=
  match json_loads text with
  | Some response_data =>
      message <-? Py.getitem response_data "message" ;;
      Py.getitem message "content"
  | None =>
      let response_lines := split_char (ascii_of_nat 10) (strip text) in
      scan_lines (rev response_lines)
  end.

(** *** Transport and protocol client *)

Definition _get_request_id : M Z :=
  w <- get ;;
  modify (set_request_id (request_id w + 1)) ;;
  ret (request_id w + 1)%Z.

(** One write and one read on the pipe. An exhausted pipe yields no
    bytes: the subprocess has closed its output. *)
Definition _send_mcp_request (request : json) : M json :=
  try_except
    (w <- get ;;
     match server_process w with
     | None => ret JNull
     | Some p =>
         if negb (stdin p) then ret JNull
         else
           modify (log (EvSend request)) ;;
           match pipe w with
           | [] => ret JNull
           | outcome :: rest =>
               modify (set_pipe rest) ;;
               match outcome with
               | WriteRaises e => raise e
               | ReadRaises e => raise e
               | NoBytes => ret JNull
               | NotJson => raise (Exn ValueError "Expecting value")
               | Line response => ret response
               end
           end
     end)
    (fun _ => ret JNull).

Definition initialize_request (id : Z) : json :=
  JObj [ ("jsonrpc", JStr "2.0"); ("id", JNum id); ("method", JStr "initialize");
         ("params", JObj [ ("protocolVersion", JStr "2024-11-05");
                           ("capabilities", JObj [("tools", JObj [])]);
                           ("clientInfo", JObj [ ("name", JStr "Leo Chatbot");
                                                 ("version", JStr "1.0.0") ]) ]) ].

Definition tool_request (id : Z) (tool_name : string) (arguments : json) : json :=
  JObj [ ("jsonrpc", JStr "2.0"); ("id", JNum id); ("method", JStr "tools/call");
         ("params", JObj [ ("name", JStr tool_name); ("arguments", arguments) ]) ].

(** [response and "result" in response] *)
Definition has_result (response : json) : Result bool :=
  if Py.truthy response then Py.contains_key "result" response else Ok false.

Definition _initialize_mcp_connection : M bool :=
  try_except
    (id <- _get_request_id ;;
     response <- _send_mcp_request (initialize_request id) ;;
     lift (has_result response))
    (fun _ => ret false).

(** The unwrapping of a tool result: the text of the first block of a
    [content] list, decoded when it decodes, and the result itself
    otherwise. [json.loads] on what is not a string raises [TypeError],
    which the code catches like a decoding error. *)
Definition unwrap_result (result : json) : Result json :=
  match result with
  | JObj fields =>
      match Py.lookup "content" fields with
      | Some (JArr (block :: _)) =>
          match block with
          | JObj b =>
              let text_content :=
                match Py.lookup "text" b with Some t => t | None => JStr "" end in
              match text_content with
              | JStr s =>
                  match json_loads s with
                  | Some v => Ok v
                  | None => Ok text_content
                  end
              | _ => Ok text_content
              end
          | _ => Raised (Exn AttributeError
                          ("'" ++ Py.type_name block ++ "' object has no attribute 'get'"))
          end
      | _ => Ok result
      end
  | _ => Ok result
  end.

Definition _call_mcp_tool (tool_name : string) (arguments : json) : M json :=
  try_except
    (id <- _get_request_id ;;
     response <- _send_mcp_request (tool_request id tool_name arguments) ;;
     ok <- lift (has_result response) ;;
     if ok then
       result <- lift (Py.getitem response "result") ;;
       lift (unwrap_result result)
     else ret JNull)
    (fun _ => ret JNull).

Definition start_server : M bool :=
  try_except
    (w <- get ;;
     rc <- lift (which_npx w) ;;
     if negb (Z.eqb rc 0) then ret false
     else
       p <- lift (spawn w) ;;
       modify (set_server_process (Some p)) ;;
       match returncode p with
       | None =>
           init_success <- _initialize_mcp_connection ;;
           if init_success then modify (set_server_running true) ;; ret true
           else ret false
       | Some _ => ret false
       end)
    (fun _ => ret false).

(** No handler surrounds the call of [terminate]: when it raises, the
    exception leaves [stop_server] and the flag is not cleared. *)
Definition stop_server : M unit :=
  w <- get ;;
  match server_process w with
  | Some p =>
      p' <- lift (terminate p) ;;
      modify (set_server_process (Some p')) ;;
      modify (log EvTerminate) ;;
      modify (set_server_running false)
  | None => ret tt
  end.

(** *** Query router: metadata questions *)

(** [len(tables['tables'])], [len(tables)] or ["Unknown"], as text. *)
Definition table_count_of (tables : json) : Result string :=
  match tables with
  | JObj fields =>
      match Py.lookup "tables" fields with
      | Some t => n <-? Py.len t ;; Ok (str_of_nat n)
      | None => Ok "Unknown"
      end
  | JArr l => Ok (str_of_nat (List.length l))
  | _ => Ok "Unknown"
  end.

Definition table_list_of (tables : json) : json :=
  match tables with
  | JObj fields =>
      match Py.lookup "tables" fields with
      | Some t => t
      | None => JArr []
      end
  | JArr _ => tables
  | _ => JArr []
  end.

Definition table_name_of (table : json) : string :=
  match table with
  | JObj fields =>
      match Py.lookup "name" fields with
      | Some name => py_str name
      | None => py_str table
      end
  | _ => py_str table
  end.

(** [for i, x in enumerate(xs, i)]: one line per element. *)
Fixpoint numbered {A} (line : nat -> A -> string) (i : nat) (xs : list A) : list string :=
  match xs with
  | [] => []
  | x :: rest => line i x :: numbered line (S i) rest
  end.

Definition _handle_metadata_query (user_question : string) : M (option string) :=
  try_except
    (let question_lower := lower user_question in
     if any_in ["how many tables"; "count tables"; "number of tables"] question_lower then
       tables <- _call_mcp_tool "list_tables" (JObj []) ;;
       if Py.truthy tables then
         table_count <- lift (table_count_of tables) ;;
         ret (Some (answer_header user_question ++ nl ++ nl ++ "**Result:** "
                    ++ table_count ++ " tables" ++ nl ++ nl
                    ++ "💡 *Used MCP list_tables tool*"))
       else ret None
     else if any_in ["what tables"; "list tables"; "table names"; "show tables"]
                    question_lower then
       tables <- _call_mcp_tool "list_tables" (JObj []) ;;
       if Py.truthy tables then
         let table_list := table_list_of tables in
         if Py.truthy table_list then
           elems <- lift (Py.iter table_list) ;;
           let formatted_tables :=
             numbered (fun i table => "  " ++ str_of_nat i ++ ". " ++ table_name_of table)
                      1 elems in
           ret (Some (answer_header user_question ++ nl ++ nl
                      ++ "**Tables in your database:**" ++ nl
                      ++ join nl formatted_tables ++ nl ++ nl
                      ++ "💡 *Used MCP list_tables tool*"))
         else ret None
       else ret None
     else if any_in ["database info"; "db info"; "database structure"] question_lower then
       db_info <- _call_mcp_tool "db_info" (JObj []) ;;
       if Py.truthy db_info then
         let formatted_info :=
           match db_info with
           | JObj fields =>
               map (fun kv => "  • " ++ fst kv ++ ": " ++ py_str (snd kv)) fields
           | _ => []
           end in
         ret (Some (answer_header user_question ++ nl ++ nl
                    ++ "**Database Information:**" ++ nl
                    ++ join nl formatted_info ++ nl ++ nl
                    ++ "💡 *Used MCP db_info tool*"))
       else ret None
     else ret None)
    (fun _ => ret None).

(** *** NL-to-SQL translator *)

Definition _generate_sql_from_question (question : string) : M (option string) :=
  try_except
    (w <- get ;;
     modify (log (EvLlm question)) ;;
     match llm w question with
     | PostRaises e => raise e
     | Response status_code text =>
         if Z.eqb status_code 200 then
           content <- lift (parse_ollama_response text) ;;
           match content with
           | JStr reply =>
               let sql_query := clean_fences (strip reply) in
               ret (safety_filter sql_query)
           | _ => raise (Exn AttributeError
                          ("'" ++ Py.type_name content ++ "' object has no attribute 'strip'"))
           end
         else ret None
     end)
    (fun _ => ret None).

(** *** Result formatter *)

Definition format_pair (kv : string * json) : string :=
  fst kv ++ ": " ++ py_str (snd kv).

Definition format_row (row : json) : string :=
  match row with
  | JObj fields => "  • " ++ join ", " (map format_pair fields)
  | _ => "  • " ++ py_str row
  end.

Definition format_data (data : json) : Result string :=
  if negb (Py.truthy data) then Ok "No data found."
  else
    n <-? Py.len data ;;
    single <-? (if Nat.eqb n 1
                then row <-? Py.first data ;; k <-? Py.len row ;; Ok (Nat.eqb k 1)
                else Ok false) ;;
    if single then
      row <-? Py.first data ;;
      vals <-? Py.values row ;;
      match vals with
      | value :: _ => Ok ("**Result:** " ++ py_str value)
      | [] => Raised (Exn IndexError "list index out of range")
      end
    else
      shown <-? Py.slice_to 10 data ;;
      rows <-? Py.iter shown ;;
      let formatted_lines := map format_row rows in
      let formatted_lines :=
        if Nat.ltb 10 n
        then List.app formatted_lines ["  ... and " ++ str_of_nat (n - 10) ++ " more rows"]
        else formatted_lines in
      Ok (join nl formatted_lines).

Definition _format_query_results (result : json) : string :=
  match format_data (_extract_query_results result) with
  | Ok text => text
  | Raised e => "Results available but formatting failed: " ++ exn_msg e
  end.

(** *** Fallback analyzer *)

(** The two multi-line statements, with the line breaks and the
    indentation of the source. *)
Definition indent16 : string := "                ".

Definition recent_activity_sql : string :=
  nl ++ indent16 ++ "SELECT DATE(s.last_activity) as date, COUNT(*) as sessions"
  ++ nl ++ indent16 ++ "FROM sessions s "
  ++ nl ++ indent16 ++ "WHERE s.last_activity > datetime('now', '-7 days')"
  ++ nl ++ indent16 ++ "GROUP BY DATE(s.last_activity) "
  ++ nl ++ indent16 ++ "ORDER BY date DESC "
  ++ nl ++ indent16 ++ "LIMIT 5"
  ++ nl ++ "            ".

Definition active_sessions_sql : string :=
  nl ++ indent16 ++ "SELECT s.id, COUNT(m.id) as message_count, "
  ++ nl ++ indent16 ++ "       datetime(s.last_activity) as last_active"
  ++ nl ++ indent16 ++ "FROM sessions s "
  ++ nl ++ indent16 ++ "LEFT JOIN messages m ON s.id = m.session_id "
  ++ nl ++ indent16 ++ "GROUP BY s.id "
  ++ nl ++ indent16 ++ "ORDER BY message_count DESC "
  ++ nl ++ indent16 ++ "LIMIT 3"
  ++ nl ++ "            ".

(** The arguments of the [query] tool. *)
Definition query_arguments (sql : string) : json :=
  JObj [("sql", JStr sql); ("values", JArr [])].

(** The value of [d[k]] where the code has tested [k in d]. *)
Definition field (k : string) (fields : list (string * json)) : json :=
  match Py.lookup k fields with Some v => v | None => JNull end.

Definition stats_table_list (tables : json) : json :=
  match tables with
  | JObj fields =>
      match Py.lookup "tables" fields with
      | Some t => t
      | None => JArr []
      end
  | JArr _ => tables
  | JStr _ => JArr [tables]
  | _ => JArr []
  end.

Definition activity_line (row : json) : list string :=
  match row with
  | JObj fields =>
      if Py.has_key "date" fields && Py.has_key "sessions" fields
      then ["  • " ++ py_str (field "date" fields) ++ ": "
            ++ py_str (field "sessions" fields) ++ " sessions"]
      else []
  | _ => []
  end.

Fixpoint session_lines (i : nat) (rows : list json) : list string :=
  match rows with
  | [] => []
  | row :: rest =>
      List.app
        match row with
        | JObj fields =>
            if forallb (fun key => Py.has_key key fields) ["id"; "message_count"; "last_active"]
            then
              let short_id := take 8 (py_str (field "id" fields)) ++ "..." in
              ["  " ++ str_of_nat i ++ ". Session " ++ short_id ++ ": "
               ++ py_str (field "message_count" fields) ++ " messages (last active: "
               ++ py_str (field "last_active" fields) ++ ")"]
            else []
        | _ => []
        end
        (session_lines (S i) rest)
  end.

Definition _get_mcp_database_stats : M (list string) :=
  let results : list string := [] in
  db_info <- _call_mcp_tool "db_info" (JObj []) ;;
  let results :=
    if Py.truthy db_info then
      List.app results
        (List.app ["📊 **Database Information (via MCP):**"; "Database: " ++ DATABASE_NAME]
           match db_info with
           | JObj fields =>
               map format_pair
                   (filter (fun kv => negb (String.eqb (fst kv) "tables")) fields)
           | _ => []
           end)
    else results in
  tables <- _call_mcp_tool "list_tables" (JObj []) ;;
  results <-
    (if Py.truthy tables then
       let table_list := stats_table_list tables in
       if Py.truthy table_list then
         elems <- lift (Py.iter table_list) ;;
         ret (List.app results [nl ++ "🗂️ **Tables:** " ++ join ", " (map py_str elems)])
       else ret results
     else ret results) ;;
  session_stats <-
    _call_mcp_tool "query" (query_arguments "SELECT COUNT(*) as total_sessions FROM sessions") ;;
  let results :=
    if Py.truthy session_stats then
      let total_sessions := _extract_query_result session_stats "total_sessions" in
      if negb (Py.is_none total_sessions)
      then List.app results [nl ++ "📈 **Total Sessions:** " ++ py_str total_sessions]
      else results
    else results in
  message_stats <-
    _call_mcp_tool "query" (query_arguments "SELECT COUNT(*) as total_messages FROM messages") ;;
  let results :=
    if Py.truthy message_stats then
      let total_messages := _extract_query_result message_stats "total_messages" in
      if negb (Py.is_none total_messages)
      then List.app results ["💬 **Total Messages:** " ++ py_str total_messages]
      else results
    else results in
  recent_activity <- _call_mcp_tool "query" (query_arguments recent_activity_sql) ;;
  results <-
    (if Py.truthy recent_activity then
       let activity_data := _extract_query_results recent_activity in
       if Py.truthy activity_data then
         rows <- lift (Py.iter activity_data) ;;
         ret (List.app results
                (List.app [nl ++ "📅 **Recent Activity (last 7 days):**"]
                          (flat_map activity_line rows)))
       else ret results
     else ret results) ;;
  active_sessions <- _call_mcp_tool "query" (query_arguments active_sessions_sql) ;;
  results <-
    (if Py.truthy active_sessions then
       let sessions_data := _extract_query_results active_sessions in
       if Py.truthy sessions_data then
         rows <- lift (Py.iter sessions_data) ;;
         ret (List.app results
                (List.app [nl ++ "🔥 **Most Active Sessions:**"] (session_lines 1 rows)))
       else ret results
     else ret results) ;;
  match results with
  | [] => ret results
  | _ => ret (List.app results [nl ++ mcp_marker])
  end.

(** The rows of the most active sessions, numbered from [i]. *)
Fixpoint basic_session_lines (i : nat) (rows : list (sqlval * Z * option string))
  : Result (list string) :=
  match rows with
  | [] => Ok []
  | (session_id, msg_count, last_active) :: rest =>
      short_id <-? short_id_of session_id ;;
      lines <-? basic_session_lines (S i) rest ;;
      Ok (("  " ++ str_of_nat i ++ ". Session " ++ short_id ++ ": "
           ++ str_of_Z msg_count ++ " messages (last active: "
           ++ str_of_date last_active ++ ")") :: lines)
  end.

Definition basic_activity_line (row : option string * Z) : string :=
  "  • " ++ str_of_date (fst row) ++ ": " ++ str_of_Z (snd row) ++ " sessions".

Definition _basic_database_analysis : M string :=
  try_except
    (w <- get ;;
     modify (log EvDb) ;;
     match db_connect (store w) with
     | Some e => raise e
     | None =>
         session_count <- lift (db_session_count (store w)) ;;
         let results := ["📊 **Total Sessions:** " ++ str_of_Z session_count] in
         message_count <- lift (db_message_count (store w)) ;;
         let results := List.app results ["💬 **Total Messages:** " ++ str_of_Z message_count] in
         recent_activity <- lift (db_recent_activity (store w)) ;;
         let results :=
           match recent_activity with
           | [] => results
           | _ => List.app results
                    ((nl ++ "📅 **Recent Activity (last 7 days):**")
                       :: map basic_activity_line recent_activity)
           end in
         active_sessions <- lift (db_active_sessions (store w)) ;;
         results <-
           match active_sessions with
           | [] => ret results
           | _ =>
               lines <- lift (basic_session_lines 1 active_sessions) ;;
               ret (List.app results ((nl ++ "🔥 **Most Active Sessions:**") :: lines))
           end ;;
         let results := List.app results [nl ++ basic_marker] in
         ret (join nl results)
     end)
    (fun e => ret ("Error analyzing database: " ++ exn_msg e)).

(** *** Query router *)

Definition _handle_natural_language_query (user_question : string) : M (option string) :=
  try_except
    (metadata_result <-
       (if _is_metadata_query user_question
        then _handle_metadata_query user_question
        else ret None) ;;
     if truthy_str metadata_result then ret metadata_result
     else
       sql_query <- _generate_sql_from_question user_question ;;
       match sql_query with
       | Some sql =>
           if nonempty sql then
             result <- _call_mcp_tool "query" (query_arguments sql) ;;
             if Py.truthy result then
               let formatted_result := _format_query_results result in
               ret (Some (answer_header user_question ++ nl ++ nl ++ formatted_result
                          ++ nl ++ nl ++ "💡 *Generated SQL: `" ++ sql ++ "`*"))
             else ret (Some (no_results_message user_question))
           else ret None
       | None => ret None
       end)
    (fun _ => ret None).

(** [user_question and user_question.strip()] *)
Definition has_question (user_question : option string) : bool :=
  match user_question with
  | Some q => nonempty q && nonempty (strip q)
  | None => false
  end.

(** The default analysis through the subprocess: the part of
    [execute_database_query] after the natural-language attempt. *)
Definition default_analysis : M string :=
  results <- _get_mcp_database_stats ;;
  match results with
  | [] => ret no_analysis_message
  | _ => ret (join nl results)
  end.

Definition execute_database_query (user_question : option string) : M string :=
  w <- get ;;
  if negb (server_running w) then _basic_database_analysis
  else
    try_except
      (custom_result <-
         match user_question with
         | Some q =>
             if has_question user_question
             then _handle_natural_language_query q
             else ret None
         | None => ret None
         end ;;
       if truthy_str custom_result
       then ret (match custom_result with Some r => r | None => EmptyString end)
       else default_analysis)
      (fun _ => _basic_database_analysis).

(* ===================================================================== *)
(** ** The vocabulary of the specification *)
(* ===================================================================== *)

(** [k] occurs in [s] as a substring. *)
Definition occurs_in (k s : string) : Prop :=
  exists pre post, s = pre ++ k ++ post.

(** [s] ends with [suffix]. *)
Definition ends_with (suffix s : string) : Prop :=
  exists pre, s = pre ++ suffix.

(** Two characters that are equal, or the two cases of one letter. *)
Inductive same_letter : ascii -> ascii -> Prop :=
| same_char c : same_letter c c
| same_raised c : is_lower c = true -> same_letter c (upper_char c)
| same_lowered c : is_lower c = true -> same_letter (upper_char c) c.

(** Two strings equal up to the case of their letters. *)
Inductive eq_nocase : string -> string -> Prop :=
| eq_nocase_nil : eq_nocase EmptyString EmptyString
| eq_nocase_cons c d s t :
    same_letter c d -> eq_nocase s t -> eq_nocase (String c s) (String d t).

(** [s] begins with [word], case-insensitively. *)
Definition begins_nocase (word s : string) : Prop :=
  exists p rest, s = p ++ rest /\ eq_nocase p word.

(** [s] contains [word], case-insensitively. *)
Definition contains_nocase (word s : string) : Prop :=
  exists pre p post, s = pre ++ p ++ post /\ eq_nocase p word.

(** A statement the safety filter of the specification lets through. *)
Definition acceptable (s : string) : Prop :=
  begins_nocase "SELECT" s
  /\ ~ contains_nocase "DROP" s
  /\ ~ contains_nocase "DELETE" s
  /\ ~ contains_nocase "UPDATE" s
  /\ ~ contains_nocase "INSERT" s
  /\ s <> "INVALID".

(** The words a statement must not hold. *)
Definition denied_words : list string := ["DROP"; "DELETE"; "UPDATE"; "INSERT"].

(** A statement whose upper case, as [str.upper] gives it, begins with
    SELECT and holds none of the denied words, and which is not the word
    INVALID. *)
Definition passes_checks (s : string) : Prop :=
  (exists rest, str_upper s = "SELECT" ++ rest)
  /\ (forall word, In word denied_words -> ~ occurs_in word (str_upper s))
  /\ s <> "INVALID".

(** A text made of characters of ASCII only. *)
Fixpoint ascii_only (s : string) : bool :=
  match s with
  | EmptyString => true
  | String c s' => is_ascii c && ascii_only s'
  end.

(** The upper case of a text in which only the letters a to z count. *)
Fixpoint upper_ascii (s : string) : string :=
  match s with
  | EmptyString => EmptyString
  | String c s' => String (upper_char c) (upper_ascii s')
  end.

(** A string made of white-space characters only (the empty string
    included). *)
Definition only_whitespace (s : string) : bool := forallb is_space (chars s).

(** A question that is [None], empty or white space: what [strip]
    leaves nothing of. *)
Definition blank (user_question : option string) : Prop :=
  match user_question with
  | None => True
  | Some q => only_whitespace q = true
  end.

(** A row as a bullet of comma-joined [key: value] pairs, in the order
    of the row. *)
Definition bullet (row : list (string * json)) : string :=
  "  • " ++ join ", " (map (fun kv => fst kv ++ ": " ++ py_str (snd kv)) row).

(** The line that counts the rows left out. *)
Definition remainder_line (n : nat) : string :=
  "  ... and " ++ str_of_nat n ++ " more rows".

(** A method respects a relation between worlds when every run of it,
    returning or raising, takes a world to a related one. *)
Definition respects {A} (R : World -> World -> Prop) (m : M A) : Prop :=
  forall w r w', m w = (r, w') -> R w w'.

(** The manager's process handle and running flag are those of before. *)
Definition same_manager (w w' : World) : Prop :=
  server_process w' = server_process w /\ server_running w' = server_running w.

(** The trace has grown by events that all satisfy [P]. *)
Definition extends_with (P : Event -> Prop) (w w' : World) : Prop :=
  exists added, trace w' = List.app (trace w) added /\ Forall P added.

(** The tool a request calls, when it is a [tools/call] request. *)
Definition tool_of (request : json) : option string :=
  match request with
  | JObj fields =>
      match Py.lookup "method" fields, Py.lookup "params" fields with
      | Some (JStr "tools/call"), Some (JObj params) =>
          match Py.lookup "name" params with
          | Some (JStr name) => Some name
          | _ => None
          end
      | _, _ => None
      end
  | _ => None
  end.

(** The events of the NL-to-SQL path: a post to the LLM, a call of the
    [query] tool. *)
Definition nl_to_sql_event (e : Event) : Prop :=
  match e with
  | EvLlm _ => True
  | EvSend request => tool_of request = Some "query"
  | _ => False
  end.

(** A call of the tool [name]. *)
Definition calls_tool (name : string) (e : Event) : Prop :=
  exists id arguments, e = EvSend (tool_request id name arguments).

(** Any request on the pipe, and nothing else. *)
Definition pipe_event (e : Event) : Prop :=
  match e with EvSend _ => True | _ => False end.

(** The manager as [__init__] leaves it. *)
Definition fresh (w : World) : Prop :=
  server_process w = None /\ server_running w = false /\ request_id w = 0%Z.

(** What the application does with its manager. *)
Inductive Call : Type :=
| CallStart
| CallStop
| CallExecute (user_question : option string).

Definition run_call (c : Call) (w : World) : World :=
  match c with
  | CallStart => snd (start_server w)
  | CallStop => snd (stop_server w)
  | CallExecute user_question => snd (execute_database_query user_question w)
  end.

(** Between two calls the collaborators may change, and the child process
    with them; the manager's own fields do not, and a handle once stored
    stays stored. *)
Definition environment_step (w w' : World) : Prop :=
  server_running w' = server_running w
  /\ request_id w' = request_id w
  /\ (server_process w' = None <-> server_process w = None).

(** The worlds a manager can be in. *)
Inductive reachable : World -> Prop :=
| reach_fresh w : fresh w -> reachable w
| reach_call w c : reachable w -> reachable (run_call c w)
| reach_environment w w' : reachable w -> environment_step w w' -> reachable w'.

(** The flag [server_running] is set only on a manager that holds a
    process handle. *)
Definition running_has_process (w : World) : Prop :=
  server_running w = true -> server_process w <> None.

(** A method that returns a value from every world: no exception leaves
    it. *)
Definition returns {A} (m : M A) : Prop :=
  forall w, exists a w', m w = (Ok a, w').

(** [s.endswith(suffix)], to decide [ends_with] on given texts. *)
Fixpoint endswith (suffix s : string) : bool :=
  String.eqb s suffix ||
  match s with
  | EmptyString => false
  | String _ s' => endswith suffix s'
  end.

(** The persistence store answers all four statements of the direct
    analysis, and every session id it lists is text. *)
Definition persistence_answers (db : Persistence) : Prop :=
  db_connect db = None
  /\ (exists n, db_session_count db = Ok n)
  /\ (exists n, db_message_count db = Ok n)
  /\ (exists rows, db_recent_activity db = Ok rows)
  /\ (exists rows, db_active_sessions db = Ok rows
                   /\ Forall (fun row => exists s, fst (fst row) = SqlText s) rows).

(** The first exception the direct analysis meets: that of the
    connection, of one of the four statements in the order they are run,
    or of the first session id that is not text. *)
Fixpoint id_failure (rows : list (sqlval * Z * option string)) : option exn :=
  match rows with
  | [] => None
  | row :: rest =>
      match short_id_of (fst (fst row)) with
      | Raised e => Some e
      | Ok _ => id_failure rest
      end
  end.

Definition first_failure (db : Persistence) : option exn :=
  match db_connect db, db_session_count db, db_message_count db,
        db_recent_activity db, db_active_sessions db with
  | Some e, _, _, _, _ => Some e
  | None, Raised e, _, _, _ => Some e
  | None, Ok _, Raised e, _, _ => Some e
  | None, Ok _, Ok _, Raised e, _ => Some e
  | None, Ok _, Ok _, Ok _, Raised e => Some e
  | None, Ok _, Ok _, Ok _, Ok rows => id_failure rows
  end.

(** Every value a method returns satisfies [Q]. *)
Definition ensures {A} (Q : A -> Prop) (m : M A) : Prop :=
  forall w a w', m w = (Ok a, w') -> Q a.

(** The calls of the default analysis: tool and arguments. *)
Definition canned_calls : list (string * json) :=
  [ ("db_info", JObj []);
    ("list_tables", JObj []);
    ("query", query_arguments "SELECT COUNT(*) as total_sessions FROM sessions");
    ("query", query_arguments "SELECT COUNT(*) as total_messages FROM messages");
    ("query", query_arguments recent_activity_sql);
    ("query", query_arguments active_sessions_sql) ].

(** An event of the fallback stages: one of the canned calls, or the
    direct access to the store. *)
Definition canned_event (e : Event) : Prop :=
  e = EvDb
  \/ exists id call, In call canned_calls
                     /\ e = EvSend (tool_request id (fst call) (snd call)).

(** A call of one of the two tools the metadata handler uses. *)
Definition metadata_event (e : Event) : Prop :=
  exists id name, (name = "list_tables" \/ name = "db_info")
                  /\ e = EvSend (tool_request id name (JObj [])).

(** The response the transport hands over for the next outcome on the
    pipe: the decoded line, and [None] in every other case. *)
Definition received (o : option LineOutcome) : json :=
  match o with
  | Some (Line response) => response
  | _ => JNull
  end.

(** The world after one exchange on the pipe. *)
Definition after_exchange (request : json) (w : World) : World :=
  set_pipe (tl (pipe w)) (log (EvSend request) w).

(** The value of a tool result after unwrapping; an exception met while
    unwrapping leaves [None]. *)
Definition unwrapped (result : json) : json :=
  match unwrap_result result with
  | Ok v => v
  | Raised _ => JNull
  end.

(** What a tool call yields for the next outcome on the pipe: the
    unwrapped result of a response that has one, and [None] otherwise. *)
Definition tool_result (o : option LineOutcome) : json :=
  match has_result (received o) with
  | Ok true =>
      match Py.getitem (received o) "result" with
      | Ok result => unwrapped result
      | Raised _ => JNull
      end
  | _ => JNull
  end.

(** The query tool call fails: the response is absent, or it has no
    [result] field. *)
Definition tool_call_fails (o : option LineOutcome) : Prop :=
  match o with
  | Some (Line response) => has_result response <> Ok true
  | _ => True
  end.


(** The phrases by which [_handle_metadata_query] picks a branch: the
    count of the tables, their list, the database information. *)
Definition count_phrases : list string :=
  ["how many tables"; "count tables"; "number of tables"].
Definition list_phrases : list string :=
  ["what tables"; "list tables"; "table names"; "show tables"].
Definition info_phrases : list string :=
  ["database info"; "db info"; "database structure"].


(** The conditions under which the subprocess comes up: the launcher is
    found, the process is spawned with a standard input and has not exited,
    and the first line it writes is a response with a result. *)
Definition comes_up (w : World) (p : Process) : Prop :=
  which_npx w = Ok 0%Z
  /\ spawn w = Ok p
  /\ returncode p = None
  /\ stdin p = true
  /\ exists response rest,
      pipe w = Line response :: rest /\ has_result response = Ok true.


(** The id a request carries. *)
Definition id_of (request : json) : option Z :=
  match request with
  | JObj fields =>
      match Py.lookup "id" fields with
      | Some (JNum n) => Some n
      | _ => None
      end
  | _ => None
  end.

(** The ids of the requests among some events, in the order sent. *)
Definition sent_ids (events : list Event) : list Z :=
  flat_map (fun e => match e with
                     | EvSend request =>
                         match id_of request with Some n => [n] | None => [] end
                     | _ => []
                     end) events.

(** A request that carries an id; the other events pass. *)
Definition carries_id (e : Event) : Prop :=
  match e with
  | EvSend request => id_of request <> None
  | _ => True
  end.

(** From [w] to [w'] the counter has not gone down, every request added
    carries an id, and these ids are strictly increasing, above the counter
    of [w] and not above that of [w']. *)
Definition ids_advance (w w' : World) : Prop :=
  (request_id w <= request_id w')%Z
  /\ exists added,
      trace w' = List.app (trace w) added
      /\ Forall carries_id added
      /\ StronglySorted Z.lt (sent_ids added)
      /\ Forall (fun i => (request_id w < i <= request_id w')%Z) (sent_ids added).

(** A sequence of calls, one after the other. *)
Definition run_calls (calls : list Call) (w : World) : World :=
  fold_left (fun w c => run_call c w) calls w.


(** The four statements of the default analysis. *)
Definition canned_sql : list string :=
  [ "SELECT COUNT(*) as total_sessions FROM sessions";
    "SELECT COUNT(*) as total_messages FROM messages";
    recent_activity_sql;
    active_sessions_sql ].

(** An event that brings no unfiltered statement to the subprocess: a
    request is a call of [list_tables] or [db_info], or a call of [query]
    whose statement is canned, or passes the safety checks and so holds
    no denied word in any letter case. *)
Definition vetted_event (e : Event) : Prop :=
  match e with
  | EvSend request =>
      (exists id name,
          (name = "list_tables" \/ name = "db_info")
          /\ request = tool_request id name (JObj []))
      \/ (exists id sql,
             request = tool_request id "query" (query_arguments sql)
             /\ (In sql canned_sql
                 \/ (passes_checks sql
                     /\ forall word, In word denied_words -> ~ contains_nocase word sql)))
  | _ => True
  end.


(** The answer of the natural-language stage: the question, the formatted
    result, and the statement that was run. *)
Definition sql_answer (user_question formatted_result sql : string) : string :=
  answer_header user_question ++ nl ++ nl ++ formatted_result ++ nl ++ nl
  ++ "💡 *Generated SQL: `" ++ sql ++ "`*".





(** A table as the server lists it by name. *)
Definition named_table (name : string) : json := JObj [("name", JStr name)].

(** The numbered line of a table name. *)
Definition table_line (i : nat) (name : string) : string :=
  "  " ++ str_of_nat i ++ ". " ++ name.


(** The requests of some calls, numbered after [id]. *)
Fixpoint requests_after (id : Z) (calls : list (string * json)) : list Event :=
  match calls with
  | [] => []
  | call :: rest =>
      EvSend (tool_request (id + 1) (fst call) (snd call)) :: requests_after (id + 1) rest
  end.

(* ===================================================================== *)
(** ** Facts about strings *)
(* ===================================================================== *)

Lemma append_nil_r (s : string) : s ++ "" = s.
Proof. induction s; simpl; congruence. Qed.

Lemma append_assoc (a b c : string) : (a ++ b) ++ c = a ++ b ++ c.
Proof. induction a; simpl; congruence. Qed.

Lemma startswith_spec (p s : string) :
  startswith p s = true <-> exists rest, s = p ++ rest.
Proof.
  revert s; induction p as [|a p IH]; intros s; simpl.
  - split; [intros _; now exists s | reflexivity].
  - destruct s as [|b s].
    + split; [discriminate | intros [r Hr]; discriminate].
    + rewrite andb_true_iff, Ascii.eqb_eq, IH. split.
      * intros [-> [r ->]]. now exists r.
      * intros [r Hr]. injection Hr as -> ->. split; [reflexivity | now exists r].
Qed.

Lemma contains_spec (p s : string) :
  contains p s = true <-> occurs_in p s.
Proof.
  unfold occurs_in. induction s as [|c s IH].
  - simpl. rewrite orb_false_r, startswith_spec. split.
    + intros [r Hr]. now exists EmptyString, r.
    + intros [[|a pre] [post H]]; [now exists post | discriminate].
  - cbn [contains]. rewrite orb_true_iff, IH, startswith_spec. split.
    + intros [[r Hr] | [pre [post H]]].
      * now exists EmptyString, r.
      * exists (String c pre), post. simpl. now rewrite H.
    + intros [[|a pre] [post H]].
      * left. now exists post.
      * right. injection H as _ H. now exists pre, post.
Qed.

Lemma upper_ascii_app (a b : string) :
  upper_ascii (a ++ b) = upper_ascii a ++ upper_ascii b.
Proof. only_stated. induction a; simpl; congruence. Qed.

Lemma lower_app (a b : string) : lower (a ++ b) = lower a ++ lower b.
Proof. induction a; simpl; congruence. Qed.

Lemma upper_ascii_split (s x y : string) :
  upper_ascii s = x ++ y ->
  exists s1 s2, s = s1 ++ s2 /\ upper_ascii s1 = x /\ upper_ascii s2 = y.
Proof.
  only_stated.
  revert s; induction x as [|a x IH]; intros s H.
  - now exists EmptyString, s.
  - destruct s as [|c s]; [discriminate|]. simpl in H. injection H as Ha H.
    destruct (IH _ H) as (s1 & s2 & -> & H1 & H2).
    exists (String c s1), s2. simpl. now rewrite Ha, H1.
Qed.

Lemma lower_split (s x y : string) :
  lower s = x ++ y -> exists s1 s2, s = s1 ++ s2 /\ lower s1 = x /\ lower s2 = y.
Proof.
  only_stated.
  revert s; induction x as [|a x IH]; intros s H.
  - now exists EmptyString, s.
  - destruct s as [|c s]; [discriminate|]. simpl in H. injection H as Ha H.
    destruct (IH _ H) as (s1 & s2 & -> & H1 & H2).
    exists (String c s1), s2. simpl. now rewrite Ha, H1.
Qed.

Lemma code_bounded (c : ascii) : code c < 256.
Proof. apply nat_ascii_bounded. Qed.

Lemma code_inj (c d : ascii) : code c = code d -> c = d.
Proof.
  unfold code; intros H.
  rewrite <- (ascii_nat_embedding c), <- (ascii_nat_embedding d). now rewrite H.
Qed.

Lemma is_lower_range (c : ascii) : is_lower c = true <-> 97 <= code c <= 122.
Proof.
  only_stated.
  unfold is_lower. rewrite andb_true_iff, !Nat.leb_le. tauto.
Qed.


Lemma code_upper_char (c : ascii) :
  is_lower c = true -> code (upper_char c) = code c - 32.
Proof.
  intros H. unfold upper_char. rewrite H. unfold code at 1.
  apply nat_ascii_embedding. pose proof (code_bounded c). lia.
Qed.

Lemma upper_char_not_lower (c : ascii) : is_lower (upper_char c) = false.
Proof.
  destruct (is_lower c) eqn:H.
  - apply not_true_is_false. rewrite is_lower_range, code_upper_char by assumption.
    apply is_lower_range in H. lia.
  - unfold upper_char. now rewrite H.
Qed.

Lemma upper_char_idem (c : ascii) : upper_char (upper_char c) = upper_char c.
Proof.
  unfold upper_char at 1. now rewrite upper_char_not_lower.
Qed.

Lemma same_letter_upper (c d : ascii) :
  same_letter c d <-> upper_char c = upper_char d.
Proof.
  split.
  - intros [x | x H | x H]; [reflexivity | |]; now rewrite upper_char_idem.
  - intros H. destruct (is_lower c) eqn:Hc, (is_lower d) eqn:Hd.
    + assert (c = d) as ->; [|constructor].
      apply code_inj. apply (f_equal code) in H.
      rewrite !code_upper_char in H by assumption.
      apply is_lower_range in Hc, Hd. lia.
    + assert (d = upper_char c) as ->; [|now constructor].
      rewrite H. unfold upper_char. now rewrite Hd.
    + assert (c = upper_char d) as ->; [|now constructor].
      rewrite <- H. unfold upper_char. now rewrite Hc.
    + unfold upper_char in H. rewrite Hc, Hd in H. subst. constructor.
Qed.

Lemma eq_nocase_upper (s t : string) : eq_nocase s t <-> upper_ascii s = upper_ascii t.
Proof.
  split.
  - induction 1 as [|c d s t Hcd _ IH]; [reflexivity|]. simpl.
    apply same_letter_upper in Hcd. now rewrite Hcd, IH.
  - revert t; induction s as [|c s IH]; intros [|d t] H; try discriminate.
    + constructor.
    + simpl in H. injection H as Hcd H. constructor.
      * now apply same_letter_upper.
      * now apply IH.
Qed.

Lemma any_in_spec (phrases : list string) (s : string) :
  any_in phrases s = true <-> exists k, In k phrases /\ occurs_in k s.
Proof.
  unfold any_in. rewrite existsb_exists.
  split; intros [k [Hk H]]; exists k; split; try assumption; now apply contains_spec.
Qed.

Lemma startswith_nocase (word s : string) :
  upper_ascii word = word ->
  startswith word (upper_ascii s) = true <-> begins_nocase word s.
Proof.
  intros Hw. rewrite startswith_spec. unfold begins_nocase. split.
  - intros [rest H]. destruct (upper_ascii_split _ _ _ H) as (p & r & -> & Hp & _).
    exists p, r. split; [reflexivity|]. apply eq_nocase_upper. congruence.
  - intros (p & r & -> & Hp). apply eq_nocase_upper in Hp.
    exists (upper_ascii r). rewrite upper_ascii_app. congruence.
Qed.

Lemma contains_nocase_spec (word s : string) :
  upper_ascii word = word ->
  contains word (upper_ascii s) = true <-> contains_nocase word s.
Proof.
  intros Hw. rewrite contains_spec. unfold occurs_in, contains_nocase. split.
  - intros (pre & post & H).
    destruct (upper_ascii_split _ _ _ H) as (a & r & -> & Ha & Hr).
    destruct (upper_ascii_split _ _ _ Hr) as (p & b & -> & Hp & Hb).
    exists a, p, b. split; [reflexivity|]. apply eq_nocase_upper. congruence.
  - intros (a & p & b & -> & Hp). apply eq_nocase_upper in Hp.
    exists (upper_ascii a), (upper_ascii b). rewrite !upper_ascii_app. congruence.
Qed.

(* ===================================================================== *)
(** ** Facts about characters *)
(* ===================================================================== *)

Lemma is_ascii_range (c : ascii) : is_ascii c = true <-> code c < 128.
Proof. only_stated. unfold is_ascii. apply Nat.ltb_lt. Qed.

Lemma ascii_is_no_continuation (c : ascii) :
  is_ascii c = true -> is_continuation c = false.
Proof.
  only_stated.
  rewrite is_ascii_range. intros H. unfold is_continuation.
  apply andb_false_iff. left. apply Nat.leb_gt. exact H.
Qed.

Lemma implode_app (l1 l2 : list string) :
  implode (List.app l1 l2) = implode l1 ++ implode l2.
Proof.
  only_stated.
  induction l1 as [|ch l1 IH]; [reflexivity|]. cbn [List.app implode].
  now rewrite IH, append_assoc.
Qed.

(** A string is made of its characters. *)
Lemma implode_chars (s : string) : implode (chars s) = s.
Proof.
  only_stated.
  induction s as [|c s IH]; [reflexivity|]. cbn [chars].
  destruct (chars s) as [|ch rest].
  - cbn in IH. now subst s.
  - destruct (continues c ch); cbn [implode append] in *; now rewrite IH.
Qed.

(** A character of ASCII is a character by itself, wherever it stands. *)
Lemma chars_ascii_cons (c : ascii) (s : string) :
  is_ascii c = true -> chars (String c s) = String c EmptyString :: chars s.
Proof.
  only_stated.
  intros H. cbn [chars]. destruct (chars s) as [|ch rest]; [reflexivity|].
  unfold continues. now rewrite H.
Qed.

Lemma chars_app_ascii (a : string) (c : ascii) (b : string) :
  is_ascii c = true ->
  chars (a ++ String c b) = List.app (chars a) (String c EmptyString :: chars b).
Proof.
  only_stated.
  intros Hc. induction a as [|x a IH].
  - cbn [append List.app]. rewrite chars_ascii_cons by assumption. reflexivity.
  - change (String x a ++ String c b) with (String x (a ++ String c b)).
    cbn [chars]. rewrite IH. destruct (chars a) as [|ch rest]; cbn [List.app].
    + unfold continues. rewrite (ascii_is_no_continuation c Hc), andb_false_r.
      reflexivity.
    + now destruct (continues x ch).
Qed.

(** *** Upper case *)

Lemma str_upper_ascii_cons (c : ascii) (s : string) :
  is_ascii c = true -> str_upper (String c s) = String (upper_char c) (str_upper s).
Proof.
  only_upper.
  intros H. unfold str_upper, upper. rewrite chars_ascii_cons by assumption.
  cbn [map implode upper_character]. now rewrite H.
Qed.

Lemma str_upper_app_ascii (a : string) (c : ascii) (b : string) :
  is_ascii c = true ->
  str_upper (a ++ String c b) = str_upper a ++ str_upper (String c b).
Proof.
  only_upper.
  intros H. unfold str_upper, upper.
  rewrite chars_app_ascii, map_app, implode_app by assumption.
  now rewrite chars_ascii_cons by assumption.
Qed.

Lemma str_upper_ascii_prefix (p b : string) :
  ascii_only p = true -> str_upper (p ++ b) = upper_ascii p ++ str_upper b.
Proof.
  only_upper.
  induction p as [|c p IH]; [reflexivity|]. cbn [ascii_only append upper_ascii].
  rewrite andb_true_iff. intros [Hc Hp].
  rewrite str_upper_ascii_cons by assumption. now rewrite IH.
Qed.

(** On a text of ASCII the upper case is that of the letters a to z. *)
Lemma str_upper_ascii (s : string) :
  ascii_only s = true -> str_upper s = upper_ascii s.
Proof.
  only_upper.
  intros H. rewrite <- (append_nil_r s) at 1.
  rewrite str_upper_ascii_prefix by assumption. apply append_nil_r.
Qed.

(** A stretch of ASCII keeps its place in the upper case of a text. *)
Lemma str_upper_around (a p b : string) :
  ascii_only p = true -> p <> EmptyString ->
  str_upper (a ++ p ++ b) = str_upper a ++ upper_ascii p ++ str_upper b.
Proof.
  only_upper.
  intros Hp Hne. destruct p as [|c p]; [congruence|].
  cbn [ascii_only] in Hp. apply andb_true_iff in Hp as [Hc Hp].
  change ((String c p) ++ b) with (String c (p ++ b)).
  rewrite str_upper_app_ascii, str_upper_ascii_cons by assumption.
  now rewrite str_upper_ascii_prefix by assumption.
Qed.

Lemma same_letter_ascii (c d : ascii) :
  same_letter c d -> is_ascii d = true -> is_ascii c = true.
Proof.
  only_stated.
  intros [x | x Hx | x Hx] Hd; [exact Hd | |].
  - apply is_ascii_range. apply is_lower_range in Hx. lia.
  - apply is_ascii_range. rewrite code_upper_char by assumption.
    apply is_lower_range in Hx. lia.
Qed.

Lemma eq_nocase_ascii (p word : string) :
  eq_nocase p word -> ascii_only word = true -> ascii_only p = true.
Proof.
  only_stated.
  induction 1 as [|c d s t Hcd _ IH]; [reflexivity|]. cbn [ascii_only].
  rewrite !andb_true_iff. intros [Hd Ht]. split; [|now apply IH].
  now apply (same_letter_ascii c d).
Qed.

(** A word of capital letters that a text holds in any letter case is
    held by its upper case. *)
Lemma word_in_any_case (word s : string) :
  ascii_only word = true -> upper_ascii word = word -> word <> EmptyString ->
  contains_nocase word s -> occurs_in word (str_upper s).
Proof.
  only_upper.
  intros Hascii Hupper Hne (pre & p & post & -> & Hp).
  assert (Hpa : ascii_only p = true) by now apply (eq_nocase_ascii p word).
  assert (Hpn : p <> EmptyString).
  { intros ->. inversion Hp. congruence. }
  apply eq_nocase_upper in Hp. rewrite Hupper in Hp.
  exists (str_upper pre), (str_upper post).
  rewrite str_upper_around by assumption. now rewrite Hp.
Qed.

(** The checks of the code, read as a proposition. *)
Lemma is_safe_checks (stmt : string) : is_safe stmt = true <-> passes_checks stmt.
Proof.
  only_upper.
  unfold is_safe, passes_checks, denied_words.
  rewrite !andb_true_iff, !negb_true_iff, startswith_spec, String.eqb_neq.
  rewrite <- !not_true_iff_false, !contains_spec. split.
  - intros (((((Hs & H1) & H2) & H3) & H4) & Hi). split; [exact Hs|]. split; [|exact Hi].
    intros word [<- | [<- | [<- | [<- | []]]]]; assumption.
  - intros (Hs & Hw & Hi). repeat split; try assumption; apply Hw; cbn; tauto.
Qed.

(** On a statement of ASCII the checks are those of the specification. *)
Lemma is_safe_ascii (stmt : string) :
  ascii_only stmt = true -> is_safe stmt = true <-> acceptable stmt.
Proof.
  only_upper.
  intros Hascii. unfold is_safe, acceptable.
  rewrite (str_upper_ascii _ Hascii).
  rewrite !andb_true_iff, !negb_true_iff.
  rewrite startswith_nocase by reflexivity.
  rewrite <- !(contains_nocase_spec _ stmt) by reflexivity.
  rewrite !not_true_iff_false, String.eqb_neq. tauto.
Qed.

(** *** White space *)

Lemma is_space_ascii (c : ascii) :
  is_space (String c EmptyString) = true ->
  9 <= code c <= 13 \/ 28 <= code c <= 32.
Proof.
  only_stated.
  unfold is_space. intros H. apply existsb_exists in H as (n & Hin & Heq).
  apply String.eqb_eq in Heq. cbn [space_points In] in Hin.
  repeat (destruct Hin as [<- | Hin];
          [vm_compute in Heq;
           first [discriminate Heq | injection Heq as ->; vm_compute; lia]|]).
  destruct Hin.
Qed.

Lemma letter_is_no_space (c : ascii) :
  is_upper c = true \/ is_lower c = true -> is_space (String c EmptyString) = false.
Proof.
  only_stated.
  intros H. apply not_true_is_false. intros Hs. apply is_space_ascii in Hs.
  unfold is_upper, is_lower in H.
  rewrite !andb_true_iff, !Nat.leb_le in H. lia.
Qed.

Lemma lstrip_chars_all (l : list string) :
  forallb is_space l = true -> lstrip_chars l = [].
Proof.
  only_stated.
  induction l as [|ch l IH]; [reflexivity|]. cbn [forallb lstrip_chars].
  rewrite andb_true_iff. intros [-> H]. now apply IH.
Qed.

Lemma lstrip_chars_keeps (l1 : list string) (x : string) (l2 : list string) :
  is_space x = false ->
  exists l, lstrip_chars (List.app l1 (x :: l2)) = List.app l (x :: l2).
Proof.
  only_stated.
  intros Hx. induction l1 as [|ch l1 IH]; cbn [List.app lstrip_chars].
  - rewrite Hx. now exists [].
  - destruct (is_space ch); [exact IH | now exists (ch :: l1)].
Qed.

Lemma rstrip_chars_keeps (l1 : list string) (x : string) (l2 : list string) :
  is_space x = false ->
  exists l, rstrip_chars (List.app l1 (x :: l2)) = List.app l1 (x :: l).
Proof.
  only_stated.
  intros Hx. unfold rstrip_chars. rewrite rev_app_distr. cbn [rev].
  rewrite <- app_assoc. cbn [List.app].
  destruct (lstrip_chars_keeps (rev l2) x (rev l1) Hx) as [l ->].
  exists (rev l). rewrite rev_app_distr. cbn [rev].
  now rewrite rev_involutive, <- app_assoc.
Qed.

(** A text of white space strips to nothing. *)
Lemma strip_blank (s : string) :
  only_whitespace s = true -> strip s = EmptyString.
Proof.
  only_stated.
  unfold only_whitespace, strip. intros H. now rewrite lstrip_chars_all.
Qed.

(** A text that holds a character of ASCII other than white space does
    not strip to nothing. *)
Lemma strip_keeps (a : string) (c : ascii) (b : string) :
  is_ascii c = true -> is_space (String c EmptyString) = false ->
  nonempty (strip (a ++ String c b)) = true.
Proof.
  only_stated.
  intros Hc Hs. unfold strip. rewrite chars_app_ascii by assumption.
  destruct (lstrip_chars_keeps (chars a) _ (chars b) Hs) as [l1 ->].
  destruct (rstrip_chars_keeps l1 _ (chars b) Hs) as [l2 ->].
  rewrite implode_app. cbn [implode append]. now destruct (implode l1).
Qed.

(* ===================================================================== *)
(** ** Running a method *)
(* ===================================================================== *)

(** Unfolds the operations of the monad in the goal. *)
Ltac run :=
  unfold bind, try_except, ret, raise, lift, get, modify; cbn [fst snd].

(** The translator always returns, having posted the question once; what
    it returns is nothing, or the filtered statement of a reply. *)
Lemma generate_sql_run (question : string) (w : World) :
  _generate_sql_from_question question w
  = (Ok match llm w question with
        | Response status_code text =>
            if Z.eqb status_code 200 then
              match parse_ollama_response text with
              | Ok (JStr reply) => safety_filter (clean_fences (strip reply))
              | _ => None
              end
            else None
        | PostRaises _ => None
        end,
     log (EvLlm question) w).
Proof.
  unfold _generate_sql_from_question. run.
  replace (llm (log (EvLlm question) w)) with (llm w) by reflexivity.
  destruct (llm w question) as [e | status_code text]; [reflexivity|].
  destruct (Z.eqb status_code 200); [|reflexivity].
  destruct (parse_ollama_response text) as [[]|]; reflexivity.
Qed.

(** C9. [is_database_query] tests its keywords as substrings of the
    lowercased message: it is true exactly when some keyword occurs in it,
    false exactly when none does, and true in particular for every message
    that contains the word standby, which holds the keyword db. *)
Theorem is_database_query_substring :
  (forall message,
      is_database_query message = true
      <-> exists keyword, In keyword database_keywords
                          /\ occurs_in keyword (lower message))
  /\ (forall message,
        is_database_query message = false
        <-> forall keyword, In keyword database_keywords
                            -> ~ occurs_in keyword (lower message))
  /\ (forall pre post, is_database_query (pre ++ "standby" ++ post) = true).
Proof.
  only_stated.
  assert (Hspec : forall message,
             is_database_query message = true
             <-> exists keyword, In keyword database_keywords
                                 /\ occurs_in keyword (lower message)).
  { intros message. unfold is_database_query. apply any_in_spec. }
  split; [exact Hspec | split].
  - intros message. rewrite <- not_true_iff_false, Hspec. split.
    + intros Hno keyword Hin Hocc. apply Hno. now exists keyword.
    + intros Hno (keyword & Hin & Hocc). exact (Hno keyword Hin Hocc).
  - intros pre post. apply Hspec. exists "db". split.
    + unfold database_keywords. simpl. tauto.
    + rewrite !lower_app. exists (lower pre ++ "stan"), ("y" ++ lower post).
      cbn [lower]. rewrite !append_assoc. reflexivity.
Qed.

Lemma denied_word_facts (word : string) :
  In word denied_words ->
  ascii_only word = true /\ upper_ascii word = word /\ word <> EmptyString.
Proof.
  only_stated.
  intros [<- | [<- | [<- | [<- | []]]]]; repeat split; discriminate.
Qed.

(** What holds of a statement the filter lets through. *)
Lemma safety_filter_some (stmt o : string) :
  safety_filter stmt = Some o ->
  o = stmt
  /\ passes_checks stmt
  /\ (forall word, In word denied_words -> ~ contains_nocase word stmt)
  /\ (ascii_only stmt = true -> acceptable stmt).
Proof.
  only_upper.
  unfold safety_filter. destruct (is_safe stmt) eqn:H; [|discriminate].
  intros [= <-]. split; [reflexivity|].
  pose proof (proj1 (is_safe_checks stmt) H) as Hchecks.
  split; [exact Hchecks | split].
  - intros word Hin Hword. destruct Hchecks as (_ & Hnone & _).
    apply (Hnone word Hin).
    destruct (denied_word_facts word Hin) as (Ha & Hu & Hne).
    now apply word_in_any_case.
  - intros Hascii. now apply is_safe_ascii.
Qed.

Lemma safety_filter_none (stmt : string) :
  is_safe stmt = false -> safety_filter stmt = None.
Proof. only_upper. unfold safety_filter. now intros ->. Qed.

(** C1, as the code has it. The statement [_generate_sql_from_question]
    returns is the reply of the LLM with its code fences removed and
    trimmed, and it is returned exactly when its upper case, as [str.upper]
    gives it, begins with SELECT and holds none of DROP, DELETE, UPDATE,
    INSERT, and the statement is not the word INVALID; otherwise nothing is
    returned. So a statement that holds one of the four words in any letter
    case is never returned, and on a statement of ASCII the test is the
    case-insensitive one of the specification; outside ASCII it is not,
    since [str.upper] maps other characters to letters of ASCII. *)
Theorem generate_sql_safety_filter :
  (forall stmt, safety_filter stmt = Some stmt <-> passes_checks stmt)
  /\ (forall stmt, ~ passes_checks stmt -> safety_filter stmt = None)
  /\ (forall stmt word,
        In word denied_words -> contains_nocase word stmt -> safety_filter stmt = None)
  /\ safety_filter "INVALID" = None
  /\ (forall stmt,
        ascii_only stmt = true ->
        (safety_filter stmt = Some stmt <-> acceptable stmt)
        /\ (~ acceptable stmt -> safety_filter stmt = None))
  /\ (forall question w text reply,
        llm w question = Response 200 text ->
        parse_ollama_response text = Ok (JStr reply) ->
        fst (_generate_sql_from_question question w)
        = Ok (safety_filter (clean_fences (strip reply))))
  /\ (forall question w,
        exists o, fst (_generate_sql_from_question question w) = Ok o
                  /\ forall stmt,
                      o = Some stmt ->
                      passes_checks stmt
                      /\ (forall word, In word denied_words -> ~ contains_nocase word stmt)
                      /\ (ascii_only stmt = true -> acceptable stmt)).
Proof.
  split; [|split; [|split; [|split; [|split; [|split]]]]].
  - intros stmt. split.
    + intros H. now apply safety_filter_some in H.
    + intros H. apply is_safe_checks in H. unfold safety_filter. now rewrite H.
  - intros stmt H. apply safety_filter_none. apply not_true_is_false.
    intros Hs. now apply is_safe_checks in Hs.
  - intros stmt word Hin Hword. apply safety_filter_none. apply not_true_is_false.
    intros Hs. apply (f_equal (fun b : bool => if b then Some stmt else None)) in Hs.
    fold (safety_filter stmt) in Hs. apply safety_filter_some in Hs as (_ & _ & Hnone & _).
    exact (Hnone word Hin Hword).
  - reflexivity.
  - intros stmt Hascii. split; [split|].
    + intros H. apply safety_filter_some in H as (_ & _ & _ & H). now apply H.
    + intros H. apply (is_safe_ascii _ Hascii) in H. unfold safety_filter. now rewrite H.
    + intros H. apply safety_filter_none. apply not_true_is_false.
      intros Hs. now apply (is_safe_ascii _ Hascii) in Hs.
  - intros question w text reply Hllm Hparse. rewrite generate_sql_run. cbn [fst].
    now rewrite Hllm, Hparse.
  - intros question w. rewrite generate_sql_run. cbn [fst]. eexists. split; [reflexivity|].
    intros stmt. destruct (llm w question) as [e | status_code text]; [discriminate|].
    destruct (Z.eqb status_code 200); [|discriminate].
    destruct (parse_ollama_response text) as [[]|]; try discriminate.
    intros H. apply safety_filter_some in H as [-> H]. exact H.
Qed.

(* ===================================================================== *)
(** ** The result formatter *)
(* ===================================================================== *)

Lemma format_rows_listing (rows : list (list (string * json))) :
  rows <> [] ->
  (forall k v, rows <> [[(k, v)]]) ->
  format_data (JArr (map JObj rows))
  = Ok (join nl (List.app (map bullet (firstn 10 rows))
                          (if Nat.ltb 10 (List.length rows)
                           then [remainder_line (List.length rows - 10)]
                           else []))).
Proof.
  intros Hne Hshape. unfold format_data.
  assert (Ht : Py.truthy (JArr (map JObj rows)) = true)
    by (destruct rows; [congruence | reflexivity]).
  rewrite Ht. cbn [negb Py.len rbind]. rewrite length_map.
  assert (Hsingle :
            (if Nat.eqb (List.length rows) 1
             then row <-? Py.first (JArr (map JObj rows)) ;;
                  k <-? Py.len row ;; Ok (Nat.eqb k 1)
             else Ok false) = Ok false).
  { destruct rows as [|row [|r2 rest]]; [congruence | | reflexivity].
    cbn. destruct row as [|[k v] [|kv2 row]]; try reflexivity.
    exfalso. now apply (Hshape k v). }
  rewrite Hsingle. cbn [rbind Py.slice_to Py.iter].
  rewrite firstn_map, map_map.
  replace (map (fun x => format_row (JObj x)) (firstn 10 rows))
    with (map bullet (firstn 10 rows)) by reflexivity.
  destruct (Nat.ltb 10 (List.length rows)).
  - reflexivity.
  - now rewrite app_nil_r.
Qed.

(** C5. On a result whose rows are mappings, [_format_query_results]
    gives the text No data found. for no row; the labeled value for one
    row of one column; and otherwise one bullet of comma-joined key: value
    pairs for each of the first ten rows at most, in the order received,
    followed by a line counting the remaining rows when there are more
    than ten, so twelve rows give ten bullets and a line noting 2 more. *)
Theorem format_query_results_shapes
        (result : json) (rows : list (list (string * json))) :
  _extract_query_results result = JArr (map JObj rows) ->
  (rows = [] -> _format_query_results result = "No data found.")
  /\ (forall k v, rows = [[(k, v)]] ->
                  _format_query_results result = "**Result:** " ++ py_str v)
  /\ (rows <> [] -> (forall k v, rows <> [[(k, v)]]) ->
      _format_query_results result
      = join nl (List.app (map bullet (firstn 10 rows))
                          (if Nat.ltb 10 (List.length rows)
                           then [remainder_line (List.length rows - 10)]
                           else []))
      /\ List.length (map bullet (firstn 10 rows)) <= 10)
  /\ (List.length rows = 12 ->
      _format_query_results result
      = join nl (List.app (map bullet (firstn 10 rows)) ["  ... and 2 more rows"])
      /\ List.length (map bullet (firstn 10 rows)) = 10).
Proof.
  intros Hdata. unfold _format_query_results. rewrite Hdata.
  split; [|split; [|split]].
  - intros ->. reflexivity.
  - intros k v ->. reflexivity.
  - intros Hne Hshape. rewrite format_rows_listing by assumption. split; [reflexivity|].
    rewrite length_map, length_firstn. lia.
  - intros Hlen. rewrite format_rows_listing.
    + rewrite Hlen. split; [reflexivity|]. rewrite length_map, length_firstn. lia.
    + intros ->. discriminate.
    + intros k v ->. discriminate.
Qed.

(* ===================================================================== *)
(** ** What a run leaves unchanged *)
(* ===================================================================== *)

Section Respects.

Variable R : World -> World -> Prop.
Hypothesis R_refl : forall w, R w w.
Hypothesis R_trans : forall a b c, R a b -> R b c -> R a c.

Lemma respects_ret {A} (a : A) : respects R (ret a).
Proof using R_refl. intros w r w' [= _ <-]. apply R_refl. Qed.

Lemma respects_raise {A} (e : exn) : respects R (@raise A e).
Proof using R_refl. intros w r w' [= _ <-]. apply R_refl. Qed.

Lemma respects_lift {A} (x : Result A) : respects R (lift x).
Proof using R_refl. intros w r w' [= _ <-]. apply R_refl. Qed.

Lemma respects_modify (f : World -> World) :
  (forall w, R w (f w)) -> respects R (modify f).
Proof. intros Hf w r w' [= _ <-]. apply Hf. Qed.

Lemma respects_bind {A B} (m : M A) (k : A -> M B) :
  respects R m -> (forall a, respects R (k a)) -> respects R (bind m k).
Proof using R_trans.
  intros Hm Hk w r w'. unfold bind. destruct (m w) as [[a|e] w1] eqn:E; intros H.
  - eapply R_trans; [eapply Hm, E | eapply Hk, H].
  - injection H as _ <-. eapply Hm, E.
Qed.

(** The world a method reads with [get] is the one it runs in. *)
Lemma respects_get {A} (k : World -> M A) :
  (forall w0, respects R (k w0)) -> respects R (bind get k).
Proof. intros Hk w r w'. unfold bind, get. apply Hk. Qed.

Lemma respects_try_except {A} (m : M A) (h : exn -> M A) :
  respects R m -> (forall e, respects R (h e)) -> respects R (try_except m h).
Proof using R_trans.
  intros Hm Hh w r w'. unfold try_except. destruct (m w) as [[a|e] w1] eqn:E; intros H.
  - injection H as _ <-. eapply Hm, E.
  - eapply R_trans; [eapply Hm, E | eapply Hh, H].
Qed.

End Respects.

Lemma same_manager_refl (w : World) : same_manager w w.
Proof. now split. Qed.

Lemma same_manager_trans (a b c : World) :
  same_manager a b -> same_manager b c -> same_manager a c.
Proof. intros [H1 H2] [H3 H4]. split; congruence. Qed.

Lemma extends_with_refl (P : Event -> Prop) (w : World) : extends_with P w w.
Proof. exists []. split; [now rewrite app_nil_r | constructor]. Qed.

Lemma extends_with_trans (P : Event -> Prop) (a b c : World) :
  extends_with P a b -> extends_with P b c -> extends_with P a c.
Proof.
  intros (l1 & H1 & F1) (l2 & H2 & F2). exists (List.app l1 l2). split.
  - now rewrite H2, H1, app_assoc.
  - now apply Forall_app.
Qed.

Lemma extends_with_log (P : Event -> Prop) (e : Event) (w : World) :
  P e -> extends_with P w (log e w).
Proof. intros H. exists [e]. split; [reflexivity | now repeat constructor]. Qed.

(** Takes a goal [respects R m] apart along the structure of [m]; the
    side conditions on the world updates are left to [tac]. *)
Ltac respects_step Rrefl Rtrans tac :=
  lazymatch goal with
  | |- respects _ (bind get _) => apply respects_get; intros ?
  | |- respects _ (bind _ _) => apply (respects_bind _ Rtrans); [|intros ?]
  | |- respects _ (try_except _ _) => apply (respects_try_except _ Rtrans); [|intros ?]
  | |- respects _ (ret _) => apply (respects_ret _ Rrefl)
  | |- respects _ (raise _) => apply (respects_raise _ Rrefl)
  | |- respects _ (lift _) => apply (respects_lift _ Rrefl)
  | |- respects _ (modify _) => apply respects_modify; intros ?; tac
  | |- respects _ (if ?b then _ else _) => destruct b
  | |- respects _ (match ?x with _ => _ end) => destruct x
  | |- respects _ (let _ := _ in _) => cbv zeta
  end.

Ltac same_manager_auto :=
  repeat respects_step same_manager_refl same_manager_trans ltac:(now split).

Lemma send_same_manager (request : json) :
  respects same_manager (_send_mcp_request request).
Proof. unfold _send_mcp_request. same_manager_auto. Qed.

Lemma get_request_id_same_manager : respects same_manager _get_request_id.
Proof. unfold _get_request_id. same_manager_auto. Qed.

Lemma call_tool_same_manager (tool_name : string) (arguments : json) :
  respects same_manager (_call_mcp_tool tool_name arguments).
Proof.
  unfold _call_mcp_tool.
  repeat first [ apply send_same_manager | apply get_request_id_same_manager
               | respects_step same_manager_refl same_manager_trans ltac:(now split) ].
Qed.

Create HintDb frame.
#[local] Hint Resolve send_same_manager get_request_id_same_manager
  call_tool_same_manager : frame.

Ltac same_manager_with_hints :=
  repeat first [ solve [auto with frame]
               | respects_step same_manager_refl same_manager_trans ltac:(now split) ].

Lemma initialize_same_manager : respects same_manager _initialize_mcp_connection.
Proof. unfold _initialize_mcp_connection. same_manager_with_hints. Qed.

Lemma handle_metadata_same_manager (user_question : string) :
  respects same_manager (_handle_metadata_query user_question).
Proof. unfold _handle_metadata_query. same_manager_with_hints. Qed.

Lemma generate_sql_same_manager (question : string) :
  respects same_manager (_generate_sql_from_question question).
Proof. unfold _generate_sql_from_question. same_manager_with_hints. Qed.

Lemma stats_same_manager : respects same_manager _get_mcp_database_stats.
Proof. unfold _get_mcp_database_stats. same_manager_with_hints. Qed.

Lemma basic_same_manager : respects same_manager _basic_database_analysis.
Proof. unfold _basic_database_analysis. same_manager_with_hints. Qed.

#[local] Hint Resolve handle_metadata_same_manager generate_sql_same_manager
  stats_same_manager basic_same_manager : frame.

Lemma handle_nl_same_manager (user_question : string) :
  respects same_manager (_handle_natural_language_query user_question).
Proof. unfold _handle_natural_language_query. same_manager_with_hints. Qed.

#[local] Hint Resolve handle_nl_same_manager : frame.

Lemma execute_same_manager (user_question : option string) :
  respects same_manager (execute_database_query user_question).
Proof. unfold execute_database_query, default_analysis. same_manager_with_hints. Qed.

(* ===================================================================== *)
(** ** The life cycle of the subprocess *)
(* ===================================================================== *)

Lemma stop_server_run (w : World) :
  stop_server w
  = match server_process w with
    | Some p =>
        match terminate p with
        | Ok p' =>
            (Ok tt, set_server_running false
                      (log EvTerminate (set_server_process (Some p') w)))
        | Raised e => (Raised e, w)
        end
    | None => (Ok tt, w)
    end.
Proof.
  only_stated.
  unfold stop_server. run. destruct (server_process w) as [p|]; [|reflexivity].
  now destruct (terminate p).
Qed.

(** On a child that has been reaped [stop_server] raises and changes
    nothing. *)
Lemma stop_server_reaped (w : World) (p : Process) :
  server_process w = Some p -> reaped p = true ->
  stop_server w = (Raised (Exn ProcessLookupError ""), w).
Proof.
  only_stated.
  intros Hp Hr. rewrite stop_server_run, Hp. unfold terminate. now rewrite Hr.
Qed.

(** On a child that has not, it records the request and clears the flag. *)
Lemma stop_server_live (w : World) (p : Process) :
  server_process w = Some p -> reaped p = false ->
  stop_server w
  = (Ok tt, set_server_running false
              (log EvTerminate
                 (set_server_process
                    (Some (mkProcess (stdin p) (returncode p) true false)) w))).
Proof.
  only_stated.
  intros Hp Hr. rewrite stop_server_run, Hp. unfold terminate. now rewrite Hr.
Qed.

Lemma start_server_invariant (w : World) :
  running_has_process w -> running_has_process (snd (start_server w)).
Proof.
  intros Hw. unfold start_server. run.
  destruct (which_npx w) as [rc|e]; [|exact Hw].
  destruct (Z.eqb rc 0); [|exact Hw]. cbn [negb].
  destruct (spawn w) as [p|e]; [|exact Hw]. cbn [snd].
  set (w1 := set_server_process (Some p) w).
  assert (Hw1 : running_has_process w1) by (intros _; discriminate).
  destruct (returncode p); [exact Hw1|].
  destruct (_initialize_mcp_connection w1) as [[[|]|e] w2] eqn:E; cbn [snd];
    pose proof (initialize_same_manager _ _ _ E) as [Hp Hr];
    intros H; cbn; rewrite Hp; discriminate.
Qed.

Lemma reachable_running_has_process (w : World) :
  reachable w -> running_has_process w.
Proof.
  induction 1 as [w (Hp & Hr & _) | w c _ IH | w w' _ IH (Hr & _ & Hp)].
  - intros H. congruence.
  - destruct c as [| | user_question]; cbn [run_call].
    + now apply start_server_invariant.
    + rewrite stop_server_run.
      destruct (server_process w) as [p|] eqn:E; [|exact IH].
      destruct (terminate p); [intros H; discriminate | exact IH].
    + destruct (execute_database_query user_question w) as [r w'] eqn:E.
      destruct (execute_same_manager _ _ _ _ E) as [Hp Hr]. cbn [snd].
      intros H. rewrite Hp. apply IH. congruence.
  - intros H Hnone. apply Hp in Hnone. revert Hnone. apply IH. congruence.
Qed.

(** A manager that is running, or holds no process, is not running after
    a [stop_server] that returns. *)
Lemma stopped_is_not_running (w : World) :
  running_has_process w -> fst (stop_server w) = Ok tt ->
  server_running (snd (stop_server w)) = false.
Proof.
  only_stated.
  intros Hw. rewrite stop_server_run.
  destruct (server_process w) as [p|] eqn:E.
  - destruct (terminate p); [reflexivity | discriminate].
  - intros _. cbn [snd]. destruct (server_running w) eqn:Hr; [|reflexivity].
    exfalso. now apply Hw.
Qed.

(** C8, where it holds and where the code fails it. From a world a
    manager can be in, [stop_server] called twice returns twice and leaves
    the manager not running when it holds no process or a child that has
    not been reaped. On a child that has exited and been reaped,
    [terminate] raises [ProcessLookupError]: the first call raises, and so
    does the second; the running flag is left as it was. *)
Theorem stop_server_twice (w : World) :
  reachable w ->
  let w1 := snd (stop_server w) in
  let w2 := snd (stop_server w1) in
  ((forall p, server_process w = Some p -> reaped p = false) ->
   fst (stop_server w) = Ok tt
   /\ fst (stop_server w1) = Ok tt
   /\ server_running w1 = false
   /\ server_running w2 = false
   /\ server_process w2 = server_process w1
   /\ request_id w2 = request_id w1)
  /\ (forall p,
        server_process w = Some p -> reaped p = true ->
        fst (stop_server w) = Raised (Exn ProcessLookupError "")
        /\ fst (stop_server w1) = Raised (Exn ProcessLookupError "")
        /\ w1 = w
        /\ w2 = w).
Proof.
  only_stated.
  intros Hreach. apply reachable_running_has_process in Hreach. cbv zeta. split.
  - intros Hlive. destruct (server_process w) as [p|] eqn:E.
    + rewrite (stop_server_live w p E (Hlive p eq_refl)). cbn [fst snd].
      rewrite (stop_server_live _ (mkProcess (stdin p) (returncode p) true false))
        by reflexivity.
      now repeat split.
    + rewrite !stop_server_run, E. cbn [fst snd]. rewrite E. cbn [fst snd].
      assert (Hr : server_running w = false).
      { destruct (server_running w) eqn:Hr; [|reflexivity]. exfalso. now apply Hreach. }
      now repeat split.
  - intros p Hp Hr. rewrite (stop_server_reaped w p Hp Hr). cbn [fst snd].
    rewrite (stop_server_reaped w p Hp Hr). now repeat split.
Qed.

(* ===================================================================== *)
(** ** No exception reaches the caller *)
(* ===================================================================== *)

Lemma try_except_returns {A} (m : M A) (h : exn -> M A) :
  (forall e, returns (h e)) -> returns (try_except m h).
Proof.
  intros Hh w. unfold try_except. destruct (m w) as [[a|e] w1].
  - now exists a, w1.
  - apply Hh.
Qed.

Lemma ret_returns {A} (a : A) : returns (ret a).
Proof. intros w. now exists a, w. Qed.

Lemma basic_analysis_returns : returns _basic_database_analysis.
Proof.
  unfold _basic_database_analysis. apply try_except_returns.
  intros e. apply ret_returns.
Qed.

(** C2. Whatever the question, the state of the manager and the outcomes
    of the subprocess, the LLM endpoint and the persistence store, the
    exceptions they raise included, [execute_database_query] returns a
    text and raises nothing. *)
Theorem execute_database_query_never_raises
        (user_question : option string) (w : World) :
  exists text w', execute_database_query user_question w = (Ok text, w').
Proof.
  unfold execute_database_query, bind at 1, get.
  destruct (negb (server_running w)).
  - apply basic_analysis_returns.
  - apply try_except_returns. intros _. apply basic_analysis_returns.
Qed.

(* ===================================================================== *)
(** ** The direct analysis of the persistence store *)
(* ===================================================================== *)

Lemma endswith_spec (suffix s : string) :
  endswith suffix s = true <-> ends_with suffix s.
Proof.
  unfold ends_with. induction s as [|c s IH].
  - cbn [endswith]. rewrite orb_false_r, String.eqb_eq. split.
    + intros <-. now exists EmptyString.
    + intros [[|a pre] H]; [exact H | discriminate].
  - cbn [endswith]. rewrite orb_true_iff, String.eqb_eq, IH. split.
    + intros [<- | [pre ->]]; [now exists EmptyString | now exists (String c pre)].
    + intros [[|a pre] H]; [now left | right].
      injection H as _ ->. now exists pre.
Qed.

Lemma length_append (a b : string) :
  String.length (a ++ b) = String.length a + String.length b.
Proof. induction a; simpl; congruence. Qed.

(** Of two endings of one text, the shorter is an ending of the longer. *)
Lemma ends_with_both (a b s : string) :
  ends_with a s -> ends_with b s -> String.length b <= String.length a ->
  ends_with b a.
Proof.
  intros [p1 H1] [p2 H2]. subst s. revert p2 H2.
  induction p1 as [|c p1 IH]; intros p2 H Hlen.
  - now exists p2.
  - destruct p2 as [|d p2].
    + simpl in H. apply (f_equal String.length) in H.
      cbn [append String.length] in H. rewrite length_append in H. lia.
    + injection H as _ H. now apply (IH p2).
Qed.

Lemma join_last (sep x : string) (parts : list string) :
  ends_with x (join sep (List.app parts [x])).
Proof.
  induction parts as [|p parts IH].
  - now exists EmptyString.
  - destruct IH as [pre IH]. cbn [List.app join].
    destruct (List.app parts [x]) as [|y rest] eqn:E.
    + now destruct parts.
    + exists (p ++ sep ++ pre). rewrite IH, !append_assoc. reflexivity.
Qed.

Lemma basic_session_lines_text (rows : list (sqlval * Z * option string)) (i : nat) :
  Forall (fun row => exists s, fst (fst row) = SqlText s) rows ->
  exists lines, basic_session_lines i rows = Ok lines.
Proof.
  intros H. revert i. induction H as [|[[session_id n] d] rows [s Hs] _ IH]; intros i.
  - now exists [].
  - cbn in Hs. subst session_id. destruct (IH (S i)) as [lines Hl].
    cbn. rewrite Hl. cbn. eauto.
Qed.

(** The first session id that is not text is the one whose exception
    leaves the loop over the most active sessions. *)
Lemma basic_session_lines_failure (rows : list (sqlval * Z * option string))
      (i : nat) (e : exn) :
  id_failure rows = Some e -> basic_session_lines i rows = Raised e.
Proof.
  only_stated.
  revert i. induction rows as [|[[session_id n] d] rows IH]; intros i; [discriminate|].
  cbn [id_failure basic_session_lines fst].
  destruct (short_id_of session_id) as [short_id|e']; cbn [rbind].
  - intros H. now rewrite (IH (S i) H).
  - now intros [= ->].
Qed.

Lemma id_failure_none (rows : list (sqlval * Z * option string)) :
  id_failure rows = None <-> Forall (fun row => exists s, fst (fst row) = SqlText s) rows.
Proof.
  only_stated.
  induction rows as [|[[session_id n] d] rows IH]; [now split|].
  cbn [id_failure fst]. split.
  - destruct session_id as [|z|m x|s|b]; try discriminate. cbn [short_id_of].
    intros H. constructor; [now exists s | now apply IH].
  - intros H. inversion H as [|? ? [s Hs] Hrest]; subst. cbn in Hs. subst session_id.
    cbn [short_id_of]. now apply IH.
Qed.

Lemma first_failure_none (db : Persistence) :
  first_failure db = None <-> persistence_answers db.
Proof.
  only_stated.
  unfold first_failure, persistence_answers. split.
  - destruct (db_connect db); [discriminate|].
    destruct (db_session_count db) as [sc|]; [|discriminate].
    destruct (db_message_count db) as [mc|]; [|discriminate].
    destruct (db_recent_activity db) as [ra|]; [|discriminate].
    destruct (db_active_sessions db) as [act|]; [|discriminate].
    intros H. apply id_failure_none in H. eauto 10.
  - intros (-> & [sc ->] & [mc ->] & [ra ->] & [act [-> H]]). now apply id_failure_none.
Qed.

(** The direct analysis never raises, touches the store once, and gives
    either a report whose last line is the marker of the basic mode or the
    message of the exception it met. *)
Lemma basic_analysis_run (w : World) :
  exists text,
    _basic_database_analysis w = (Ok text, log EvDb w)
    /\ (ends_with (nl ++ basic_marker) text
        \/ exists e, text = "Error analyzing database: " ++ exn_msg e).
Proof.
  unfold _basic_database_analysis. run.
  replace (store (log EvDb w)) with (store w) by reflexivity.
  destruct (db_connect (store w)) as [e|]; [eauto|].
  destruct (db_session_count (store w)) as [sc|e]; [|eauto].
  destruct (db_message_count (store w)) as [mc|e]; [|eauto].
  destruct (db_recent_activity (store w)) as [ra|e]; [|eauto].
  destruct (db_active_sessions (store w)) as [[|row act]|e]; [| |eauto].
  - eexists. split; [reflexivity|]. left. apply join_last.
  - destruct (basic_session_lines 1 (row :: act)) as [lines|e]; [|eauto].
    eexists. split; [reflexivity|]. left. apply join_last.
Qed.

Lemma basic_analysis_report (w : World) :
  persistence_answers (store w) ->
  exists text,
    _basic_database_analysis w = (Ok text, log EvDb w)
    /\ ends_with (nl ++ basic_marker) text.
Proof.
  intros (Hc & [sc Hsc] & [mc Hmc] & [ra Hra] & [act [Hact Hids]]).
  unfold _basic_database_analysis. run.
  replace (store (log EvDb w)) with (store w) by reflexivity.
  rewrite Hc, Hsc, Hmc, Hra, Hact.
  destruct act as [|row act].
  - eexists. split; [reflexivity|]. apply join_last.
  - destruct (basic_session_lines_text _ 1 Hids) as [lines ->].
    eexists. split; [reflexivity|]. apply join_last.
Qed.

Lemma basic_marker_is_not_mcp_marker (text : string) :
  ends_with (nl ++ basic_marker) text -> ~ ends_with mcp_marker text.
Proof.
  intros Ha Hb.
  assert (H : ends_with mcp_marker (nl ++ basic_marker)).
  { apply (ends_with_both _ _ text Ha Hb). cbn. lia. }
  apply endswith_spec in H. discriminate H.
Qed.

(** With no launcher the manager started from scratch stays as it was:
    not running, no process. *)
Lemma launcher_missing_not_running (w : World) (rc : Z) :
  which_npx w = Ok rc -> rc <> 0%Z -> start_server w = (Ok false, w).
Proof.
  intros Hrc Hne. unfold start_server. run. rewrite Hrc.
  apply Z.eqb_neq in Hne. now rewrite Hne.
Qed.

(** Whatever fails first, its message is the text returned. *)
Lemma basic_analysis_failure (w : World) (e : exn) :
  first_failure (store w) = Some e ->
  _basic_database_analysis w
  = (Ok ("Error analyzing database: " ++ exn_msg e), log EvDb w).
Proof.
  only_stated.
  unfold first_failure, _basic_database_analysis. run.
  replace (store (log EvDb w)) with (store w) by reflexivity.
  destruct (db_connect (store w)); [now intros [= ->]|].
  destruct (db_session_count (store w)) as [sc|]; [|now intros [= ->]].
  destruct (db_message_count (store w)) as [mc|]; [|now intros [= ->]].
  destruct (db_recent_activity (store w)) as [ra|]; [|now intros [= ->]].
  destruct (db_active_sessions (store w)) as [[|row act]|]; [discriminate | | now intros [= ->]].
  intros H. now rewrite (basic_session_lines_failure _ 1 _ H).
Qed.

(** C6, as the code has it. When the manager is not running, whatever the
    question, [execute_database_query] is the direct analysis of the
    persistence store and sends nothing to the subprocess. When the store
    answers all four statements and every session id it lists is text, the
    report ends with the line marking the basic mode, which is not the line
    marking a report made through the subprocess. In every other case (the
    connection or one of the statements raises, or a session id is NULL, a
    number or a blob) the text returned is the message Error analyzing
    database: followed by the text of the first exception met, and it
    carries no marker. *)
Theorem degraded_mode_report (user_question : option string) (w : World) :
  server_running w = false ->
  execute_database_query user_question w = _basic_database_analysis w
  /\ snd (execute_database_query user_question w) = log EvDb w
  /\ (persistence_answers (store w) ->
      exists report,
        fst (execute_database_query user_question w) = Ok report
        /\ ends_with (nl ++ basic_marker) report
        /\ ~ ends_with mcp_marker report)
  /\ (forall e,
        first_failure (store w) = Some e ->
        fst (execute_database_query user_question w)
        = Ok ("Error analyzing database: " ++ exn_msg e))
  /\ (~ persistence_answers (store w) -> exists e, first_failure (store w) = Some e)
  /\ (forall e,
        db_connect (store w) = Some e
        \/ (db_connect (store w) = None /\ db_session_count (store w) = Raised e) ->
        first_failure (store w) = Some e)
  /\ (exists text,
        fst (execute_database_query user_question w) = Ok text
        /\ (ends_with (nl ++ basic_marker) text
            \/ exists e, text = "Error analyzing database: " ++ exn_msg e)).
Proof.
  intros Hdown.
  assert (Heq : execute_database_query user_question w = _basic_database_analysis w).
  { unfold execute_database_query, bind at 1, get. now rewrite Hdown. }
  rewrite Heq. split; [reflexivity|].
  destruct (basic_analysis_run w) as (text & Hrun & Hshape).
  split; [now rewrite Hrun|]. split; [|split; [|split; [|split]]].
  - intros Hdb. destruct (basic_analysis_report w Hdb) as (report & Hr & Hend).
    exists report. rewrite Hr. repeat split; [assumption|].
    now apply basic_marker_is_not_mcp_marker.
  - intros e He. now rewrite (basic_analysis_failure w e He).
  - intros Hno. destruct (first_failure (store w)) as [e|] eqn:E; [now exists e|].
    apply first_failure_none in E. contradiction.
  - intros e [H | [Hc Hs]]; unfold first_failure; [now rewrite H|].
    now rewrite Hc, Hs.
  - exists text. now rewrite Hrun.
Qed.

(* ===================================================================== *)
(** ** What a run adds to the trace *)
(* ===================================================================== *)

Lemma extends_with_same (P : Event -> Prop) (w w' : World) :
  trace w' = trace w -> extends_with P w w'.
Proof. intros H. exists []. split; [now rewrite app_nil_r | constructor]. Qed.

Ltac trace_auto P :=
  repeat first
    [ assumption
    | respects_step (extends_with_refl P) (extends_with_trans P)
                    ltac:(first [ apply extends_with_same; reflexivity
                                | apply extends_with_log; assumption ]) ].

Lemma get_request_id_trace (P : Event -> Prop) :
  respects (extends_with P) _get_request_id.
Proof. unfold _get_request_id. trace_auto P. Qed.

Lemma send_trace (P : Event -> Prop) (request : json) :
  P (EvSend request) -> respects (extends_with P) (_send_mcp_request request).
Proof. intros HP. unfold _send_mcp_request. trace_auto P. Qed.

Lemma call_tool_trace (P : Event -> Prop) (tool_name : string) (arguments : json) :
  (forall id, P (EvSend (tool_request id tool_name arguments))) ->
  respects (extends_with P) (_call_mcp_tool tool_name arguments).
Proof.
  intros HP. unfold _call_mcp_tool.
  repeat first
    [ apply get_request_id_trace | apply send_trace, HP | progress trace_auto P ].
Qed.

Lemma handle_metadata_trace (user_question : string) :
  respects (extends_with metadata_event) (_handle_metadata_query user_question).
Proof.
  assert (H1 : respects (extends_with metadata_event) (_call_mcp_tool "list_tables" (JObj []))).
  { apply call_tool_trace. intros id. exists id, "list_tables". auto. }
  assert (H2 : respects (extends_with metadata_event) (_call_mcp_tool "db_info" (JObj []))).
  { apply call_tool_trace. intros id. exists id, "db_info". auto. }
  unfold _handle_metadata_query.
  trace_auto metadata_event.
Qed.

Lemma canned_call_trace (call : string * json) :
  In call canned_calls ->
  respects (extends_with canned_event) (_call_mcp_tool (fst call) (snd call)).
Proof.
  intros Hin. apply call_tool_trace. intros id. right. now exists id, call.
Qed.

Lemma stats_trace : respects (extends_with canned_event) _get_mcp_database_stats.
Proof.
  try clear unicode_upper.
  unfold _get_mcp_database_stats.
  repeat first
    [ apply (canned_call_trace ("db_info", JObj [])); cbn; tauto
    | apply (canned_call_trace ("list_tables", JObj [])); cbn; tauto
    | apply (canned_call_trace (_, _)); cbn; tauto
    | progress trace_auto canned_event ].
Qed.

Lemma basic_trace : respects (extends_with canned_event) _basic_database_analysis.
Proof.
  intros w r w' H. destruct (basic_analysis_run w) as (text & Hrun & _).
  rewrite Hrun in H. injection H as _ <-. apply extends_with_log. now left.
Qed.

(* ===================================================================== *)
(** ** Blank questions *)
(* ===================================================================== *)

Lemma lower_char_letter (c l : ascii) :
  lower_char c = l -> is_lower l = true -> is_upper c = true \/ is_lower c = true.
Proof.
  only_stated.
  unfold lower_char. destruct (is_upper c); [now left|]. intros ->. now right.
Qed.

Lemma letter_is_ascii (c : ascii) :
  is_upper c = true \/ is_lower c = true -> is_ascii c = true.
Proof.
  only_stated.
  unfold is_upper, is_lower. rewrite !andb_true_iff, !Nat.leb_le, is_ascii_range. lia.
Qed.

(** A question in which a keyword occurs is not blank: a keyword begins
    with a letter. *)
Lemma keyword_question_not_blank (phrases : list string) (q : string) :
  forallb (fun k => match k with
                    | String l _ => is_lower l
                    | EmptyString => false
                    end) phrases = true ->
  any_in phrases (lower q) = true ->
  has_question (Some q) = true.
Proof.
  intros Hk Hany. apply any_in_spec in Hany as (k & Hin & pre & post & Hocc).
  rewrite forallb_forall in Hk. specialize (Hk k Hin).
  destruct k as [|l k]; [discriminate|].
  destruct (lower_split _ _ _ Hocc) as (a & r & -> & _ & Hr).
  destruct r as [|c b]; [discriminate|]. cbn [lower append] in Hr. injection Hr as Hc _.
  pose proof (lower_char_letter _ _ Hc Hk) as Hletter.
  cbn [has_question].
  rewrite (strip_keeps a c b (letter_is_ascii _ Hletter) (letter_is_no_space _ Hletter)).
  now destruct a.
Qed.

Lemma blank_has_no_question (user_question : option string) :
  blank user_question -> has_question user_question = false.
Proof.
  destruct user_question as [q|]; [|reflexivity]. cbn [blank has_question].
  intros H. rewrite (strip_blank _ H). apply andb_false_r.
Qed.

(** An event that is no post to the LLM. *)
Lemma canned_event_not_llm (e : Event) : canned_event e -> forall q, e <> EvLlm q.
Proof. intros [-> | (id & call & _ & ->)] q; discriminate. Qed.

(** C10. For a question that is [None], empty or made of white-space
    characters only (those of [str.isspace], ASCII or not), and a running
    manager, [execute_database_query] is the default analysis alone:
    it runs neither the metadata handler nor the translator, posts nothing
    to the LLM, sends only the canned calls, and when the statistics are
    gathered it returns the report, or the message that no analysis is
    available when the report is empty. *)
Theorem blank_question_goes_to_default_analysis
        (user_question : option string) (w : World) :
  blank user_question ->
  server_running w = true ->
  execute_database_query user_question w
  = try_except default_analysis (fun _ => _basic_database_analysis) w
  /\ (forall results w',
        _get_mcp_database_stats w = (Ok results, w') ->
        execute_database_query user_question w
        = (Ok match results with
              | [] => no_analysis_message
              | _ => join nl results
              end, w'))
  /\ (exists added,
        trace (snd (execute_database_query user_question w)) = List.app (trace w) added
        /\ Forall canned_event added
        /\ Forall (fun e => forall q, e <> EvLlm q) added).
Proof.
  intros Hblank Hup.
  assert (Heq : execute_database_query user_question w
                = try_except default_analysis (fun _ => _basic_database_analysis) w).
  { unfold execute_database_query, bind at 1, get. rewrite Hup. cbn [negb].
    rewrite (blank_has_no_question _ Hblank).
    unfold try_except, bind at 1. now destruct user_question. }
  split; [exact Heq | split].
  - intros results w' Hstats. rewrite Heq. unfold try_except, default_analysis, bind.
    rewrite Hstats. now destruct results.
  - rewrite Heq.
    destruct (try_except default_analysis (fun _ => _basic_database_analysis) w)
      as [r w'] eqn:E.
    assert (H : respects (extends_with canned_event)
                         (try_except default_analysis (fun _ => _basic_database_analysis))).
    { unfold default_analysis.
      repeat first [ apply stats_trace | apply basic_trace
                   | progress trace_auto canned_event ]. }
    destruct (H _ _ _ E) as (added & Htrace & Hall). exists added. cbn [snd].
    repeat split; [assumption | assumption |].
    eapply Forall_impl; [|exact Hall]. intros e. apply canned_event_not_llm.
Qed.

(* ===================================================================== *)
(** ** Metadata questions *)
(* ===================================================================== *)

Lemma ensures_ret {A} (Q : A -> Prop) (a : A) : Q a -> ensures Q (ret a).
Proof. intros H w a' w' [= <- _]. exact H. Qed.

Lemma ensures_bind {A B} (Q : B -> Prop) (m : M A) (k : A -> M B) :
  (forall a, ensures Q (k a)) -> ensures Q (bind m k).
Proof.
  intros Hk w b w'. unfold bind. destruct (m w) as [[a|e] w1]; [apply Hk | discriminate].
Qed.

Lemma ensures_try_except {A} (Q : A -> Prop) (m : M A) (h : exn -> M A) :
  ensures Q m -> (forall e, ensures Q (h e)) -> ensures Q (try_except m h).
Proof.
  intros Hm Hh w a w'. unfold try_except. destruct (m w) as [[a'|e] w1] eqn:E.
  - intros [= <- <-]. eapply Hm, E.
  - apply Hh.
Qed.

Ltac ensures_step :=
  lazymatch goal with
  | |- ensures _ (bind _ _) => apply ensures_bind; intros ?
  | |- ensures _ (try_except _ _) => apply ensures_try_except; [|intros ?]
  | |- ensures _ (ret _) => apply ensures_ret
  | |- ensures _ (if ?b then _ else _) => destruct b
  | |- ensures _ (let _ := _ in _) => cbv zeta
  end.

(** An answer of the metadata handler is a text that is not empty. *)
Lemma handle_metadata_answer_nonempty (user_question : string) :
  ensures (fun o => truthy_str o = true \/ o = None)
          (_handle_metadata_query user_question).
Proof.
  unfold _handle_metadata_query. repeat ensures_step; (now right) || (now left).
Qed.

(** C7. When a question matches the metadata keywords and the metadata
    handler produces an answer, the router returns that answer, and the run
    has neither posted to the LLM nor called the query tool: the events it
    added are calls of [list_tables] or [db_info]. *)
Theorem metadata_answer_skips_nl_to_sql
        (user_question answer : string) (w w' : World) :
  server_running w = true ->
  _is_metadata_query user_question = true ->
  _handle_metadata_query user_question w = (Ok (Some answer), w') ->
  execute_database_query (Some user_question) w = (Ok answer, w')
  /\ _handle_natural_language_query user_question w = (Ok (Some answer), w')
  /\ exists added,
      trace w' = List.app (trace w) added
      /\ Forall metadata_event added
      /\ Forall (fun e => ~ nl_to_sql_event e) added.
Proof.
  intros Hup Hmeta Hrun.
  assert (Hanswer : nonempty answer = true).
  { destruct (handle_metadata_answer_nonempty _ _ _ _ Hrun) as [H|H];
      [exact H | discriminate]. }
  assert (Hnl : _handle_natural_language_query user_question w = (Ok (Some answer), w')).
  { unfold _handle_natural_language_query, try_except, bind at 1.
    rewrite Hmeta, Hrun. cbn [truthy_str]. now rewrite Hanswer. }
  split; [|split; [exact Hnl|]].
  - unfold execute_database_query, bind at 1, get. rewrite Hup. cbn [negb].
    rewrite (keyword_question_not_blank metadata_keywords) by (reflexivity || exact Hmeta).
    unfold try_except, bind. rewrite Hnl. cbn [truthy_str]. now rewrite Hanswer.
  - destruct (handle_metadata_trace _ _ _ _ Hrun) as (added & Htrace & Hall).
    exists added. repeat split; [assumption | assumption |].
    eapply Forall_impl; [|exact Hall].
    intros e (id & name & [-> | ->] & ->); cbn; discriminate.
Qed.

(* ===================================================================== *)
(** ** Tool calls *)
(* ===================================================================== *)

Lemma send_run (request : json) (w : World) (p : Process) :
  server_process w = Some p -> stdin p = true ->
  _send_mcp_request request w
  = (Ok (received (hd_error (pipe w))), after_exchange request w).
Proof.
  intros Hp Hin. unfold _send_mcp_request, after_exchange. run. rewrite Hp, Hin. cbn [negb].
  destruct w as [sp sr id wn spn pp l st tr]. cbn.
  destruct pp as [|[e|e| | |response] rest]; reflexivity.
Qed.

(** The run of a tool call on a manager that holds a process with a
    standard input. *)
Lemma call_tool_run (tool_name : string) (arguments : json) (w : World) (p : Process) :
  server_process w = Some p -> stdin p = true ->
  let id := (request_id w + 1)%Z in
  _call_mcp_tool tool_name arguments w
  = (Ok (tool_result (hd_error (pipe w))),
     after_exchange (tool_request id tool_name arguments) (set_request_id id w)).
Proof.
  intros Hp Hin. cbv zeta. unfold tool_result, _call_mcp_tool, try_except, bind at 1.
  unfold _get_request_id. run.
  rewrite (send_run _ _ p) by assumption.
  replace (pipe (set_request_id (request_id w + 1) w)) with (pipe w) by reflexivity.
  destruct (has_result (received (hd_error (pipe w)))) as [[|]|e]; try reflexivity.
  destruct (Py.getitem (received (hd_error (pipe w))) "result") as [result|e];
    [|reflexivity].
  unfold unwrapped. now destruct (unwrap_result result).
Qed.

Lemma has_result_field (fields : list (string * json)) (result : json) :
  Py.lookup "result" fields = Some result ->
  has_result (JObj fields) = Ok true
  /\ Py.getitem (JObj fields) "result" = Ok result.
Proof.
  intros H. unfold has_result, Py.getitem, Py.contains_key, Py.has_key. rewrite H.
  now destruct fields.
Qed.

Lemma tool_result_field (fields : list (string * json)) (rest : list LineOutcome)
      (result : json) :
  Py.lookup "result" fields = Some result ->
  tool_result (hd_error (Line (JObj fields) :: rest)) = unwrapped result.
Proof.
  intros H. unfold tool_result. cbn [hd_error received].
  now destruct (has_result_field _ _ H) as [-> ->].
Qed.

Lemma tool_call_fails_none (o : option LineOutcome) :
  tool_call_fails o -> tool_result o = JNull.
Proof.
  unfold tool_result. destruct o as [[e|e| | |response]|]; try reflexivity.
  cbn [received tool_call_fails].
  destruct (has_result response) as [[|]|e]; [congruence | reflexivity | reflexivity].
Qed.

Lemma tool_result_from_dict (o : option LineOutcome) :
  tool_result o <> JNull ->
  exists fields result,
    o = Some (Line (JObj fields))
    /\ Py.lookup "result" fields = Some result
    /\ tool_result o = unwrapped result.
Proof.
  unfold tool_result. destruct o as [[e|e| | |response]|];
    try (cbn; intros H; now destruct H).
  cbn [received]. destruct (has_result response) as [[|]|e] eqn:Hhas; try congruence.
  destruct (Py.getitem response "result") as [result|e] eqn:Hget; [|congruence].
  intros _. destruct response as [| | | |l|fields]; try discriminate Hget.
  cbn in Hget. destruct (Py.lookup "result" fields) as [x|] eqn:Hl; [|discriminate].
  injection Hget as ->. now exists fields, result.
Qed.

(** C3, as the code has it. A tool call sends one request, whose id is
    the previous id plus one, and takes the next line of the subprocess as
    its answer without looking at the id of that line: a response with a
    result field is accepted and its result unwrapped whatever id it
    carries; a response that is absent or has no result field yields
    nothing; and whenever the call yields a value, that value is the
    unwrapped result of the line read, whatever the id of that line. *)
Theorem tool_call_ignores_response_id
        (tool_name : string) (arguments : json) (w : World) (p : Process) :
  server_process w = Some p ->
  stdin p = true ->
  let id := (request_id w + 1)%Z in
  let run := _call_mcp_tool tool_name arguments w in
  trace (snd run) = List.app (trace w) [EvSend (tool_request id tool_name arguments)]
  /\ request_id (snd run) = id
  /\ (forall response_id fields rest result,
        pipe w = Line (JObj fields) :: rest ->
        Py.lookup "id" fields = Some response_id ->
        Py.lookup "result" fields = Some result ->
        fst run = Ok (unwrapped result))
  /\ (forall fields rest result,
        pipe w = Line (JObj fields) :: rest ->
        Py.lookup "result" fields = Some result ->
        fst run = Ok (unwrapped result))
  /\ (tool_call_fails (hd_error (pipe w)) -> fst run = Ok JNull)
  /\ (forall value,
        fst run = Ok value -> value <> JNull ->
        exists fields rest result,
          pipe w = Line (JObj fields) :: rest
          /\ Py.lookup "result" fields = Some result
          /\ value = unwrapped result).
Proof.
  intros Hp Hin. cbv zeta. rewrite (call_tool_run _ _ _ p Hp Hin). cbn [fst snd].
  split; [reflexivity | split; [reflexivity | split; [|split; [|split]]]].
  - intros response_id fields rest result Hpipe _ Hres. rewrite Hpipe. f_equal.
    now apply tool_result_field.
  - intros fields rest result Hpipe Hres. rewrite Hpipe. f_equal.
    now apply tool_result_field.
  - intros Hfail. now rewrite tool_call_fails_none.
  - intros value [= <-] Hv.
    destruct (tool_result_from_dict _ Hv) as (fields & result & Ho & Hl & Hu).
    destruct (pipe w) as [|o rest]; [discriminate|]. injection Ho as ->.
    now exists fields, rest, result.
Qed.

(* ===================================================================== *)
(** ** A query that fails *)
(* ===================================================================== *)

(** A statement the translator returns is not the empty text. *)
Lemma generated_sql_nonempty (question sql : string) (w w' : World) :
  _generate_sql_from_question question w = (Ok (Some sql), w') -> nonempty sql = true.
Proof.
  rewrite generate_sql_run. intros [= H _].
  assert (Hsafe : is_safe sql = true).
  { destruct (llm w question) as [e | status_code text]; [discriminate|].
    destruct (Z.eqb status_code 200); [|discriminate].
    destruct (parse_ollama_response text) as [[]|]; try discriminate.
    unfold safety_filter in H.
    destruct (is_safe (clean_fences (strip s))) eqn:E; [|discriminate].
    now injection H as <-. }
  destruct sql; [discriminate Hsafe | reflexivity].
Qed.

(** C4, as the code has it. When the metadata stage gives no answer, the
    translator gives a statement and the query tool call then fails (no
    response, or a response without a result field) or yields an empty
    result, the router returns the message No results found for the
    question; the query request is the last thing it sends, so the canned
    statistics are not run. *)
Theorem failed_query_reports_no_results
        (user_question sql : string) (metadata_result : option string)
        (w w0 w1 : World) (p : Process) :
  server_running w = true ->
  has_question (Some user_question) = true ->
  (if _is_metadata_query user_question
   then _handle_metadata_query user_question
   else ret None) w = (Ok metadata_result, w0) ->
  truthy_str metadata_result = false ->
  _generate_sql_from_question user_question w0 = (Ok (Some sql), w1) ->
  server_process w1 = Some p ->
  stdin p = true ->
  tool_call_fails (hd_error (pipe w1))
  \/ Py.truthy (tool_result (hd_error (pipe w1))) = false ->
  let request := tool_request (request_id w1 + 1) "query" (query_arguments sql) in
  execute_database_query (Some user_question) w
  = (Ok (no_results_message user_question),
     after_exchange request (set_request_id (request_id w1 + 1) w1))
  /\ trace (snd (execute_database_query (Some user_question) w))
     = List.app (trace w1) [EvSend request].
Proof.
  intros Hup Hq Hmeta Hnone Hsql Hp Hin Hfail. cbv zeta.
  assert (Hempty : Py.truthy (tool_result (hd_error (pipe w1))) = false).
  { destruct Hfail as [Hfail | Hfail]; [|exact Hfail].
    now rewrite tool_call_fails_none. }
  assert (Hrun : execute_database_query (Some user_question) w
                 = (Ok (no_results_message user_question),
                    after_exchange
                      (tool_request (request_id w1 + 1) "query" (query_arguments sql))
                      (set_request_id (request_id w1 + 1) w1))).
  { unfold execute_database_query, bind at 1, get. rewrite Hup, Hq. cbn [negb].
    unfold try_except at 1, bind at 1.
    unfold _handle_natural_language_query, try_except at 1, bind at 1.
    rewrite Hmeta, Hnone. unfold bind at 1. rewrite Hsql.
    rewrite (generated_sql_nonempty _ _ _ _ Hsql). unfold bind at 1.
    rewrite (call_tool_run _ _ _ p Hp Hin), Hempty. reflexivity. }
  rewrite Hrun. split; reflexivity.
Qed.


(* ===================================================================== *)
(** ** The classifiers *)
(* ===================================================================== *)




(** X2. A message that [is_database_query] accepts, which is how the chat
    endpoint decides to call the manager, is never a blank question: the
    guard of [execute_database_query] lets it through to the
    natural-language stage. *)
Theorem database_query_is_a_question (message : string) :
  is_database_query message = true ->
  has_question (Some message) = true /\ ~ blank (Some message).
Proof.
  intros H.
  assert (Hq : has_question (Some message) = true)
    by (apply (keyword_question_not_blank database_keywords); [reflexivity | exact H]).
  split; [exact Hq|]. intros Hb. apply blank_has_no_question in Hb. congruence.
Qed.

Lemma occurs_in_trans (k p s : string) : occurs_in k p -> occurs_in p s -> occurs_in k s.
Proof.
  only_stated.
  intros (a & b & ->) (c & d & ->). exists (c ++ a), (b ++ d).
  now rewrite !append_assoc.
Qed.

Lemma any_in_covered (keywords phrases : list string) (s : string) :
  forallb (any_in keywords) phrases = true ->
  any_in phrases s = true -> any_in keywords s = true.
Proof.
  intros Hcov H. apply any_in_spec in H as (p & Hin & Hocc).
  rewrite forallb_forall in Hcov. specialize (Hcov p Hin).
  apply any_in_spec in Hcov as (k & Hk & Hkp).
  apply any_in_spec. exists k. split; [exact Hk|]. eapply occurs_in_trans; eassumption.
Qed.

(** X3. Every question that holds a phrase of the count branch or of the
    list branch of the metadata handler, or the phrase database structure,
    passes the keyword test that guards the handler; the phrases database
    info and db info of its third branch do not pass it by themselves, so a
    question made of one of them never reaches the handler. *)
Theorem metadata_phrases_and_the_gate :
  (forall question,
      any_in (List.app count_phrases (List.app list_phrases ["database structure"]))
             (lower question) = true ->
      _is_metadata_query question = true)
  /\ (forall question,
        In question ["database info"; "db info"] ->
        any_in info_phrases (lower question) = true
        /\ _is_metadata_query question = false).
Proof.
  split.
  - intros question H. unfold _is_metadata_query.
    eapply any_in_covered; [|exact H]. reflexivity.
  - intros question [<- | [<- | []]]; split; reflexivity.
Qed.


(* ===================================================================== *)
(** ** Starting the subprocess *)
(* ===================================================================== *)

Lemma initialize_run (w : World) (p : Process) :
  server_process w = Some p -> stdin p = true ->
  let id := (request_id w + 1)%Z in
  _initialize_mcp_connection w
  = (Ok match has_result (received (hd_error (pipe w))) with
        | Ok true => true
        | _ => false
        end,
     after_exchange (initialize_request id) (set_request_id id w)).
Proof.
  intros Hp Hin. cbv zeta. unfold _initialize_mcp_connection, try_except, bind at 1.
  unfold _get_request_id. run.
  rewrite (send_run _ _ p) by assumption.
  replace (pipe (set_request_id (request_id w + 1) w)) with (pipe w) by reflexivity.
  now destruct (has_result (received (hd_error (pipe w)))) as [[|]|e].
Qed.

Lemma initialize_without_stdin (w : World) (p : Process) :
  server_process w = Some p -> stdin p = false ->
  _initialize_mcp_connection w = (Ok false, set_request_id (request_id w + 1) w).
Proof.
  intros Hp Hin. destruct w as [sp sr id wn spn pp l st tr]. cbn in Hp. subst sp.
  unfold _initialize_mcp_connection, _send_mcp_request, _get_request_id.
  run. cbn. now rewrite Hin.
Qed.

Lemma has_result_received (w : World) :
  has_result (received (hd_error (pipe w))) = Ok true <->
  exists response rest, pipe w = Line response :: rest /\ has_result response = Ok true.
Proof.
  only_stated.
  destruct (pipe w) as [|[e|e| | |response] rest]; cbn [hd_error received];
    try (split; [discriminate | intros (r & l & H & _); discriminate]).
  split.
  - intros H. now exists response, rest.
  - intros (r & l & [= <- <-] & H). exact H.
Qed.

(** X4. [start_server] returns [True] exactly when the launcher is found,
    the process is spawned with a standard input and is still running after
    the grace period, and the first line it writes answers the handshake
    with a result; the manager is then running, holds the handle and has
    sent the one [initialize] request, with the next id. *)
Theorem start_server_succeeds_iff (w : World) :
  (fst (start_server w) = Ok true <-> exists p, comes_up w p)
  /\ (forall p, comes_up w p ->
        let id := (request_id w + 1)%Z in
        snd (start_server w)
        = set_server_running true
            (after_exchange (initialize_request id)
                            (set_request_id id (set_server_process (Some p) w)))).
Proof.
  assert (Hrun : forall p, which_npx w = Ok 0%Z -> spawn w = Ok p ->
                           returncode p = None -> stdin p = true ->
            start_server w
            = let id := (request_id w + 1)%Z in
              let w2 := after_exchange (initialize_request id)
                          (set_request_id id (set_server_process (Some p) w)) in
              match has_result (received (hd_error (pipe w))) with
              | Ok true => (Ok true, set_server_running true w2)
              | _ => (Ok false, w2)
              end).
  { intros p Hw Hs Hr Hin. unfold start_server, try_except, bind at 1, get.
    unfold bind at 1, lift. rewrite Hw. cbn [Z.eqb negb]. unfold bind at 1. rewrite Hs.
    unfold bind at 1, modify. rewrite Hr. unfold bind at 1.
    rewrite (initialize_run _ p) by (assumption || reflexivity).
    cbv zeta. replace (pipe (set_server_process (Some p) w)) with (pipe w) by reflexivity.
    replace (request_id (set_server_process (Some p) w)) with (request_id w)
      by reflexivity.
    now destruct (has_result (received (hd_error (pipe w)))) as [[|]|e]. }
  split; [split|].
  - intros H. unfold start_server, try_except, bind at 1, get in H.
    unfold bind at 1, lift in H.
    destruct (which_npx w) as [rc|e] eqn:Hw; [|discriminate].
    destruct (Z.eqb rc 0) eqn:Hrc; [|discriminate]. apply Z.eqb_eq in Hrc. subst rc.
    cbn [negb] in H. unfold bind at 1 in H.
    destruct (spawn w) as [p|e] eqn:Hs; [|discriminate].
    unfold bind at 1, modify in H.
    destruct (returncode p) eqn:Hr; [discriminate|].
    destruct (stdin p) eqn:Hin.
    + exists p. repeat split; try assumption. apply has_result_received.
      unfold bind at 1 in H. rewrite (initialize_run _ p) in H by (assumption || reflexivity).
      replace (pipe (set_server_process (Some p) w)) with (pipe w) in H by reflexivity.
      destruct (has_result (received (hd_error (pipe w)))) as [[|]|e];
        [reflexivity | discriminate | discriminate].
    + unfold bind at 1 in H.
      rewrite (initialize_without_stdin _ p) in H by (assumption || reflexivity).
      discriminate.
  - intros (p & Hw & Hs & Hr & Hin & Hline). rewrite (Hrun p) by assumption. cbv zeta.
    apply has_result_received in Hline. now rewrite Hline.
  - intros p (Hw & Hs & Hr & Hin & Hline). rewrite (Hrun p) by assumption. cbv zeta.
    apply has_result_received in Hline. now rewrite Hline.
Qed.

(** X5. [start_server] never raises. When it returns [False] the running
    flag is what it was; when it returns [True] the flag is set; and once
    the process is spawned its handle is stored whatever the outcome (the
    child has exited, the handshake failed). A [stop_server] that follows
    terminates that child if it has not been reaped, and raises
    [ProcessLookupError], changing nothing, if it has. *)
Theorem start_server_keeps_the_handle (w : World) :
  exists started w',
    start_server w = (Ok started, w')
    /\ (started = false -> server_running w' = server_running w)
    /\ (started = true -> server_running w' = true)
    /\ (forall p, which_npx w = Ok 0%Z -> spawn w = Ok p ->
                  server_process w' = Some p
                  /\ (reaped p = false ->
                      fst (stop_server w') = Ok tt
                      /\ trace (snd (stop_server w')) = List.app (trace w') [EvTerminate]
                      /\ server_running (snd (stop_server w')) = false)
                  /\ (reaped p = true ->
                      stop_server w' = (Raised (Exn ProcessLookupError ""), w'))).
Proof.
  assert (Hstop : forall w' p, server_process w' = Some p ->
            server_process w' = Some p
            /\ (reaped p = false ->
                fst (stop_server w') = Ok tt
                /\ trace (snd (stop_server w')) = List.app (trace w') [EvTerminate]
                /\ server_running (snd (stop_server w')) = false)
            /\ (reaped p = true ->
                stop_server w' = (Raised (Exn ProcessLookupError ""), w'))).
  { intros w' p Hp. split; [exact Hp | split].
    - intros Hr. rewrite (stop_server_live w' p Hp Hr). now repeat split.
    - intros Hr. now apply (stop_server_reaped w' p). }
  unfold start_server, try_except, bind at 1, get. unfold bind at 1, lift.
  destruct (which_npx w) as [rc|e] eqn:Hw.
  2:{ exists false, w. split; [reflexivity|]. split; [reflexivity|].
      split; discriminate. }
  destruct (Z.eqb rc 0) eqn:Hrc; cbn [negb].
  2:{ exists false, w. split; [reflexivity|]. split; [reflexivity|].
      split; [discriminate|]. intros q [= ->]. discriminate. }
  unfold bind at 1. destruct (spawn w) as [p|e] eqn:Hs.
  2:{ exists false, w. split; [reflexivity|]. split; [reflexivity|].
      split; discriminate. }
  unfold bind at 1, modify.
  destruct (returncode p) eqn:Hr.
  { eexists false, _. split; [reflexivity|]. split; [reflexivity|].
    split; [discriminate|]. intros q _ [= <-]. now apply Hstop. }
  unfold bind at 1.
  destruct (_initialize_mcp_connection (set_server_process (Some p) w))
    as [[[|]|e] w2] eqn:E;
    pose proof (initialize_same_manager _ _ _ E) as [Hp2 Hr2]; cbn in Hp2, Hr2.
  - eexists true, _. split; [reflexivity|]. split; [discriminate|].
    split; [reflexivity|]. intros q _ [= <-]. now apply Hstop.
  - eexists false, _. split; [reflexivity|]. split; [intros _; exact Hr2|].
    split; [discriminate|]. intros q _ [= <-]. now apply Hstop.
  - eexists false, _. split; [reflexivity|]. split; [intros _; exact Hr2|].
    split; [discriminate|]. intros q _ [= <-]. now apply Hstop.
Qed.


(* ===================================================================== *)
(** ** Request ids *)
(* ===================================================================== *)

Lemma strongly_sorted_app (l1 l2 : list Z) (bound : Z) :
  StronglySorted Z.lt l1 -> StronglySorted Z.lt l2 ->
  Forall (fun i => (i <= bound)%Z) l1 -> Forall (fun i => (bound < i)%Z) l2 ->
  StronglySorted Z.lt (List.app l1 l2).
Proof.
  only_stated.
  intros H1 H2 Hb1 Hb2. induction H1 as [|a l1 Hs IH Ha]; [exact H2|].
  cbn [List.app]. inversion Hb1 as [|? ? Hab Hb1']; subst. constructor.
  - now apply IH.
  - apply Forall_app. split; [exact Ha|].
    eapply Forall_impl; [|exact Hb2]. cbv beta. intros i Hi. lia.
Qed.

Lemma ids_advance_refl (w : World) : ids_advance w w.
Proof.
  only_stated.
  split; [lia|]. exists []. rewrite app_nil_r. repeat split; constructor.
Qed.

Lemma ids_advance_trans (a b c : World) :
  ids_advance a b -> ids_advance b c -> ids_advance a c.
Proof.
  only_stated.
  intros (Hab & l1 & T1 & C1 & S1 & B1) (Hbc & l2 & T2 & C2 & S2 & B2).
  split; [lia|]. exists (List.app l1 l2). unfold sent_ids in *. rewrite flat_map_app.
  split; [now rewrite T2, T1, app_assoc|]. split; [now apply Forall_app|]. split.
  - apply (strongly_sorted_app _ _ (request_id b)); try assumption.
    + eapply Forall_impl; [|exact B1]. cbv beta. intros i Hi. lia.
    + eapply Forall_impl; [|exact B2]. cbv beta. intros i Hi. lia.
  - apply Forall_app. split.
    + eapply Forall_impl; [|exact B1]. cbv beta. intros i Hi. lia.
    + eapply Forall_impl; [|exact B2]. cbv beta. intros i Hi. lia.
Qed.

(** A step that leaves the counter and adds no request. *)
Lemma ids_advance_quiet (w w' : World) (added : list Event) :
  request_id w' = request_id w ->
  trace w' = List.app (trace w) added ->
  Forall (fun e => match e with EvSend _ => False | _ => True end) added ->
  ids_advance w w'.
Proof.
  only_stated.
  intros Hid Ht Hq. split; [lia|]. exists added. split; [exact Ht|].
  assert (Hnone : sent_ids added = []).
  { clear Ht. unfold sent_ids. induction Hq as [|e l He _ IH]; [reflexivity|].
    cbn [flat_map]. rewrite IH. now destruct e. }
  rewrite Hnone. repeat split; try constructor.
  eapply Forall_impl; [|exact Hq]. intros [r| | |]; cbn; tauto.
Qed.

(** A tool call on a manager without a transport (no process, or a
    process without a standard input) uses up an id and sends nothing. *)
Lemma call_tool_without_transport (tool_name : string) (arguments : json) (w : World) :
  server_process w = None
  \/ (exists p, server_process w = Some p /\ stdin p = false) ->
  _call_mcp_tool tool_name arguments w
  = (Ok JNull, set_request_id (request_id w + 1) w).
Proof.
  intros H. destruct w as [sp sr id wn spn pp l st tr]. cbn in H.
  unfold _call_mcp_tool, _send_mcp_request, _get_request_id. run. cbn.
  destruct H as [-> | (p & -> & Hin)]; [reflexivity|]. now rewrite Hin.
Qed.

Lemma initialize_without_transport (w : World) :
  server_process w = None
  \/ (exists p, server_process w = Some p /\ stdin p = false) ->
  _initialize_mcp_connection w = (Ok false, set_request_id (request_id w + 1) w).
Proof.
  only_stated.
  intros [H | (p & Hp & Hin)]; [|now apply (initialize_without_stdin _ p)].
  destruct w as [sp sr id wn spn pp l st tr]. cbn in H. subst sp. reflexivity.
Qed.

Lemma transport_cases (w : World) :
  (exists p, server_process w = Some p /\ stdin p = true)
  \/ server_process w = None
  \/ (exists p, server_process w = Some p /\ stdin p = false).
Proof.
  only_stated.
  destruct (server_process w) as [p|]; [|now right; left].
  destruct (stdin p) eqn:E; [left | right; right]; now exists p.
Qed.

Lemma ids_advance_exchange (request : json) (w : World) :
  id_of request = Some (request_id w + 1)%Z ->
  ids_advance w (after_exchange request (set_request_id (request_id w + 1) w)).
Proof.
  only_stated.
  intros Hid. split; [cbn; lia|]. exists [EvSend request]. cbn. rewrite Hid.
  repeat split; repeat constructor; try congruence; lia.
Qed.

Lemma ids_advance_skip (w : World) :
  ids_advance w (set_request_id (request_id w + 1) w).
Proof.
  only_stated.
  split; [cbn; lia|]. exists []. cbn. rewrite app_nil_r. repeat split; constructor.
Qed.

Lemma call_tool_ids (tool_name : string) (arguments : json) :
  respects ids_advance (_call_mcp_tool tool_name arguments).
Proof.
  intros w r w' H.
  destruct (transport_cases w) as [(p & Hp & Hin) | Hno].
  - rewrite (call_tool_run _ _ _ p Hp Hin) in H. injection H as _ <-.
    now apply ids_advance_exchange.
  - rewrite (call_tool_without_transport _ _ _ Hno) in H. injection H as _ <-.
    apply ids_advance_skip.
Qed.

Lemma initialize_ids : respects ids_advance _initialize_mcp_connection.
Proof.
  intros w r w' H.
  destruct (transport_cases w) as [(p & Hp & Hin) | Hno].
  - rewrite (initialize_run _ p Hp Hin) in H. injection H as _ <-.
    now apply ids_advance_exchange.
  - rewrite (initialize_without_transport _ Hno) in H. injection H as _ <-.
    apply ids_advance_skip.
Qed.

Create HintDb ids.
#[local] Hint Resolve call_tool_ids initialize_ids : ids.

Ltac ids_auto :=
  repeat first
    [ solve [auto with ids]
    | respects_step ids_advance_refl ids_advance_trans
        ltac:(first [ apply ids_advance_refl
                    | eapply (ids_advance_quiet _ _ []);
                        [reflexivity | cbn; now rewrite app_nil_r | constructor]
                    | eapply (ids_advance_quiet _ _ [_]);
                        [reflexivity | reflexivity | now repeat constructor] ]) ].

Lemma handle_metadata_ids (user_question : string) :
  respects ids_advance (_handle_metadata_query user_question).
Proof. unfold _handle_metadata_query. ids_auto. Qed.

Lemma generate_sql_ids (question : string) :
  respects ids_advance (_generate_sql_from_question question).
Proof. unfold _generate_sql_from_question. ids_auto. Qed.

Lemma stats_ids : respects ids_advance _get_mcp_database_stats.
Proof. unfold _get_mcp_database_stats. ids_auto. Qed.

Lemma basic_ids : respects ids_advance _basic_database_analysis.
Proof. unfold _basic_database_analysis. ids_auto. Qed.

#[local] Hint Resolve handle_metadata_ids generate_sql_ids stats_ids basic_ids : ids.

Lemma handle_nl_ids (user_question : string) :
  respects ids_advance (_handle_natural_language_query user_question).
Proof. unfold _handle_natural_language_query. ids_auto. Qed.

#[local] Hint Resolve handle_nl_ids : ids.

Lemma execute_ids (user_question : option string) :
  respects ids_advance (execute_database_query user_question).
Proof. unfold execute_database_query, default_analysis. ids_auto. Qed.

Lemma start_server_ids : respects ids_advance start_server.
Proof. unfold start_server. ids_auto. Qed.

Lemma stop_server_ids : respects ids_advance stop_server.
Proof. unfold stop_server. ids_auto. Qed.

Lemma run_call_ids (c : Call) (w : World) : ids_advance w (run_call c w).
Proof.
  destruct c as [| | user_question]; cbn [run_call].
  - destruct (start_server w) as [r w'] eqn:E. exact (start_server_ids _ _ _ E).
  - destruct (stop_server w) as [r w'] eqn:E. exact (stop_server_ids _ _ _ E).
  - destruct (execute_database_query user_question w) as [r w'] eqn:E.
    exact (execute_ids _ _ _ _ E).
Qed.

(** X6. Request ids are never reused. Over any sequence of calls of
    [start_server], [stop_server] and [execute_database_query], every
    request written to the subprocess carries an id, the ids are strictly
    increasing in the order sent, each is above the counter the sequence
    started from, and none is above the counter it ends with. *)
Theorem request_ids_strictly_increase (calls : list Call) (w : World) :
  ids_advance w (run_calls calls w).
Proof.
  unfold run_calls. revert w. induction calls as [|c calls IH]; intros w.
  - apply ids_advance_refl.
  - cbn [fold_left]. eapply ids_advance_trans; [apply run_call_ids | apply IH].
Qed.


(* ===================================================================== *)
(** ** What a tool call yields *)
(* ===================================================================== *)

(** X7. A tool call on a manager that has no process, or whose process
    has no standard input, yields [None] without touching the pipe: nothing
    is written, no line is read; yet the call uses up a request id. *)
Theorem tool_call_needs_a_transport
        (tool_name : string) (arguments : json) (w : World) :
  server_process w = None
  \/ (exists p, server_process w = Some p /\ stdin p = false) ->
  let run := _call_mcp_tool tool_name arguments w in
  fst run = Ok JNull
  /\ trace (snd run) = trace w
  /\ pipe (snd run) = pipe w
  /\ request_id (snd run) = (request_id w + 1)%Z.
Proof.
  intros H. cbv zeta. rewrite (call_tool_without_transport _ _ _ H). now repeat split.
Qed.

(** X8. A tool call never raises, and the only responses it takes a value
    from are JSON objects with a [result] key, read on a live transport: a
    response that is a list, a string (even one in which the word result
    occurs), a number, or an object without that key yields [None]. *)
Theorem tool_call_value_comes_from_a_result
        (tool_name : string) (arguments : json) (w : World) :
  exists value,
    fst (_call_mcp_tool tool_name arguments w) = Ok value
    /\ (value <> JNull ->
        exists p fields rest result,
          server_process w = Some p /\ stdin p = true
          /\ pipe w = Line (JObj fields) :: rest
          /\ Py.lookup "result" fields = Some result
          /\ value = unwrapped result).
Proof.
  destruct (transport_cases w) as [(p & Hp & Hin) | Hno].
  - rewrite (call_tool_run _ _ _ p Hp Hin). cbn [fst]. eexists. split; [reflexivity|].
    intros Hv. destruct (tool_result_from_dict _ Hv) as (fields & result & Ho & Hl & Hu).
    destruct (pipe w) as [|o rest]; [discriminate|]. injection Ho as ->.
    now exists p, fields, rest, result.
  - rewrite (call_tool_without_transport _ _ _ Hno). cbn [fst]. exists JNull.
    split; [reflexivity | congruence].
Qed.



(* ===================================================================== *)
(** ** The report made through the subprocess *)
(* ===================================================================== *)

(** X10. The two extractors disagree on a bare list of rows. When the
    response is an object whose [results] is a list, the single value is
    read from the first row, which is also the first row
    [_extract_query_results] gives, and a column at the top level of the
    object is never consulted, not even when the list is empty. When the
    response is a bare list, [_extract_query_results] gives its rows but
    [_extract_query_result] gives [None]. *)
Theorem extractors_on_the_two_shapes (column : string) :
  (forall rows,
      _extract_query_results (JArr rows) = JArr rows
      /\ _extract_query_result (JArr rows) column = JNull)
  /\ (forall fields row rest,
        Py.lookup "results" fields = Some (JArr (JObj row :: rest)) ->
        _extract_query_results (JObj fields) = JArr (JObj row :: rest)
        /\ _extract_query_result (JObj fields) column = field column row)
  /\ (forall fields value,
        Py.lookup "results" fields = Some (JArr []) ->
        Py.lookup column fields = Some value ->
        _extract_query_result (JObj fields) column = JNull)
  /\ (forall fields,
        (forall rows, Py.lookup "results" fields <> Some (JArr rows)) ->
        _extract_query_result (JObj fields) column = field column fields).
Proof.
  only_stated.
  split; [|split; [|split]].
  - intros rows. now split.
  - intros fields row rest H. unfold _extract_query_results, _extract_query_result, field.
    rewrite H. now split.
  - intros fields value H _. unfold _extract_query_result. now rewrite H.
  - intros fields H. unfold _extract_query_result, field.
    destruct (Py.lookup "results" fields) as [[| | | |rows|]|]; try reflexivity.
    now destruct (H rows).
Qed.

Lemma stats_marker :
  ensures (fun results =>
             results = []
             \/ exists body, body <> [] /\ results = List.app body [nl ++ mcp_marker])
          _get_mcp_database_stats.
Proof.
  unfold _get_mcp_database_stats. repeat ensures_step.
  all: try match goal with
           | |- ensures _ (match ?r with _ => _ end) => destruct r; apply ensures_ret
           end.
  all: first [ now left | right; eexists; split; [|reflexivity]; discriminate ].
Qed.

Lemma mcp_marker_is_not_basic_marker (text : string) :
  ends_with (nl ++ mcp_marker) text -> ~ ends_with (nl ++ basic_marker) text.
Proof.
  only_stated.
  intros Ha Hb.
  assert (H : ends_with (nl ++ mcp_marker) (nl ++ basic_marker)).
  { apply (ends_with_both _ _ text Hb Ha). cbn. lia. }
  apply endswith_spec in H. discriminate H.
Qed.

(** X11. The statistics gathered through the subprocess are either empty
    or end with the line marking the subprocess; so the default analysis,
    when it completes, gives either the message that no analysis is
    available or a report whose last line is that marker, which is not the
    marker of the basic mode. *)
Theorem subprocess_report_ends_with_its_marker (w : World) :
  (forall results w',
      _get_mcp_database_stats w = (Ok results, w') ->
      results = []
      \/ exists body, body <> [] /\ results = List.app body [nl ++ mcp_marker])
  /\ (forall text w',
        default_analysis w = (Ok text, w') ->
        text = no_analysis_message
        \/ (ends_with (nl ++ mcp_marker) text
            /\ ~ ends_with (nl ++ basic_marker) text)).
Proof.
  split.
  - intros results w' H. exact (stats_marker _ _ _ H).
  - intros text w'. unfold default_analysis, bind.
    destruct (_get_mcp_database_stats w) as [[results|e] w1] eqn:E; [|discriminate].
    destruct (stats_marker _ _ _ E) as [-> | (body & Hne & ->)].
    + intros [= <- _]. now left.
    + assert (Hend : ends_with (nl ++ mcp_marker)
                               (join nl (List.app body [nl ++ mcp_marker])))
        by apply join_last.
      destruct (List.app body [nl ++ mcp_marker]) eqn:Happ.
      * now destruct body.
      * intros [= <- _]. right. split; [exact Hend|].
        now apply mcp_marker_is_not_basic_marker.
Qed.


(* ===================================================================== *)
(** ** The statements that reach the subprocess *)
(* ===================================================================== *)

Lemma respects_weaken {A} (R R' : World -> World -> Prop) (m : M A) :
  (forall w w', R w w' -> R' w w') -> respects R m -> respects R' m.
Proof. intros HR Hm w r w' H. eapply HR, Hm, H. Qed.

Lemma extends_with_weaken (P Q : Event -> Prop) (w w' : World) :
  (forall e, P e -> Q e) -> extends_with P w w' -> extends_with Q w w'.
Proof.
  only_stated.
  intros HPQ (l & H & F). exists l. split; [exact H|].
  eapply Forall_impl; [exact HPQ | exact F].
Qed.

(** A bind whose continuation may rely on what the first method ensures. *)
Lemma respects_bind_ensures {A B} (R : World -> World -> Prop) (Q : A -> Prop)
      (m : M A) (k : A -> M B) :
  (forall a b c, R a b -> R b c -> R a c) ->
  respects R m -> ensures Q m -> (forall a, Q a -> respects R (k a)) ->
  respects R (bind m k).
Proof.
  intros Rtrans Hm HQ Hk w r w'. unfold bind.
  destruct (m w) as [[a|e] w1] eqn:E; intros H.
  - eapply Rtrans; [eapply Hm, E | eapply Hk; [eapply HQ, E | exact H]].
  - injection H as _ <-. eapply Hm, E.
Qed.

Lemma metadata_event_vetted (e : Event) : metadata_event e -> vetted_event e.
Proof.
  only_stated.
  intros (id & name & Hname & ->). left. now exists id, name.
Qed.

Lemma canned_event_vetted (e : Event) : canned_event e -> vetted_event e.
Proof.
  only_stated.
  intros [-> | (id & call & Hin & ->)]; [exact I|].
  cbn in Hin.
  destruct Hin as [<- | [<- | [<- | [<- | [<- | [<- | []]]]]]]; cbn [fst snd].
  - left. exists id, "db_info". auto.
  - left. exists id, "list_tables". auto.
  - right. exists id, "SELECT COUNT(*) as total_sessions FROM sessions".
    split; [reflexivity|]. left. cbn. tauto.
  - right. exists id, "SELECT COUNT(*) as total_messages FROM messages".
    split; [reflexivity|]. left. cbn. tauto.
  - right. exists id, recent_activity_sql. split; [reflexivity|]. left. cbn. tauto.
  - right. exists id, active_sessions_sql. split; [reflexivity|]. left. cbn. tauto.
Qed.

Lemma generate_sql_vetted (question : string) :
  ensures (fun o => forall sql,
               o = Some sql ->
               passes_checks sql
               /\ forall word, In word denied_words -> ~ contains_nocase word sql)
          (_generate_sql_from_question question).
Proof.
  intros w o w'. rewrite generate_sql_run. intros [= <- _] sql.
  destruct (llm w question) as [e | status_code text]; [discriminate|].
  destruct (Z.eqb status_code 200); [|discriminate].
  destruct (parse_ollama_response text) as [[]|]; try discriminate.
  intros H. apply safety_filter_some in H as (-> & Hchecks & Hnone & _). now split.
Qed.

Lemma generate_sql_trace (P : Event -> Prop) (question : string) :
  P (EvLlm question) -> respects (extends_with P) (_generate_sql_from_question question).
Proof.
  intros HP w r w'. rewrite generate_sql_run. intros [= _ <-].
  now apply extends_with_log.
Qed.

Lemma handle_nl_vetted (user_question : string) :
  respects (extends_with vetted_event) (_handle_natural_language_query user_question).
Proof.
  unfold _handle_natural_language_query.
  apply (respects_try_except _ (extends_with_trans _));
    [|intros e; apply (respects_ret _ (extends_with_refl _))].
  apply (respects_bind _ (extends_with_trans _)).
  { destruct (_is_metadata_query user_question);
      [|apply (respects_ret _ (extends_with_refl _))].
    eapply respects_weaken; [|apply handle_metadata_trace].
    intros w w'. apply extends_with_weaken, metadata_event_vetted. }
  intros metadata_result. destruct (truthy_str metadata_result);
    [apply (respects_ret _ (extends_with_refl _))|].
  apply (respects_bind_ensures _ _ _ _ (extends_with_trans _)
                               (generate_sql_trace _ _ I)
                               (generate_sql_vetted _)).
  intros [sql|] Hsql; [|apply (respects_ret _ (extends_with_refl _))].
  destruct (nonempty sql); [|apply (respects_ret _ (extends_with_refl _))].
  apply (respects_bind _ (extends_with_trans _)).
  - apply call_tool_trace. intros id. right. exists id, sql. split; [reflexivity|].
    right. now apply Hsql.
  - intros result. destruct (Py.truthy result);
      apply (respects_ret _ (extends_with_refl _)).
Qed.

(** X12. No unfiltered statement reaches the subprocess. Every request
    [execute_database_query] writes is a call of [list_tables] or
    [db_info], or a call of [query] whose statement is one of the four
    canned statements or a statement that passed the safety checks: its
    upper case, as [str.upper] gives it, begins with SELECT and holds none
    of DROP, DELETE, UPDATE, INSERT, so that the statement holds none of
    these words in any letter case. *)
Theorem only_vetted_statements_are_sent (user_question : option string) (w : World) :
  exists added,
    trace (snd (execute_database_query user_question w)) = List.app (trace w) added
    /\ Forall vetted_event added.
Proof.
  assert (Hbasic : respects (extends_with vetted_event) _basic_database_analysis).
  { eapply respects_weaken; [|apply basic_trace].
    intros a b. apply extends_with_weaken, canned_event_vetted. }
  assert (Hstats : respects (extends_with vetted_event) _get_mcp_database_stats).
  { eapply respects_weaken; [|apply stats_trace].
    intros a b. apply extends_with_weaken, canned_event_vetted. }
  assert (H : respects (extends_with vetted_event)
                       (execute_database_query user_question)).
  { unfold execute_database_query, default_analysis.
    repeat first [ exact Hbasic | exact Hstats | apply handle_nl_vetted
                 | progress trace_auto vetted_event ]. }
  destruct (execute_database_query user_question w) as [r w'] eqn:E.
  exact (H _ _ _ E).
Qed.


(* ===================================================================== *)
(** ** The natural-language stage *)
(* ===================================================================== *)

(** X13. The answer discloses what was run. When the metadata stage gives
    no answer, the translator gives a statement and the query tool gives a
    result that is not empty, the router returns the header naming the
    question, the formatted result and a footer holding the very statement
    sent to the subprocess; the question and the statement both occur in
    the text. *)
Theorem query_answer_discloses_the_sql
        (user_question sql : string) (metadata_result : option string)
        (w w0 w1 : World) (p : Process) :
  server_running w = true ->
  has_question (Some user_question) = true ->
  (if _is_metadata_query user_question
   then _handle_metadata_query user_question
   else ret None) w = (Ok metadata_result, w0) ->
  truthy_str metadata_result = false ->
  _generate_sql_from_question user_question w0 = (Ok (Some sql), w1) ->
  server_process w1 = Some p ->
  stdin p = true ->
  Py.truthy (tool_result (hd_error (pipe w1))) = true ->
  let result := tool_result (hd_error (pipe w1)) in
  let text := sql_answer user_question (_format_query_results result) sql in
  fst (execute_database_query (Some user_question) w) = Ok text
  /\ trace (snd (execute_database_query (Some user_question) w))
     = List.app (trace w1)
         [EvSend (tool_request (request_id w1 + 1) "query" (query_arguments sql))]
  /\ occurs_in user_question text
  /\ occurs_in sql text.
Proof.
  intros Hup Hq Hmeta Hnone Hsql Hp Hin Hres. cbv zeta.
  assert (Hrun : execute_database_query (Some user_question) w
                 = (Ok (sql_answer user_question
                          (_format_query_results (tool_result (hd_error (pipe w1)))) sql),
                    after_exchange
                      (tool_request (request_id w1 + 1) "query" (query_arguments sql))
                      (set_request_id (request_id w1 + 1) w1))).
  { unfold execute_database_query, bind at 1, get. rewrite Hup, Hq. cbn [negb].
    unfold try_except at 1, bind at 1.
    unfold _handle_natural_language_query, try_except at 1, bind at 1.
    rewrite Hmeta, Hnone. unfold bind at 1. rewrite Hsql.
    rewrite (generated_sql_nonempty _ _ _ _ Hsql). unfold bind at 1.
    rewrite (call_tool_run _ _ _ p Hp Hin), Hres. reflexivity. }
  rewrite Hrun. split; [reflexivity | split; [reflexivity | split]].
  - unfold sql_answer, answer_header.
    exists ("📊 **Answer to: " ++ dq),
           (dq ++ "**" ++ nl ++ nl
            ++ _format_query_results (tool_result (hd_error (pipe w1)))
            ++ nl ++ nl ++ "💡 *Generated SQL: `" ++ sql ++ "`*").
    now rewrite !append_assoc.
  - unfold sql_answer.
    exists (answer_header user_question ++ nl ++ nl
            ++ _format_query_results (tool_result (hd_error (pipe w1)))
            ++ nl ++ nl ++ "💡 *Generated SQL: `"), "`*".
    now rewrite !append_assoc.
Qed.

(** X14. When the metadata stage gives no answer and the translator gives
    no statement (the LLM is unreachable, answers with another status, or
    proposes a statement the filter rejects), nothing is sent for the
    question and the router goes on with the default analysis, from the
    world the translator left, under the same handler as ever: the direct
    analysis if the statistics raise. *)
Theorem declined_translation_falls_back
        (user_question : string) (metadata_result : option string) (w w0 w1 : World) :
  server_running w = true ->
  has_question (Some user_question) = true ->
  (if _is_metadata_query user_question
   then _handle_metadata_query user_question
   else ret None) w = (Ok metadata_result, w0) ->
  truthy_str metadata_result = false ->
  _generate_sql_from_question user_question w0 = (Ok None, w1) ->
  execute_database_query (Some user_question) w
  = try_except default_analysis (fun _ => _basic_database_analysis) w1
  /\ w1 = log (EvLlm user_question) w0.
Proof.
  intros Hup Hq Hmeta Hnone Hsql. split.
  - unfold execute_database_query, bind at 1, get. rewrite Hup, Hq. cbn [negb].
    unfold try_except at 1, bind at 1.
    unfold _handle_natural_language_query, try_except at 1, bind at 1.
    rewrite Hmeta, Hnone. unfold bind at 1. rewrite Hsql. cbn [ret truthy_str].
    unfold try_except. reflexivity.
  - rewrite generate_sql_run in Hsql. now injection Hsql as _ <-.
Qed.

(** X15. After a [stop_server] that returns, on every world a manager
    can be in, a question is answered by the direct analysis of the
    persistence store: the manager is not running, so nothing is written to
    the terminated process and the only event of the run is the access to
    the store. (On a child that has been reaped [stop_server] does not
    return: it raises and leaves the flag as it was.) *)
Theorem queries_after_stop_use_the_store (user_question : option string) (w : World) :
  reachable w ->
  fst (stop_server w) = Ok tt ->
  let stopped := snd (stop_server w) in
  server_running stopped = false
  /\ execute_database_query user_question stopped = _basic_database_analysis stopped
  /\ trace (snd (execute_database_query user_question stopped))
     = List.app (trace stopped) [EvDb].
Proof.
  intros Hreach Hstop. apply reachable_running_has_process in Hreach. cbv zeta.
  pose proof (stopped_is_not_running w Hreach Hstop) as Hdown.
  assert (Heq : execute_database_query user_question (snd (stop_server w))
                = _basic_database_analysis (snd (stop_server w))).
  { unfold execute_database_query, bind at 1, get. now rewrite Hdown. }
  rewrite Heq. split; [exact Hdown | split; [reflexivity|]].
  destruct (basic_analysis_run (snd (stop_server w))) as (text & -> & _). reflexivity.
Qed.


(* ===================================================================== *)
(** ** Reading the reply of the LLM *)
(* ===================================================================== *)




(* ===================================================================== *)
(** ** A row the direct analysis cannot print *)
(* ===================================================================== *)

Lemma basic_session_lines_bad_id (rows : list (sqlval * Z * option string)) (i : nat) :
  Exists (fun row => forall s, fst (fst row) <> SqlText s) rows ->
  exists e, basic_session_lines i rows = Raised e /\ exn_class e = TypeError.
Proof.
  only_stated.
  revert i. induction rows as [|[[session_id n] d] rows IH]; intros i H.
  - inversion H.
  - cbn [basic_session_lines].
    destruct session_id as [| z | m x | s | b]; try (cbn; eauto).
    assert (Hrest : Exists (fun row => forall s, fst (fst row) <> SqlText s) rows).
    { inversion H as [? ? Hbad | ? ? Hrest']; subst; [|exact Hrest'].
      now destruct (Hbad s). }
    destruct (IH (S i) Hrest) as (e & -> & He). cbn. eauto.
Qed.

(** X17. One session id that is not text spoils the whole report of the
    direct analysis. When the store answers all four statements but the
    most active sessions hold an id that is NULL, a number or a blob, the
    text returned is not the report with that row left out, nor the counts
    gathered so far: it is the message Error analyzing database: followed
    by the text of a [TypeError]. *)
Theorem one_bad_session_id_spoils_the_report
        (w : World) (sessions messages : Z)
        (recent : list (option string * Z))
        (active : list (sqlval * Z * option string)) :
  db_connect (store w) = None ->
  db_session_count (store w) = Ok sessions ->
  db_message_count (store w) = Ok messages ->
  db_recent_activity (store w) = Ok recent ->
  db_active_sessions (store w) = Ok active ->
  Exists (fun row => forall s, fst (fst row) <> SqlText s) active ->
  exists e,
    exn_class e = TypeError
    /\ _basic_database_analysis w
       = (Ok ("Error analyzing database: " ++ exn_msg e), log EvDb w).
Proof.
  only_stated.
  intros Hc Hs Hm Hr Ha Hbad.
  destruct (basic_session_lines_bad_id active 1 Hbad) as (e & He & Hcls).
  exists e. split; [exact Hcls|].
  unfold _basic_database_analysis. run.
  replace (store (log EvDb w)) with (store w) by reflexivity.
  rewrite Hc, Hs, Hm, Hr, Ha. destruct active as [|row active]; [inversion Hbad|].
  now rewrite He.
Qed.


(* ===================================================================== *)
(** ** The answers of the metadata handler *)
(* ===================================================================== *)

Lemma bind_call_run {A} (tool_name : string) (arguments : json) (k : json -> M A)
      (w : World) (p : Process) :
  server_process w = Some p -> stdin p = true ->
  bind (_call_mcp_tool tool_name arguments) k w
  = k (tool_result (hd_error (pipe w)))
      (after_exchange (tool_request (request_id w + 1) tool_name arguments)
                      (set_request_id (request_id w + 1) w)).
Proof.
  intros Hp Hin. unfold bind. now rewrite (call_tool_run _ _ _ p Hp Hin).
Qed.

Lemma numbered_named_tables (names : list string) (i : nat) :
  numbered (fun i table => "  " ++ str_of_nat i ++ ". " ++ table_name_of table)
           i (map named_table names)
  = numbered table_line i names.
Proof.
  revert i. induction names as [|name names IH]; intros i; [reflexivity|].
  cbn [map numbered]. now rewrite IH.
Qed.

(** X18. The count of the tables. For a question that holds a phrase of
    the count branch, on a live transport, the answer of the metadata
    handler gives the number of elements of the list the tool returned,
    even when the question also holds a phrase of the list branch; a tool
    value of another kind (a text, a number, an object without the key
    [tables]) is answered with Unknown tables; and a tool call that yields
    nothing, or an empty list, gives no answer. *)
Theorem table_count_answer (user_question : string) (w : World) (p : Process) :
  server_process w = Some p ->
  stdin p = true ->
  any_in count_phrases (lower user_question) = true ->
  let tables := tool_result (hd_error (pipe w)) in
  let answer count :=
    answer_header user_question ++ nl ++ nl ++ "**Result:** " ++ count ++ " tables"
    ++ nl ++ nl ++ "💡 *Used MCP list_tables tool*" in
  (forall elems,
      tables = JArr elems -> elems <> [] ->
      fst (_handle_metadata_query user_question w)
      = Ok (Some (answer (str_of_nat (List.length elems)))))
  /\ (forall fields elems,
        tables = JObj fields -> Py.lookup "tables" fields = Some (JArr elems) ->
        fst (_handle_metadata_query user_question w)
        = Ok (Some (answer (str_of_nat (List.length elems)))))
  /\ (Py.truthy tables = true ->
      (forall elems, tables <> JArr elems) ->
      (forall fields, tables = JObj fields -> Py.lookup "tables" fields = None) ->
      fst (_handle_metadata_query user_question w) = Ok (Some (answer "Unknown")))
  /\ (Py.truthy tables = false ->
      fst (_handle_metadata_query user_question w) = Ok None).
Proof.
  intros Hp Hin Hq. cbv zeta.
  assert (Hrun : _handle_metadata_query user_question w
                 = try_except
                     (if Py.truthy (tool_result (hd_error (pipe w))) then
                        table_count <- lift (table_count_of (tool_result (hd_error (pipe w)))) ;;
                        ret (Some (answer_header user_question ++ nl ++ nl ++ "**Result:** "
                                   ++ table_count ++ " tables" ++ nl ++ nl
                                   ++ "💡 *Used MCP list_tables tool*"))
                      else ret None)
                     (fun _ => ret None)
                     (after_exchange (tool_request (request_id w + 1) "list_tables" (JObj []))
                                     (set_request_id (request_id w + 1) w))).
  { unfold _handle_metadata_query. cbv zeta. unfold count_phrases in Hq. rewrite Hq.
    unfold try_except. now rewrite (bind_call_run _ _ _ _ p Hp Hin). }
  rewrite Hrun. split; [|split; [|split]].
  - intros elems -> Hne. destruct elems; [congruence | reflexivity].
  - intros fields elems -> Hl. unfold table_count_of. rewrite Hl.
    destruct fields; [discriminate | reflexivity].
  - intros Ht Hnl Hno. rewrite Ht.
    destruct (tool_result (hd_error (pipe w))) as [| | | |elems|fields];
      try reflexivity; [now destruct (Hnl elems)|].
    unfold table_count_of. now rewrite (Hno fields eq_refl).
  - intros Ht. now rewrite Ht.
Qed.

(** X19. The list of the tables. For a question that holds a phrase of
    the list branch and none of the count branch, on a live transport, when
    the tool returns the tables by name, as a bare list or under the key
    [tables], the answer is the header, then one numbered line per table
    with its name, in the order received and numbered from one, then the
    footer naming the tool; an empty list gives no answer. *)
Theorem table_list_answer
        (user_question : string) (w : World) (p : Process) (names : list string) :
  server_process w = Some p ->
  stdin p = true ->
  any_in count_phrases (lower user_question) = false ->
  any_in list_phrases (lower user_question) = true ->
  tool_result (hd_error (pipe w)) = JArr (map named_table names)
  \/ tool_result (hd_error (pipe w)) = JObj [("tables", JArr (map named_table names))] ->
  fst (_handle_metadata_query user_question w)
  = Ok match names with
       | [] => None
       | _ => Some (answer_header user_question ++ nl ++ nl
                    ++ "**Tables in your database:**" ++ nl
                    ++ join nl (numbered table_line 1 names) ++ nl ++ nl
                    ++ "💡 *Used MCP list_tables tool*")
       end.
Proof.
  intros Hp Hin Hcount Hlist Htables.
  unfold _handle_metadata_query. cbv zeta.
  unfold count_phrases in Hcount. unfold list_phrases in Hlist. rewrite Hcount, Hlist.
  unfold try_except. rewrite (bind_call_run _ _ _ _ p Hp Hin).
  destruct Htables as [-> | ->].
  - destruct names as [|name names]; [reflexivity|].
    cbn [map Py.truthy table_list_of]. unfold bind, lift. cbn [Py.iter ret fst].
    change (named_table name :: map named_table names)
      with (map named_table (name :: names)).
    now rewrite numbered_named_tables.
  - destruct names as [|name names]; [reflexivity|].
    cbn [map Py.truthy table_list_of Py.lookup String.eqb Ascii.eqb Bool.eqb].
    unfold bind, lift. cbn [Py.iter ret fst].
    change (named_table name :: map named_table names)
      with (map named_table (name :: names)).
    now rewrite numbered_named_tables.
Qed.


(* ===================================================================== *)
(** ** The order of the canned calls *)
(* ===================================================================== *)

Lemma bind_lift_run {A B} (x : Result A) (k : A -> M B) (w : World) :
  bind (lift x) k w = match x with Ok a => k a w | Raised e => (Raised e, w) end.
Proof. only_stated. unfold bind, lift. now destruct x. Qed.

(** A section of the report that iterates over what a tool returned
    either completes or raises, and leaves the world as it is. *)
Lemma guarded_iter_run {A} (c1 c2 : bool) (x : Result (list json))
      (f : list json -> A) (r : A) (w : World) :
  let m := if c1 then
             if c2 then rows <- lift x ;; ret (f rows) else ret r
           else ret r in
  (exists a, m w = (Ok a, w)) \/ (exists e, m w = (Raised e, w)).
Proof.
  only_stated.
  cbv zeta. destruct c1, c2; try (left; eexists; reflexivity).
  rewrite bind_lift_run. destruct x; [left | right]; eexists; reflexivity.
Qed.

(** X20. The canned calls go out in a fixed order. On a live transport
    the statistics stage writes the six calls of the default analysis in
    the order [db_info], [list_tables], session count, message count,
    recent activity, most active sessions, with consecutive ids, whatever
    the subprocess answers; it stops early only by raising, and then what
    it has written is a beginning of that sequence. *)
Theorem canned_calls_go_out_in_order (w : World) (p : Process) :
  server_process w = Some p ->
  stdin p = true ->
  exists k,
    trace (snd (_get_mcp_database_stats w))
    = List.app (trace w) (firstn k (requests_after (request_id w) canned_calls))
    /\ (forall results, fst (_get_mcp_database_stats w) = Ok results -> k = 6).
Proof.
  intros Hp Hin.
  pose (done := fun (k : nat) (x : Result (list string) * World) =>
          trace (snd x)
          = List.app (trace w) (firstn k (requests_after (request_id w) canned_calls))
          /\ (forall results, fst x = Ok results -> k = 6)).
  assert (Hraise : forall k e w', 
            trace w' = List.app (trace w)
                         (firstn k (requests_after (request_id w) canned_calls)) ->
            done k (@Raised (list string) e, w')).
  { intros k e w' Ht. split; [exact Ht | discriminate]. }
  enough (exists k, done k (_get_mcp_database_stats w)) as (k & H1 & H2)
      by (exists k; split; assumption).
  unfold _get_mcp_database_stats. cbv zeta.
  rewrite (bind_call_run _ _ _ _ p Hp Hin).
  rewrite (bind_call_run _ _ _ _ p) by (exact Hp || exact Hin).
  match goal with
  | |- exists k, done k (bind ?m ?K ?w2) =>
      assert (Hm : (exists results, m w2 = (Ok results, w2))
                   \/ (exists e, m w2 = (Raised e, w2)))
  end.
  { apply guarded_iter_run. }
  unfold bind at 1.
  destruct Hm as [(results2 & ->) | (e & ->)].
  2:{ exists 2. apply Hraise. cbn. now rewrite <- app_assoc. }
  rewrite (bind_call_run _ _ _ _ p) by (exact Hp || exact Hin).
  rewrite (bind_call_run _ _ _ _ p) by (exact Hp || exact Hin).
  rewrite (bind_call_run _ _ _ _ p) by (exact Hp || exact Hin).
  match goal with
  | |- exists k, done k (bind ?m ?K ?w5) =>
      assert (Hm : (exists results, m w5 = (Ok results, w5))
                   \/ (exists e, m w5 = (Raised e, w5)))
  end.
  { apply guarded_iter_run. }
  unfold bind at 1.
  destruct Hm as [(results5 & ->) | (e & ->)].
  2:{ exists 5. apply Hraise. cbn. now rewrite <- !app_assoc. }
  rewrite (bind_call_run _ _ _ _ p) by (exact Hp || exact Hin).
  match goal with
  | |- exists k, done k (bind ?m ?K ?w6) =>
      assert (Hm : (exists results, m w6 = (Ok results, w6))
                   \/ (exists e, m w6 = (Raised e, w6)))
  end.
  { apply guarded_iter_run. }
  unfold bind at 1.
  destruct Hm as [(results6 & ->) | (e & ->)].
  2:{ exists 6. apply Hraise. cbn. now rewrite <- !app_assoc. }
  exists 6. split; [|reflexivity].
  destruct results6; cbn; now rewrite <- !app_assoc.
Qed.


(* ===================================================================== *)
(** ** Failures of the exchange, other shapes of result, and the two gates *)
(* ===================================================================== *)

(** X21. One request, one line. On a live transport [_send_mcp_request]
    never raises: it writes the request, takes exactly one outcome off the
    pipe, and returns the decoded line, or [None] when writing or reading
    raised, no bytes came, or the line did not decode; a pipe on which
    nothing more comes gives [None] as well. *)
Theorem one_request_one_line (request : json) (w : World) (p : Process) :
  server_process w = Some p ->
  stdin p = true ->
  trace (snd (_send_mcp_request request w)) = List.app (trace w) [EvSend request]
  /\ pipe (snd (_send_mcp_request request w)) = tl (pipe w)
  /\ (forall outcome rest,
        pipe w = outcome :: rest ->
        fst (_send_mcp_request request w)
        = Ok match outcome with
             | Line response => response
             | _ => JNull
             end)
  /\ (pipe w = [] -> fst (_send_mcp_request request w) = Ok JNull).
Proof.
  only_stated.
  intros Hp Hin. rewrite (send_run _ _ p Hp Hin). cbn [fst snd].
  split; [reflexivity | split; [reflexivity | split]].
  - intros outcome rest ->. now destruct outcome.
  - now intros ->.
Qed.

(** X22. Results of other shapes. A tool result that is neither a list
    nor an object with the key [results] (a raw text, a number, an object
    of another kind) is formatted as No data found., although it is not
    empty; and a single row that is not a mapping but holds one element
    gives the message that formatting failed. *)
Theorem formatter_on_other_shapes :
  (forall result,
      (forall rows, result <> JArr rows) ->
      (forall fields, result = JObj fields -> Py.lookup "results" fields = None) ->
      _format_query_results result = "No data found.")
  /\ (forall x,
        _format_query_results (JArr [JArr [x]])
        = "Results available but formatting failed: "
          ++ "'list' object has no attribute 'values'").
Proof.
  split.
  - intros result Hl Hf. unfold _format_query_results, _extract_query_results.
    destruct result as [| | | |rows|fields]; try reflexivity.
    + now destruct (Hl rows).
    + now rewrite (Hf fields eq_refl).
  - intros x. reflexivity.
Qed.

(** X23. The two gates. The chat endpoint calls the manager only for a
    message [is_database_query] accepts, and the router calls the metadata
    handler only for one [_is_metadata_query] accepts; a question that
    passes the second gate without passing the first holds one of the
    words schema, structure, columns, since every other metadata keyword
    holds the keyword table or database of the first gate. *)
Theorem metadata_questions_the_chat_does_not_route (question : string) :
  _is_metadata_query question = true ->
  is_database_query question = false ->
  any_in ["schema"; "structure"; "columns"] (lower question) = true.
Proof.
  only_stated.
  unfold _is_metadata_query, is_database_query. intros Hmeta Hdb.
  apply any_in_spec in Hmeta as (k & Hin & Hocc).
  assert (Hcase : any_in database_keywords k = true
                  \/ In k ["schema"; "structure"; "columns"]).
  { cbn in Hin.
    repeat (destruct Hin as [<- | Hin]; [first [now left | right; cbn; tauto]|]).
    destruct Hin. }
  destruct Hcase as [Hk | Hk].
  - apply any_in_spec in Hk as (d & Hd & Hdk).
    assert (any_in database_keywords (lower question) = true).
    { apply any_in_spec. exists d. split; [exact Hd|].
      eapply occurs_in_trans; eassumption. }
    congruence.
  - apply any_in_spec. now exists k.
Qed.

End Manager.

(* ===================================================================== *)
(** ** Worked runs *)
(* ===================================================================== *)

Import Sample.

(** *** Strings and the safety filter *)

Example upper_run : upper to_upper "Select * from t" = "SELECT * FROM T".
Proof. reflexivity. Qed.

Example strip_run : strip ("  a b " ++ nl) = "a b".
Proof. reflexivity. Qed.

Example replace_run : replace "```" "" "```sql SELECT 1```" = "sql SELECT 1".
Proof. reflexivity. Qed.

Example split_run : split_char "," "a,b,,c" = ["a"; "b"; ""; "c"].
Proof. reflexivity. Qed.

Example str_of_Z_run : (str_of_Z 0, str_of_Z 12, str_of_Z (-7)) = ("0", "12", "-7").
Proof. reflexivity. Qed.

Example clean_fences_run :
  clean_fences (strip ("```sql" ++ nl ++ "SELECT 1" ++ nl ++ "```" ++ nl)) = "SELECT 1".
Proof. reflexivity. Qed.

Example safety_filter_run :
  safety_filter to_upper "select id from sessions" = Some "select id from sessions"
  /\ safety_filter to_upper "SELECT * FROM t; drop table t" = None
  /\ safety_filter to_upper "SELECT last_updated FROM t" = None
  /\ safety_filter to_upper "INVALID" = None
  /\ safety_filter to_upper " SELECT 1" = None.
Proof. repeat split. Qed.

Example standby_run : is_database_query "Put the laptop on Standby" = true.
Proof. reflexivity. Qed.

Example no_keyword_run : is_database_query "Tell me a joke" = false.
Proof. reflexivity. Qed.

(** The translator on a safe and on an unsafe reply. *)
Example generate_sql_run_safe :
  fst (_generate_sql_from_question to_upper loads "how many sessions do I have"
         (running 1 [] (llm_replying "SELECT COUNT(*) FROM sessions")))
  = Ok (Some "SELECT COUNT(*) FROM sessions").
Proof. reflexivity. Qed.

Example generate_sql_run_unsafe :
  fst (_generate_sql_from_question to_upper loads "forget everything"
         (running 1 [] (llm_replying "DROP TABLE sessions")))
  = Ok None.
Proof. reflexivity. Qed.

(** The upper case of characters outside ASCII. *)
Example upper_outside_ascii_run :
  upper to_upper "ſelect ınsert ﬁn straße" = "SELECT INSERT FIN STRASSE".
Proof. reflexivity. Qed.

Example chars_run : chars "aé ﬁ" = ["a"; "é"; " "; "ﬁ"] /\ len "aé ﬁ" = 4 /\ take 2 "aé ﬁ" = "aé".
Proof. repeat split. Qed.

(** A statement that begins with a long s. *)
Definition long_s_statement : string := "ſELECT 1".

(** The translator returns it: its upper case begins with SELECT, though
    the statement begins neither with S nor with s, and so does not begin
    with SELECT in any letter case. *)
Lemma statement_with_a_long_s_is_returned :
  fst (_generate_sql_from_question to_upper
         (decoder [(chat_body long_s_statement, chat_json long_s_statement)])
         "count the sessions"
         (running 1 [] (llm_replying long_s_statement)))
  = Ok (Some long_s_statement)
  /\ upper to_upper long_s_statement = "SELECT 1"
  /\ startswith "S" long_s_statement = false
  /\ startswith "s" long_s_statement = false
  /\ ~ begins_nocase "SELECT" long_s_statement
  /\ ~ acceptable long_s_statement.
Proof.
  assert (H : ~ begins_nocase "SELECT" long_s_statement).
  { intros H. apply (startswith_nocase "SELECT" long_s_statement eq_refl) in H.
    discriminate H. }
  repeat split; try reflexivity; [exact H|].
  intros (Hb & _). exact (H Hb).
Qed.

(** A statement the filter of the specification would let through is
    rejected: the upper case of the dotless i is I. *)
Example dotless_i_run :
  safety_filter to_upper "SELECT 'ınsert' AS word" = None
  /\ contains "INSERT" (upper_ascii "SELECT 'ınsert' AS word") = false.
Proof. split; reflexivity. Qed.

(** *** The formatter *)

Example format_scalar_run :
  _format_query_results repr (JArr [JObj [("total", JNum 5)]]) = "**Result:** 5".
Proof. reflexivity. Qed.

Example format_rows_not_mappings_run :
  _format_query_results repr (JArr [JArr [JNum 5]])
  = "Results available but formatting failed: 'list' object has no attribute 'values'".
Proof. reflexivity. Qed.

Lemma format_query_results_shapes_witness :
  _format_query_results repr (JObj [("results", JArr (map JObj twelve_rows))])
  = join nl (List.app (map (bullet repr) (firstn 10 twelve_rows))
                      ["  ... and 2 more rows"])
  /\ List.length (map (bullet repr) (firstn 10 twelve_rows)) = 10.
Proof.
  apply (format_query_results_shapes repr
           (JObj [("results", JArr (map JObj twelve_rows))]) twelve_rows).
  - reflexivity.
  - reflexivity.
Defined.

(** *** The life cycle *)

Example start_without_launcher_run :
  start_server (created_without_launcher store_ok)
  = (Ok false, created_without_launcher store_ok).
Proof. reflexivity. Qed.

(** A manager whose subprocess came up, and whose child has since exited
    and been reaped. *)
Definition started : World :=
  run_call to_upper loads repr db_name CallStart
           (created [Line (response 1 (JObj []))] llm_down).

Definition crashed : World := set_server_process (Some dead) started.

(** The manager is running, its child is gone: [stop_server] raises, twice
    over, and the manager is still marked running. *)
Lemma stop_server_twice_witness :
  server_running crashed = true
  /\ fst (stop_server crashed) = Raised (Exn ProcessLookupError "")
  /\ fst (stop_server (snd (stop_server crashed))) = Raised (Exn ProcessLookupError "")
  /\ server_running (snd (stop_server (snd (stop_server crashed)))) = true.
Proof.
  assert (Hreach : reachable to_upper loads repr db_name crashed).
  { apply (reach_environment to_upper loads repr db_name started crashed).
    - apply reach_call, reach_fresh. repeat split.
    - repeat split; discriminate. }
  destruct (stop_server_twice to_upper loads repr db_name crashed Hreach) as [_ H].
  destruct (H dead eq_refl eq_refl) as (H1 & H2 & H3 & H4).
  split; [reflexivity|]. split; [exact H1|]. split; [exact H2|].
  now rewrite H4.
Defined.

(** The child exits at once: [start_server] returns [False] and keeps the
    handle, and the [stop_server] of the shutdown raises. *)
Example stop_after_a_failed_start_run :
  fst (start_server created_with_dead_child) = Ok false
  /\ server_process (snd (start_server created_with_dead_child)) = Some dead
  /\ fst (stop_server (snd (start_server created_with_dead_child)))
     = Raised (Exn ProcessLookupError "").
Proof. repeat split. Qed.

(** On a child that runs, two calls in a row return and the manager is
    not running. *)
Example stop_twice_run :
  server_running started = true
  /\ fst (stop_server started) = Ok tt
  /\ fst (stop_server (snd (stop_server started))) = Ok tt
  /\ server_running (snd (stop_server (snd (stop_server started)))) = false.
Proof. repeat split. Qed.

(** *** Tool calls *)

(** The first request of a running manager that has sent none, answered
    by a line tagged 999. *)
Definition tagged_999 : World :=
  running 0 [Line (response 999 (JArr [JStr "sessions"; JStr "messages"]))] llm_down.

Lemma tool_call_ignores_response_id_witness :
  fst (_call_mcp_tool loads "list_tables" (JObj []) tagged_999)
  = Ok (JArr [JStr "sessions"; JStr "messages"])
  /\ request_id (snd (_call_mcp_tool loads "list_tables" (JObj []) tagged_999)) = 1%Z.
Proof.
  destruct (tool_call_ignores_response_id loads "list_tables" (JObj []) tagged_999
              process eq_refl eq_refl) as (_ & Hid & Hany & _).
  split; [|exact Hid].
  exact (Hany (JNum 999) _ [] (JArr [JStr "sessions"; JStr "messages"])
              eq_refl eq_refl eq_refl).
Defined.

(** The request goes out with id 1, the line that comes back is tagged
    999, and its result is taken as the answer. *)
Lemma response_with_other_id_is_accepted :
  trace (snd (_call_mcp_tool loads "list_tables" (JObj []) tagged_999))
  = [EvSend (tool_request 1 "list_tables" (JObj []))]
  /\ hd_error (pipe tagged_999)
     = Some (Line (JObj [("jsonrpc", JStr "2.0"); ("id", JNum 999);
                         ("result", JArr [JStr "sessions"; JStr "messages"])]))
  /\ fst (_call_mcp_tool loads "list_tables" (JObj []) tagged_999)
     = Ok (JArr [JStr "sessions"; JStr "messages"]).
Proof. repeat split. Qed.

(** *** A query that fails *)

Definition sessions_question : string := "how many sessions do I have".
Definition sessions_sql : string := "SELECT COUNT(*) FROM sessions".

(** The translator answers; the subprocess answers the query with an
    error, or not at all. *)
Definition query_refused : World :=
  running 1 [Line (error_response 2 "SQLITE_BUSY")] (llm_replying sessions_sql).

Definition query_unanswered : World :=
  running 1 [] (llm_replying sessions_sql).

Lemma failed_query_reports_no_results_witness :
  execute_database_query to_upper loads repr db_name (Some sessions_question) query_refused
  = (Ok (no_results_message sessions_question),
     after_exchange (tool_request 2 "query" (query_arguments sessions_sql))
                    (set_request_id 2 (log (EvLlm sessions_question) query_refused))).
Proof.
  apply (failed_query_reports_no_results to_upper loads repr db_name
           sessions_question sessions_sql None
           query_refused query_refused (log (EvLlm sessions_question) query_refused)
           process).
  - reflexivity.
  - reflexivity.
  - reflexivity.
  - reflexivity.
  - reflexivity.
  - reflexivity.
  - reflexivity.
  - left. vm_compute. discriminate.
Defined.

(** The query tool call fails for want of a response; the user is told
    that nothing was found, and after the query request nothing is sent: no
    canned statistics are gathered. *)
Lemma failed_query_does_not_fall_back :
  fst (execute_database_query to_upper loads repr db_name (Some sessions_question) query_unanswered)
  = Ok ("❌ No results found for: " ++ dq ++ "how many sessions do I have" ++ dq)
  /\ trace (snd (execute_database_query to_upper loads repr db_name (Some sessions_question)
                                        query_unanswered))
     = [EvLlm sessions_question;
        EvSend (tool_request 2 "query" (query_arguments sessions_sql))]
  /\ fst (_call_mcp_tool loads "query" (query_arguments sessions_sql)
                         (log (EvLlm sessions_question) query_unanswered))
     = Ok JNull.
Proof. repeat split. Qed.

(** *** The degraded mode *)

Lemma degraded_mode_report_witness :
  let w := snd (start_server (created_without_launcher store_ok)) in
  exists report,
    fst (execute_database_query to_upper loads repr db_name (Some sessions_question) w) = Ok report
    /\ ends_with (nl ++ basic_marker) report
    /\ ~ ends_with mcp_marker report.
Proof.
  cbv zeta.
  destruct (degraded_mode_report to_upper loads repr db_name (Some sessions_question)
              (snd (start_server (created_without_launcher store_ok))) eq_refl)
    as (_ & _ & Hreport & _).
  apply Hreport. repeat split; try (eexists; reflexivity).
  eexists. split; [reflexivity|]. repeat constructor. now exists "0a1b2c3d-4e5f".
Defined.

(** The subprocess never started and the store has no tables: the text
    returned is the error message, which does not end with the marker. *)
Lemma degraded_mode_without_marker :
  let w := snd (start_server (created_without_launcher store_without_tables)) in
  server_running w = false
  /\ fst (execute_database_query to_upper loads repr db_name (Some sessions_question) w)
     = Ok "Error analyzing database: no such table: sessions"
  /\ ~ ends_with (nl ++ basic_marker)
         "Error analyzing database: no such table: sessions".
Proof.
  cbv zeta. split; [reflexivity | split; [reflexivity|]].
  intros H. apply endswith_spec in H. discriminate H.
Qed.

(** *** Metadata questions and blank questions *)

Definition tables_question : string := "What tables exist?".

Definition tables_listed : World :=
  running 1 [Line (response 2 (text_result tables_text))] llm_down.

Lemma metadata_answer_skips_nl_to_sql_witness :
  fst (execute_database_query to_upper loads repr db_name (Some tables_question) tables_listed)
  = Ok (answer_header tables_question ++ nl ++ nl
        ++ "**Tables in your database:**" ++ nl
        ++ "  1. sessions" ++ nl ++ "  2. messages" ++ nl ++ nl
        ++ "💡 *Used MCP list_tables tool*").
Proof.
  refine (f_equal fst
            (proj1 (metadata_answer_skips_nl_to_sql to_upper loads repr db_name
                      tables_question _ tables_listed
                      (after_exchange (tool_request 2 "list_tables" (JObj []))
                                      (set_request_id 2 tables_listed))
                      eq_refl eq_refl _))).
  reflexivity.
Defined.

(** A question made of a blank, a no-break space, an ideographic space
    and a line feed. *)
Definition spaces_only : string := " " ++ utf8 160 ++ utf8 12288 ++ nl.

Lemma blank_question_goes_to_default_analysis_witness :
  execute_database_query to_upper loads repr db_name (Some spaces_only) (running 1 [] llm_down)
  = (Ok no_analysis_message,
     snd (_get_mcp_database_stats loads repr db_name (running 1 [] llm_down))).
Proof.
  apply (proj1 (proj2 (blank_question_goes_to_default_analysis to_upper loads repr db_name
                         (Some spaces_only) (running 1 [] llm_down)
                         eq_refl eq_refl)) []).
  vm_compute. reflexivity.
Defined.

(** *** Exceptions on the way *)

(** The statistics stage raises on a result that is a number; the caller
    still gets a text, that of the direct analysis. *)
Definition results_is_a_number : World :=
  running 1 [NoBytes; NoBytes; NoBytes; NoBytes;
             Line (response 6 (JObj [("results", JNum 5)]))] llm_down.

Example stats_raise_run :
  fst (_get_mcp_database_stats loads repr db_name results_is_a_number)
  = Raised (Exn TypeError "'int' object is not iterable")
  /\ exists report,
      fst (execute_database_query to_upper loads repr db_name None results_is_a_number) = Ok report
      /\ ends_with (nl ++ basic_marker) report.
Proof.
  split; [reflexivity|]. eexists. split; [reflexivity|].
  apply endswith_spec. reflexivity.
Qed.

(* ===================================================================== *)
(** ** Further worked runs *)
(* ===================================================================== *)


Lemma database_query_is_a_question_witness :
  has_question (Some "Put the laptop on Standby") = true
  /\ ~ blank (Some "Put the laptop on Standby").
Proof.
  apply (database_query_is_a_question "Put the laptop on Standby"). reflexivity.
Defined.

Lemma metadata_questions_the_chat_does_not_route_witness :
  any_in ["schema"; "structure"; "columns"] (lower "Show me the schema") = true.
Proof.
  apply (metadata_questions_the_chat_does_not_route "Show me the schema");
    reflexivity.
Defined.

Lemma tool_call_needs_a_transport_witness :
  fst (_call_mcp_tool loads "db_info" (JObj []) (created_without_launcher store_ok))
  = Ok JNull
  /\ request_id (snd (_call_mcp_tool loads "db_info" (JObj [])
                                     (created_without_launcher store_ok))) = 1%Z.
Proof.
  destruct (tool_call_needs_a_transport loads "db_info" (JObj [])
              (created_without_launcher store_ok) (or_introl eq_refl))
    as (Hv & _ & _ & Hid).
  split; [exact Hv | exact Hid].
Defined.

Lemma one_request_one_line_witness :
  fst (_send_mcp_request (initialize_request 1)
         (running 0 [NotJson; Line (response 2 (JObj []))] llm_down))
  = Ok JNull
  /\ pipe (snd (_send_mcp_request (initialize_request 1)
                  (running 0 [NotJson; Line (response 2 (JObj []))] llm_down)))
     = [Line (response 2 (JObj []))].
Proof.
  destruct (one_request_one_line (initialize_request 1)
              (running 0 [NotJson; Line (response 2 (JObj []))] llm_down)
              process eq_refl eq_refl) as (_ & Hpipe & Hvalue & _).
  split; [exact (Hvalue NotJson _ eq_refl) | exact Hpipe].
Defined.


(** The count of the sessions, answered through the subprocess. *)
Definition sessions_counted : World :=
  running 1 [Line (response 2 (JObj [("results", JArr [JObj [("COUNT(*)", JNum 5)]])]))]
          (llm_replying sessions_sql).

Lemma query_answer_discloses_the_sql_witness :
  fst (execute_database_query to_upper loads repr db_name (Some sessions_question) sessions_counted)
  = Ok (sql_answer sessions_question "**Result:** 5" sessions_sql).
Proof.
  refine (proj1 (query_answer_discloses_the_sql to_upper loads repr db_name
                   sessions_question sessions_sql None
                   sessions_counted sessions_counted
                   (log (EvLlm sessions_question) sessions_counted) process
                   eq_refl eq_refl eq_refl eq_refl _ eq_refl eq_refl _)).
  - reflexivity.
  - reflexivity.
Defined.

Lemma declined_translation_falls_back_witness :
  execute_database_query to_upper loads repr db_name (Some sessions_question)
                         (running 1 [] llm_down)
  = try_except (default_analysis loads repr db_name)
               (fun _ => _basic_database_analysis)
               (log (EvLlm sessions_question) (running 1 [] llm_down)).
Proof.
  refine (proj1 (declined_translation_falls_back to_upper loads repr db_name
                   sessions_question None
                   (running 1 [] llm_down) (running 1 [] llm_down)
                   (log (EvLlm sessions_question) (running 1 [] llm_down))
                   eq_refl eq_refl eq_refl eq_refl _)).
  reflexivity.
Defined.

Lemma queries_after_stop_use_the_store_witness :
  server_running started = true
  /\ server_running (snd (stop_server started)) = false
  /\ execute_database_query to_upper loads repr db_name (Some sessions_question)
                            (snd (stop_server started))
     = _basic_database_analysis (snd (stop_server started)).
Proof.
  split; [reflexivity|].
  destruct (queries_after_stop_use_the_store to_upper loads repr db_name
              (Some sessions_question) started) as (H1 & H2 & _).
  - apply reach_call, reach_fresh. repeat split.
  - reflexivity.
  - split; [exact H1 | exact H2].
Defined.

(** A store whose only session has no id. *)
Definition store_with_null_id : Persistence :=
  mkPersistence None (Ok 1%Z) (Ok 0%Z) (Ok []) (Ok [(SqlNull, 0%Z, None)]).

Lemma one_bad_session_id_spoils_the_report_witness :
  exists e,
    exn_class e = TypeError
    /\ _basic_database_analysis (created_without_launcher store_with_null_id)
       = (Ok ("Error analyzing database: " ++ exn_msg e),
          log EvDb (created_without_launcher store_with_null_id)).
Proof.
  apply (one_bad_session_id_spoils_the_report
           (created_without_launcher store_with_null_id) 1 0 [] [(SqlNull, 0%Z, None)]);
    try reflexivity.
  constructor. intros s. discriminate.
Defined.

Definition tables_as_a_list : World :=
  running 1 [Line (response 2 (JArr (map named_table ["sessions"; "messages"])))] llm_down.

Lemma table_count_answer_witness :
  fst (_handle_metadata_query loads repr "How many tables do I have?" tables_as_a_list)
  = Ok (Some (answer_header "How many tables do I have?" ++ nl ++ nl
              ++ "**Result:** 2 tables" ++ nl ++ nl
              ++ "💡 *Used MCP list_tables tool*")).
Proof.
  destruct (table_count_answer loads repr "How many tables do I have?" tables_as_a_list
              process eq_refl eq_refl eq_refl) as (Hlist & _).
  apply (Hlist (map named_table ["sessions"; "messages"])); [reflexivity | discriminate].
Defined.

Lemma table_list_answer_witness :
  fst (_handle_metadata_query loads repr tables_question tables_as_a_list)
  = Ok (Some (answer_header tables_question ++ nl ++ nl
              ++ "**Tables in your database:**" ++ nl
              ++ "  1. sessions" ++ nl ++ "  2. messages" ++ nl ++ nl
              ++ "💡 *Used MCP list_tables tool*")).
Proof.
  apply (table_list_answer loads repr tables_question tables_as_a_list process
           ["sessions"; "messages"] eq_refl eq_refl eq_refl eq_refl).
  left. reflexivity.
Defined.

Lemma canned_calls_go_out_in_order_witness :
  exists k,
    trace (snd (_get_mcp_database_stats loads repr db_name (running 1 [] llm_down)))
    = List.app (trace (running 1 [] llm_down))
               (firstn k (requests_after 1 canned_calls))
    /\ (forall results,
          fst (_get_mcp_database_stats loads repr db_name (running 1 [] llm_down))
          = Ok results -> k = 6).
Proof.
  apply (canned_calls_go_out_in_order loads repr db_name (running 1 [] llm_down) process);
    reflexivity.
Defined.

(** The six canned requests of a running manager that has sent one. *)
Example canned_requests_run :
  sent_ids (trace (snd (_get_mcp_database_stats loads repr db_name
                                                (running 1 [] llm_down))))
  = [2; 3; 4; 5; 6; 7]%Z.
Proof. reflexivity. Qed.

(** A reply streamed in two lines, the second of which is blank. *)
Example streamed_reply_run :
  parse_ollama_response
    (decoder [(chat_body "SELECT 1", chat_json "SELECT 1")])
    ("not json" ++ nl ++ chat_body "SELECT 1" ++ nl ++ "   " ++ nl)
  = Ok (JStr "SELECT 1").
Proof. reflexivity. Qed.
